(** * The backend-selection gateway and its deterministic simulator

    A shallow embedding of three TypeScript classes:

    - [Mock]    : [MockAIService]         (mock-ai-service.ts),
    - [Real]    : [AIServiceIntegration]  (ai-integration.ts),
    - [Gateway] : [EnhancedAIService]     (enhanced-ai-integration.ts).

    JavaScript numbers are IEEE-754 binary64 values and are modelled by the
    primitive floats of the kernel; loop counters and requested counts are
    integers.  Strings are sequences of 8-bit characters: the model covers
    ASCII text (a character above 127 is left alone by [toLowerCase] and is
    neither a letter nor a digit).

    The promise that an [async] method returns is a value of [Exc]:
    [Return v] when it is fulfilled with [v], [Raise e] when it is rejected
    with [e].  The methods of the real client and of the gateway also write
    to the console, which [IO] and [Gateway.Out] record, and the methods of
    the gateway change the gateway object, which [Gateway.Out] returns.
    Everything a method reads from outside the program (HTTP replies, typed
    as the client declares them, [Math.random], the clock, the file system)
    is an explicit argument. *)

From Stdlib Require Import ZArith List String Ascii Bool Lia.
From Stdlib Require Import PrimFloat Uint63 DecimalString.
Import ListNotations.

Local Open Scope list_scope.
Local Open Scope string_scope.

Set Warnings "-inexact-float".

Set Implicit Arguments.

(** ** JavaScript values and string primitives *)

Module JS.

(** A thrown value: an axios error (with the [detail] of the reply body, when
    there is one, and its [message]) or any other error, given by the text
    that string conversion yields for it. *)
Inductive JsError : Type :=
| AxiosError (detail : option string) (message : string)
| OtherError (text : string).

Inductive Exc (A : Type) : Type :=
| Return (a : A)
| Raise (e : JsError).
Arguments Return {A} a.
Arguments Raise {A} e.

Definition bind {A B} (m : Exc A) (k : A -> Exc B) : Exc B :=
  match m with
  | Return a => k a
  | Raise e => Raise e
  end.

(** [try { body } catch (error) { handler }] *)
Definition try_catch {A} (body : Exc A) (handler : JsError -> Exc A) : Exc A :=
  match body with
  | Return a => Return a
  | Raise e => handler e
  end.

Definition is_raise {A} (m : Exc A) : bool :=
  match m with
  | Return _ => false
  | Raise _ => true
  end.

(** What the program writes to the console, one constructor per message:
    - [SwitchedToMock] : Switched to Mock AI Service
    - [SwitchedToReal] : Switched to Real AI Service
    - [RealUnhealthyFallback] :
        Real AI service unhealthy, falling back to mock service
    - [RealFailedFallback] :
        Real AI service failed, falling back to mock service
    - [RealErrorFallback] :
        Real AI service error, falling back to mock service
    - [RealNoResultsFallback] :
        Real AI service returned no results, falling back to mock service
    - [HealthCheckFailed e] : AI service health check failed: e  (a warning)
    - [TestSearchFailed e] : Test search failed: e  (a warning) *)
Inductive ConsoleLine : Type :=
| SwitchedToMock
| SwitchedToReal
| RealUnhealthyFallback
| RealFailedFallback
| RealErrorFallback
| RealNoResultsFallback
| HealthCheckFailed (error : JsError)
| TestSearchFailed (error : JsError).

(** A computation that also writes to the console. *)
Record IO (A : Type) : Type := mkIO
  { outcome : Exc A; console : list ConsoleLine }.
Arguments mkIO {A} outcome console.
Arguments outcome {A} i.
Arguments console {A} i.

Definition io_ret {A} (a : A) : IO A := mkIO (Return a) [].

Definition lift {A} (m : Exc A) : IO A := mkIO m [].

Definition log (line : ConsoleLine) : IO unit := mkIO (Return tt) [line].

Definition io_bind {A B} (m : IO A) (k : A -> IO B) : IO B :=
  match outcome m with
  | Return a =>
      let r := k a in mkIO (outcome r) (console m ++ console r)%list
  | Raise e => mkIO (Raise e) (console m)
  end.

Definition io_try_catch {A} (body : IO A) (handler : JsError -> IO A) : IO A :=
  match outcome body with
  | Return a => body
  | Raise e =>
      let r := handler e in mkIO (outcome r) (console body ++ console r)%list
  end.

(** The text of [`${error}`]. *)
Definition error_to_string (e : JsError) : string :=
  match e with
  | AxiosError _ message => "AxiosError: " ++ message
  | OtherError text => text
  end.

Definition dq : string := String (ascii_of_nat 34) EmptyString.
Definition nl : string := String (ascii_of_nat 10) EmptyString.

(** [s.startsWith(p)] *)
Fixpoint startsWith (s p : string) {struct p} : bool :=
  match p with
  | EmptyString => true
  | String c p' =>
      match s with
      | EmptyString => false
      | String d s' => Ascii.eqb c d && startsWith s' p'
      end
  end.

(** [s.includes(sub)] *)
Fixpoint includes (s sub : string) {struct s} : bool :=
  startsWith s sub ||
  match s with
  | EmptyString => false
  | String _ s' => includes s' sub
  end.

Definition in_range (lo hi : nat) (c : ascii) : bool :=
  let n := nat_of_ascii c in (lo <=? n)%nat && (n <=? hi)%nat.

Definition is_upper (c : ascii) : bool := in_range 65 90 c.
Definition is_lower (c : ascii) : bool := in_range 97 122 c.
Definition is_digit (c : ascii) : bool := in_range 48 57 c.

Definition lower_char (c : ascii) : ascii :=
  if is_upper c then ascii_of_nat (nat_of_ascii c + 32) else c.

Fixpoint map_chars (f : ascii -> ascii) (s : string) : string :=
  match s with
  | EmptyString => EmptyString
  | String c s' => String (f c) (map_chars f s')
  end.

(** [s.toLowerCase()] *)
Definition toLowerCase (s : string) : string := map_chars lower_char s.

(** [s.replace(/[^a-z0-9]/g, by)] *)
Definition replace_non_alnum (by_ : ascii) (s : string) : string :=
  map_chars (fun c => if is_lower c || is_digit c then c else by_) s.

(** [s.replace(/[^a-z0-9]/gi, by)] *)
Definition replace_non_alnum_i (by_ : ascii) (s : string) : string :=
  map_chars
    (fun c => if is_lower c || is_upper c || is_digit c then c else by_) s.

(** White space in the ASCII range: tab, line feed, vertical tab, form feed,
    carriage return and blank. *)
Definition is_white (c : ascii) : bool :=
  in_range 9 13 c || in_range 32 32 c.

Fixpoint trimStart (s : string) : string :=
  match s with
  | EmptyString => EmptyString
  | String c s' => if is_white c then trimStart s' else s
  end.

Fixpoint trimEnd (s : string) : string :=
  match s with
  | EmptyString => EmptyString
  | String c s' =>
      match trimEnd s' with
      | EmptyString => if is_white c then EmptyString else String c EmptyString
      | t => String c t
      end
  end.

(** [s.trim()] *)
Definition trim (s : string) : string := trimEnd (trimStart s).

(** A number is falsy when it is zero (of either sign) or NaN. *)
Definition falsy_number (x : float) : bool :=
  PrimFloat.eqb x 0%float || PrimFloat.is_nan x.

(** [x || d] for an optional number, an optional string, an optional
    boolean. *)
Definition or_number (x : option float) (d : float) : float :=
  match x with
  | Some v => if falsy_number v then d else v
  | None => d
  end.

Definition or_string (x : option string) (d : string) : string :=
  match x with
  | Some EmptyString => d
  | Some v => v
  | None => d
  end.

Definition or_bool (x : option bool) (d : bool) : bool :=
  match x with
  | Some true => true
  | _ => d
  end.

(** [x ?? d] *)
Definition nullish {A} (x : option A) (d : A) : A :=
  match x with
  | Some v => v
  | None => d
  end.

(** Decimal text of an integer, as in [`${i + 1}`] and [`${Date.now()}`]. *)
Definition string_of_nat (n : nat) : string :=
  NilZero.string_of_uint (Nat.to_uint n).

Definition string_of_Z (z : Z) : string :=
  NilZero.string_of_int (Z.to_int z).

(** The number that an integer counter holds. *)
Definition number_of_nat (n : nat) : float :=
  PrimFloat.of_uint63 (Uint63.of_Z (Z.of_nat n)).

End JS.
Import JS.

(** ** The records exchanged with callers (ai-integration.ts) *)

Module Validation.
Record t : Type := mk
  { valid : bool; issues : list string; warnings : list string }.
End Validation.

Module ContextItem.
(** [{ metadata: { file_path }, content }] *)
Record t : Type := mk { file_path : string; content : string }.
End ContextItem.

Module TestGenerationRequest.
Record t : Type := mk
  { requirements : string;
    context : option string;
    pageUrl : option string;
    existingTests : option string }.
End TestGenerationRequest.

Module TestGenerationResponse.
Record t : Type := mk
  { success : bool;
    code : option string;
    error : option string;
    validation : option Validation.t;
    context_used : option (list ContextItem.t) }.

Definition failure (msg : string) : t :=
  mk false None (Some msg) None None.
End TestGenerationResponse.

Module Analysis.
Record t : Type := mk
  { quality : string;
    coverage : string;
    suggestions : list string;
    improvements : list string }.
End Analysis.

Module TestAnalysisRequest.
Record t : Type := mk { testCode : string; testName : option string }.
End TestAnalysisRequest.

Module TestAnalysisResponse.
Record t : Type := mk
  { success : bool; analysis : option Analysis.t; error : option string }.

Definition failure (msg : string) : t := mk false None (Some msg).
End TestAnalysisResponse.

Module SearchResult.
(** [{ metadata: { file_path, test_name, created_at }, content, score }] *)
Record t : Type := mk
  { file_path : string;
    test_name : string;
    created_at : string;
    content : string;
    score : float }.
End SearchResult.

Module SaveResult.
(** The real client answers [{ success, filePath, error }], the simulator
    [{ success, file_path, message }] or [{ success, error }]. *)
Record t : Type := mk
  { success : bool;
    filePath : option string;
    file_path : option string;
    message : option string;
    error : option string }.

Definition failure (msg : string) : t :=
  mk false None None None (Some msg).
End SaveResult.

(** ** MockAIService (mock-ai-service.ts) *)

Module Mock.

Record MockAIServiceConfig : Type := mkConfig
  { cfg_responseDelay : option float;
    cfg_enableRandomErrors : option bool;
    cfg_errorRate : option float }.

(** [config = {}] *)
Definition empty_config : MockAIServiceConfig := mkConfig None None None.

Record MockAIService : Type := mkService
  { responseDelay : float;
    enableRandomErrors : bool;
    errorRate : float }.

(** What one call of a simulator method reads from outside: the value of
    [Math.random()], the clock ([new Date().toISOString()] at its k-th
    reading within the call, [Date.now()]), and the outcome of the
    synchronous file-system calls, each of which may throw.  [path.join]
    belongs to the platform and is taken as it comes. *)
Record World : Type := mkWorld
  { random : float;
    date_toISOString : nat -> string;
    date_now : Z;
    fs_existsSync : string -> bool;
    fs_mkdirSync : string -> Exc unit;
    fs_writeFileSync : string -> string -> Exc unit;
    path_join : string -> string -> string }.

Definition new (config : MockAIServiceConfig) : MockAIService :=
  {| responseDelay := or_number (cfg_responseDelay config) 500%float;
     enableRandomErrors := or_bool (cfg_enableRandomErrors config) false;
     errorRate := or_number (cfg_errorRate config) 0.1%float |}.

(** [simulateDelay] only postpones the fulfilment of the promise by
    [responseDelay]; it yields no value and changes no state. *)
Definition simulateDelay (this : MockAIService) : Exc unit := Return tt.

Definition shouldSimulateError (w : World) (this : MockAIService) : bool :=
  if negb (enableRandomErrors this) then false
  else PrimFloat.ltb (random w) (errorRate this).

Inductive TemplateKey : Type :=
| login | navigation | form | shopping | default.

(** The title of the generated test:
    [requirements.toLowerCase().replace(/[^a-z0-9]/g, ' ').trim()]. *)
Definition test_title (requirements : string) : string :=
  trim (replace_non_alnum " "%char (toLowerCase requirements)).

Definition template_login (title : string) : string :=
  String.concat nl
    [ "";
      "import { test, expect } from '@playwright/test';";
      "";
      "test('" ++ title ++ "', async ({ page }) => {";
      "  // Navigate to the login page";
      "  await page.goto('https://example.com/login');";
      "  ";
      "  // Fill in login credentials";
      "  await page.fill('[data-testid=" ++ dq ++ "email" ++ dq ++ "]', 'test@example.com');";
      "  await page.fill('[data-testid=" ++ dq ++ "password" ++ dq ++ "]', 'password123');";
      "  ";
      "  // Submit the form";
      "  await page.click('[data-testid=" ++ dq ++ "login-button" ++ dq ++ "]');";
      "  ";
      "  // Verify successful login";
      "  await expect(page).toHaveURL(/.*dashboard/);";
      "  await expect(page.locator('[data-testid=" ++ dq ++ "user-menu" ++ dq ++ "]')).toBeVisible();";
      "  ";
      "  // Additional verification";
      "  await expect(page.locator('text=Welcome')).toBeVisible();";
      "});" ].

Definition template_navigation (title : string) : string :=
  String.concat nl
    [ "";
      "import { test, expect } from '@playwright/test';";
      "";
      "test('" ++ title ++ "', async ({ page }) => {";
      "  // Navigate to the main page";
      "  await page.goto('https://example.com');";
      "  ";
      "  // Verify page loads correctly";
      "  await expect(page).toHaveTitle(/Example/);";
      "  await expect(page.locator('nav')).toBeVisible();";
      "  ";
      "  // Test navigation links";
      "  const navLinks = page.locator('nav a');";
      "  await expect(navLinks).toHaveCount(5);";
      "  ";
      "  // Click on a navigation link";
      "  await page.click('nav a[href=" ++ dq ++ "/about" ++ dq ++ "]');";
      "  await expect(page).toHaveURL(/.*about/);";
      "  ";
      "  // Verify page content";
      "  await expect(page.locator('h1')).toContainText('About');";
      "});" ].

Definition template_form (title : string) : string :=
  String.concat nl
    [ "";
      "import { test, expect } from '@playwright/test';";
      "";
      "test('" ++ title ++ "', async ({ page }) => {";
      "  // Navigate to the form page";
      "  await page.goto('https://example.com/contact');";
      "  ";
      "  // Fill out the form";
      "  await page.fill('[name=" ++ dq ++ "name" ++ dq ++ "]', 'John Doe');";
      "  await page.fill('[name=" ++ dq ++ "email" ++ dq ++ "]', 'john@example.com');";
      "  await page.fill('[name=" ++ dq ++ "message" ++ dq ++ "]', 'This is a test message');";
      "  ";
      "  // Submit the form";
      "  await page.click('button[type=" ++ dq ++ "submit" ++ dq ++ "]');";
      "  ";
      "  // Verify success message";
      "  await expect(page.locator('.success-message')).toBeVisible();";
      "  await expect(page.locator('.success-message')).toContainText('Thank you');";
      "});" ].

Definition template_shopping (title : string) : string :=
  String.concat nl
    [ "";
      "import { test, expect } from '@playwright/test';";
      "";
      "test('" ++ title ++ "', async ({ page }) => {";
      "  // Navigate to the store";
      "  await page.goto('https://example.com/store');";
      "  ";
      "  // Browse products";
      "  await expect(page.locator('.product-card')).toHaveCount(10);";
      "  ";
      "  // Add item to cart";
      "  await page.click('.product-card:first-child .add-to-cart');";
      "  await expect(page.locator('.cart-count')).toHaveText('1');";
      "  ";
      "  // Go to cart";
      "  await page.click('.cart-icon');";
      "  await expect(page).toHaveURL(/.*cart/);";
      "  ";
      "  // Verify cart contents";
      "  await expect(page.locator('.cart-item')).toHaveCount(1);";
      "  await expect(page.locator('.cart-total')).toBeVisible();";
      "});" ].

Definition template_default (title ctx : string) : string :=
  String.concat nl
    [ "";
      "import { test, expect } from '@playwright/test';";
      "";
      "test('" ++ title ++ "', async ({ page }) => {";
      "  // Navigate to the page";
      "  await page.goto('https://example.com');";
      "  ";
      "  // Verify page loads";
      "  await expect(page).toHaveTitle(/Example/);";
      "  await expect(page.locator('body')).toBeVisible();";
      "  ";
      "  // Test basic functionality";
      "  await expect(page.locator('main')).toBeVisible();";
      "  ";
      "  // Additional context: " ++ ctx;
      "  ";
      "  // Verify page is responsive";
      "  await page.setViewportSize({ width: 1280, height: 720 });";
      "  await expect(page.locator('nav')).toBeVisible();";
      "  ";
      "  // Test mobile view";
      "  await page.setViewportSize({ width: 375, height: 667 });";
      "  await expect(page.locator('.mobile-menu')).toBeVisible();";
      "});" ].

Definition testTemplates (requirements : string) (context : option string)
    (template : TemplateKey) : string :=
  let title := test_title requirements in
  match template with
  | login => template_login title
  | navigation => template_navigation title
  | form => template_form title
  | shopping => template_shopping title
  | default =>
      template_default title
        (or_string context "No additional context provided")
  end.

(** The choice of the template, the [if] / [else if] chain of
    [generatePlaywrightTest]. *)
Definition select_template (requirements : string) : TemplateKey :=
  let template := default in
  let reqLower := toLowerCase requirements in
  if includes reqLower "login" || includes reqLower "auth" then login
  else if includes reqLower "nav" || includes reqLower "menu" then navigation
  else if includes reqLower "form" || includes reqLower "submit" then form
  else if includes reqLower "shop" || includes reqLower "cart"
          || includes reqLower "store" then shopping
  else template.

Definition generatePlaywrightTest (requirements : string)
    (context : option string) : string :=
  testTemplates requirements context (select_template requirements).

Definition analyzeTestCode (testCode : string) : Analysis.t :=
  let suggestions := [] in
  let improvements := [] in
  let suggestions :=
    if negb (includes testCode "import { test, expect }")
    then (suggestions ++ ["Add proper Playwright imports"])%list else suggestions in
  let suggestions :=
    if negb (includes testCode "page.goto")
    then (suggestions ++ ["Consider adding page navigation"])%list
    else suggestions in
  let suggestions :=
    if negb (includes testCode "expect(")
    then (suggestions ++ ["Add assertions to verify expected behavior"])%list
    else suggestions in
  let improvements :=
    if includes testCode "await page.click"
       && negb (includes testCode "expect")
    then (improvements ++ ["Add assertions after click actions"])%list
    else improvements in
  let improvements :=
    if includes testCode "page.fill" && negb (includes testCode "expect")
    then (improvements ++ ["Verify form submissions with assertions"])%list
    else improvements in
  let score :=
    (100 - Z.of_nat (List.length suggestions) * 10
         - Z.of_nat (List.length improvements) * 5)%Z in
  if (score >=? 80)%Z then
    Analysis.mk "Excellent" "High" suggestions improvements
  else if (score >=? 60)%Z then
    Analysis.mk "Good" "Medium" suggestions improvements
  else
    Analysis.mk "Needs Improvement" "Low" suggestions improvements.

Definition checkHealth (w : World) (this : MockAIService) : Exc bool :=
  bind (simulateDelay this) (fun _ =>
  Return (negb (shouldSimulateError w this))).

Definition generateTest (w : World) (this : MockAIService)
    (request : TestGenerationRequest.t) : Exc TestGenerationResponse.t :=
  bind (simulateDelay this) (fun _ =>
  if shouldSimulateError w this then
    Return (TestGenerationResponse.failure
              "Mock AI service temporarily unavailable")
  else
    let generatedCode :=
      generatePlaywrightTest
        (TestGenerationRequest.requirements request)
        (TestGenerationRequest.context request) in
    Return
      {| TestGenerationResponse.success := true;
         TestGenerationResponse.code := Some generatedCode;
         TestGenerationResponse.error := None;
         TestGenerationResponse.validation :=
           Some (Validation.mk true []
                   ["Generated by mock AI service for development"]);
         TestGenerationResponse.context_used :=
           Some [ContextItem.mk "mock-context.ts"
                    "Mock context for development"] |}).

Definition analyzeTest (w : World) (this : MockAIService)
    (request : TestAnalysisRequest.t) : Exc TestAnalysisResponse.t :=
  bind (simulateDelay this) (fun _ =>
  if shouldSimulateError w this then
    Return (TestAnalysisResponse.failure
              "Mock analysis service temporarily unavailable")
  else
    let analysis := analyzeTestCode (TestAnalysisRequest.testCode request) in
    Return (TestAnalysisResponse.mk true (Some analysis) None)).

Definition modifyTest (w : World) (this : MockAIService)
    (filePath modificationRequest : string) : Exc TestGenerationResponse.t :=
  bind (simulateDelay this) (fun _ =>
  if shouldSimulateError w this then
    Return (TestGenerationResponse.failure
              "Mock modification service temporarily unavailable")
  else
    let modifiedCode := generatePlaywrightTest modificationRequest None in
    Return
      {| TestGenerationResponse.success := true;
         TestGenerationResponse.code :=
           Some ("// Modified test based on: " ++ modificationRequest
                 ++ nl ++ modifiedCode);
         TestGenerationResponse.error := None;
         TestGenerationResponse.validation :=
           Some (Validation.mk true [] ["Modified by mock AI service"]);
         TestGenerationResponse.context_used := None |}).

(** The i-th entry that the loop of [searchTests] pushes. *)
Definition mock_result (w : World) (query : string) (i : nat)
    : SearchResult.t :=
  {| SearchResult.file_path :=
       "tests/mock-result-" ++ string_of_nat (i + 1) ++ ".spec.ts";
     SearchResult.test_name := "Mock Test " ++ string_of_nat (i + 1);
     SearchResult.created_at := date_toISOString w i;
     SearchResult.content :=
       "// Mock test content for: " ++ query ++ nl
       ++ "// This is a generated search result for development purposes";
     SearchResult.score := (0.9 - number_of_nat i * 0.1)%float |}.

(** [for (let i = 0; i < bound; i++) mockResults.push(...)], from [i] on,
    with [fuel] the number of iterations left at most. *)
Fixpoint search_loop (w : World) (query : string) (bound : Z) (fuel : nat)
    (i : nat) (mockResults : list SearchResult.t) : list SearchResult.t :=
  match fuel with
  | O => mockResults
  | S fuel' =>
      if (Z.of_nat i <? bound)%Z
      then search_loop w query bound fuel' (i + 1)
             (mockResults ++ [mock_result w query i])%list
      else mockResults
  end.

(** [numResults] is the requested count, 10 when the caller gives none.  The
    loop runs while [i < Math.min(numResults, 5)], at most five times. *)
Definition searchTests (w : World) (this : MockAIService) (query : string)
    (numResults : option Z) : Exc (list SearchResult.t) :=
  let numResults := nullish numResults 10%Z in
  bind (simulateDelay this) (fun _ =>
  if shouldSimulateError w this then Return []
  else
    Return (search_loop w query (Z.min numResults 5) 5 0 [])).

Definition saveTest (w : World) (this : MockAIService)
    (code testName : string) (outputDir : option string)
    : Exc SaveResult.t :=
  let outputDir := nullish outputDir "tests" in
  bind (simulateDelay this) (fun _ =>
  if shouldSimulateError w this then
    Return (SaveResult.failure "Mock save service temporarily unavailable")
  else
    try_catch
      (bind (if negb (fs_existsSync w outputDir)
             then fs_mkdirSync w outputDir else Return tt) (fun _ =>
       let fileName :=
         replace_non_alnum_i "-"%char testName ++ "-"
         ++ string_of_Z (date_now w) ++ ".spec.ts" in
       let filePath := path_join w outputDir fileName in
       bind (fs_writeFileSync w filePath code) (fun _ =>
       Return
         {| SaveResult.success := true;
            SaveResult.filePath := None;
            SaveResult.file_path := Some filePath;
            SaveResult.message :=
              Some "Test saved successfully by mock service";
            SaveResult.error := None |})))
      (fun error =>
         Return (SaveResult.failure
                   ("Failed to save test: " ++ error_to_string error)))).

(** [export const mockAIService = new MockAIService()] *)
Definition mockAIService : MockAIService := new empty_config.

(** [createMockAIService(config = {})] *)
Definition createMockAIService (config : option MockAIServiceConfig)
    : MockAIService :=
  new (nullish config empty_config).

End Mock.

(** ** AIServiceIntegration (ai-integration.ts) *)

Module Real.

Record AIServiceConfig : Type := mkConfig
  { cfg_baseUrl : option string; cfg_timeout : option float }.

Definition empty_config : AIServiceConfig := mkConfig None None.

Record AIServiceIntegration : Type := mkService
  { baseUrl : string; timeout : float }.

(** [process.env['AI_SERVICE_URL'] || 'http://localhost:8000'] *)
Definition AI_SERVICE_URL (env_value : option string) : string :=
  or_string env_value "http://localhost:8000".

Definition new (env_value : option string) (config : AIServiceConfig)
    : AIServiceIntegration :=
  {| baseUrl := or_string (cfg_baseUrl config) (AI_SERVICE_URL env_value);
     timeout := or_number (cfg_timeout config) 30000%float |}.

(** The bodies posted to the backend. *)
Record GenerateBody : Type := mkGenerateBody
  { requirements : string; context_query : option string }.
Record AnalyzeBody : Type := mkAnalyzeBody
  { code : string; test_name : option string }.
Record ModifyBody : Type := mkModifyBody
  { file_path : string; modification_request : string }.
Record SearchBody : Type := mkSearchBody
  { query : string; n_results : Z }.
Record SaveBody : Type := mkSaveBody
  { save_code : string; save_test_name : string; output_dir : string }.

(** The reply bodies that the client reads fields of. *)
Record HealthData : Type := mkHealthData { status : option string }.
Record SearchData : Type := mkSearchData
  { results : option (list SearchResult.t) }.
Record SaveData : Type := mkSaveData
  { data_success : bool;
    data_file_path : option string;
    data_error : option string }.

(** The HTTP layer (axios) during one call: each request, given its URL, its
    body and the timeout, is answered with [response.data] or throws.  The
    generation, analysis and modification replies are typed by the client;
    the other three are untyped, and [None] stands for a body that has no
    properties to read (null), on which a field access throws. *)
Record Transport : Type := mkTransport
  { get_health : string -> float -> Exc (option HealthData);
    post_generate_test :
      string -> GenerateBody -> float -> Exc TestGenerationResponse.t;
    post_analyze_test :
      string -> AnalyzeBody -> float -> Exc TestAnalysisResponse.t;
    post_modify_test :
      string -> ModifyBody -> float -> Exc TestGenerationResponse.t;
    post_search_tests :
      string -> SearchBody -> float -> Exc (option SearchData);
    post_save_test : string -> SaveBody -> float -> Exc (option SaveData) }.

(** Reading a field of [response.data]. *)
Definition read_data {A} (data : option A) : Exc A :=
  match data with
  | Some d => Return d
  | None =>
      Raise (OtherError "TypeError: Cannot read properties of null")
  end.

(** [error.response?.data?.detail || error.message] *)
Definition detail_or_message (detail : option string) (message : string)
    : string :=
  or_string detail message.

(** The text that the four [catch] blocks of the shape
    [if (axios.isAxiosError(error)) ... else ...] put in the [error] field. *)
Definition error_text (error : JsError) : string :=
  match error with
  | AxiosError detail message => detail_or_message detail message
  | OtherError _ => "Unexpected error: " ++ error_to_string error
  end.

(** The HTTP request of each method: [axios.get] or [axios.post] with the
    URL, the body and the timeout that the method passes. *)
Definition request_health (tr : Transport) (this : AIServiceIntegration)
    : Exc (option HealthData) :=
  get_health tr (baseUrl this ++ "/health") (timeout this).

Definition request_generate_test (tr : Transport) (this : AIServiceIntegration)
    (request : TestGenerationRequest.t) : Exc TestGenerationResponse.t :=
  post_generate_test tr (baseUrl this ++ "/generate-test")
    {| requirements := TestGenerationRequest.requirements request;
       context_query := TestGenerationRequest.context request |}
    (timeout this).

Definition request_analyze_test (tr : Transport) (this : AIServiceIntegration)
    (request : TestAnalysisRequest.t) : Exc TestAnalysisResponse.t :=
  post_analyze_test tr (baseUrl this ++ "/analyze-test")
    {| code := TestAnalysisRequest.testCode request;
       test_name := TestAnalysisRequest.testName request |}
    (timeout this).

Definition request_modify_test (tr : Transport) (this : AIServiceIntegration)
    (filePath modificationRequest : string) : Exc TestGenerationResponse.t :=
  post_modify_test tr (baseUrl this ++ "/modify-test")
    {| file_path := filePath; modification_request := modificationRequest |}
    (timeout this).

Definition request_search_tests (tr : Transport) (this : AIServiceIntegration)
    (query : string) (numResults : Z) : Exc (option SearchData) :=
  post_search_tests tr (baseUrl this ++ "/search-tests")
    {| query := query; n_results := numResults |} (timeout this).

Definition request_save_test (tr : Transport) (this : AIServiceIntegration)
    (code testName outputDir : string) : Exc (option SaveData) :=
  post_save_test tr (baseUrl this ++ "/save-test")
    {| save_code := code;
       save_test_name := testName;
       output_dir := outputDir |} (timeout this).

Definition checkHealth (tr : Transport) (this : AIServiceIntegration)
    : IO bool :=
  io_try_catch
    (lift
       (bind (request_health tr this)
          (fun data =>
           bind (read_data data) (fun d =>
           Return
             (match status d with
              | Some s => String.eqb s "healthy"
              | None => false
              end)))))
    (fun error =>
       io_bind (log (HealthCheckFailed error)) (fun _ => io_ret false)).

Definition generateTest (tr : Transport) (this : AIServiceIntegration)
    (request : TestGenerationRequest.t) : IO TestGenerationResponse.t :=
  io_try_catch
    (lift (request_generate_test tr this request))
    (fun error => io_ret (TestGenerationResponse.failure (error_text error))).

Definition analyzeTest (tr : Transport) (this : AIServiceIntegration)
    (request : TestAnalysisRequest.t) : IO TestAnalysisResponse.t :=
  io_try_catch
    (lift (request_analyze_test tr this request))
    (fun error => io_ret (TestAnalysisResponse.failure (error_text error))).

Definition modifyTest (tr : Transport) (this : AIServiceIntegration)
    (filePath modificationRequest : string) : IO TestGenerationResponse.t :=
  io_try_catch
    (lift (request_modify_test tr this filePath modificationRequest))
    (fun error => io_ret (TestGenerationResponse.failure (error_text error))).

Definition searchTests (tr : Transport) (this : AIServiceIntegration)
    (query : string) (numResults : option Z) : IO (list SearchResult.t) :=
  let numResults := nullish numResults 10%Z in
  io_try_catch
    (lift
       (bind (request_search_tests tr this query numResults)
          (fun data =>
           bind (read_data data) (fun d =>
           Return (nullish (results d) [])))))
    (fun error =>
       io_bind (log (TestSearchFailed error)) (fun _ => io_ret [])).

Definition saveTest (tr : Transport) (this : AIServiceIntegration)
    (code testName : string) (outputDir : option string) : IO SaveResult.t :=
  let outputDir := nullish outputDir "tests" in
  io_try_catch
    (lift
       (bind (request_save_test tr this code testName outputDir)
          (fun data =>
           bind (read_data data) (fun d =>
           Return
             {| SaveResult.success := data_success d;
                SaveResult.filePath := data_file_path d;
                SaveResult.file_path := None;
                SaveResult.message := None;
                SaveResult.error := data_error d |}))))
    (fun error => io_ret (SaveResult.failure (error_text error))).

(** [export const aiService = new AIServiceIntegration()], given the value
    of the environment variable AI_SERVICE_URL. *)
Definition aiService (env_value : option string) : AIServiceIntegration :=
  new env_value empty_config.

(** [generateTestForPage] of ai-integration.ts, on the client [this] (the
    exported [aiService]). *)
Definition generateTestForPage (tr : Transport) (this : AIServiceIntegration)
    (pageUrl requirements : string) (context : option string)
    : IO TestGenerationResponse.t :=
  let fullContext :=
    match context with
    | Some (String _ _ as c) => c ++ nl ++ "Page URL: " ++ pageUrl
    | _ => "Page URL: " ++ pageUrl
    end in
  generateTest tr this
    {| TestGenerationRequest.requirements := requirements;
       TestGenerationRequest.context := Some fullContext;
       TestGenerationRequest.pageUrl := Some pageUrl;
       TestGenerationRequest.existingTests := None |}.

Definition analyzeCurrentTest (tr : Transport) (this : AIServiceIntegration)
    (testCode : string) : IO TestAnalysisResponse.t :=
  analyzeTest tr this
    {| TestAnalysisRequest.testCode := testCode;
       TestAnalysisRequest.testName := Some "Current Test" |}.

End Real.

(** ** EnhancedAIService (enhanced-ai-integration.ts) *)

Module Gateway.

Record EnhancedAIServiceConfig : Type := mkConfig
  { cfg_useMock : option bool;
    cfg_mockConfig : option Mock.MockAIServiceConfig;
    cfg_realServiceConfig : option Real.AIServiceConfig;
    cfg_autoFallback : option bool }.

Record EnhancedAIService : Type := mkService
  { realService : Real.AIServiceIntegration;
    mockService : Mock.MockAIService;
    useMock : bool;
    autoFallback : bool }.

(** [this.useMock = b] *)
Definition set_useMock (b : bool) (this : EnhancedAIService)
    : EnhancedAIService :=
  {| realService := realService this;
     mockService := mockService this;
     useMock := b;
     autoFallback := autoFallback this |}.

Definition new (env_value : option string) (config : EnhancedAIServiceConfig)
    : EnhancedAIService :=
  {| useMock := nullish (cfg_useMock config) false;
     autoFallback := nullish (cfg_autoFallback config) true;
     realService :=
       Real.new env_value
         (nullish (cfg_realServiceConfig config) Real.empty_config);
     mockService :=
       Mock.new (nullish (cfg_mockConfig config) Mock.empty_config) |}.

(** What one operation of the gateway reads from outside. *)
Record Env : Type := mkEnv
  { transport : Real.Transport; world : Mock.World }.

(** The result of a method: what the caller gets, the object afterwards and
    what was written to the console on the way. *)
Record Out (A : Type) : Type := mkOut
  { result : Exc A; self : EnhancedAIService; written : list ConsoleLine }.
Arguments mkOut {A} result self written.
Arguments result {A} o.
Arguments self {A} o.
Arguments written {A} o.

(** [return this.mockService.method(...)], after [lines] were written. *)
Definition from_mock {A} (this : EnhancedAIService) (lines : list ConsoleLine)
    (m : Exc A) : Out A :=
  mkOut m this lines.

Definition enableMock (this : EnhancedAIService) : Out unit :=
  mkOut (Return tt) (set_useMock true this) [SwitchedToMock].

Definition enableReal (this : EnhancedAIService) : Out unit :=
  mkOut (Return tt) (set_useMock false this) [SwitchedToReal].

Inductive ServiceName : Type := mock | real.

Definition getCurrentService (this : EnhancedAIService) : ServiceName :=
  if useMock this then mock else real.

Definition checkHealth (env : Env) (this : EnhancedAIService) : Out bool :=
  if useMock this then
    from_mock this [] (Mock.checkHealth (world env) (mockService this))
  else
    let r := Real.checkHealth (transport env) (realService this) in
    match outcome r with
    | Return isHealthy =>
        if negb isHealthy && autoFallback this then
          let this := set_useMock true this in
          from_mock this (console r ++ [RealUnhealthyFallback])%list
            (Mock.checkHealth (world env) (mockService this))
        else mkOut (Return isHealthy) this (console r)
    | Raise error => mkOut (Raise error) this (console r)
    end.

Definition generateTest (env : Env) (this : EnhancedAIService)
    (request : TestGenerationRequest.t) : Out TestGenerationResponse.t :=
  if useMock this then
    from_mock this []
      (Mock.generateTest (world env) (mockService this) request)
  else
    let r := Real.generateTest (transport env) (realService this) request in
    match outcome r with
    | Return result =>
        if negb (TestGenerationResponse.success result) && autoFallback this
        then
          let this := set_useMock true this in
          from_mock this (console r ++ [RealFailedFallback])%list
            (Mock.generateTest (world env) (mockService this) request)
        else mkOut (Return result) this (console r)
    | Raise error =>
        if autoFallback this then
          let this := set_useMock true this in
          from_mock this (console r ++ [RealErrorFallback])%list
            (Mock.generateTest (world env) (mockService this) request)
        else mkOut (Raise error) this (console r)
    end.

(** [{ testCode: request.testCode,
      ...(request.testName && { testName: request.testName }) }]:
    the name is copied when it is a non-empty string. *)
Definition mock_request (request : TestAnalysisRequest.t)
    : TestAnalysisRequest.t :=
  {| TestAnalysisRequest.testCode := TestAnalysisRequest.testCode request;
     TestAnalysisRequest.testName :=
       match TestAnalysisRequest.testName request with
       | Some EmptyString => None
       | other => other
       end |}.

Definition analyzeTest (env : Env) (this : EnhancedAIService)
    (request : TestAnalysisRequest.t) : Out TestAnalysisResponse.t :=
  let mockRequest := mock_request request in
  if useMock this then
    from_mock this []
      (Mock.analyzeTest (world env) (mockService this) mockRequest)
  else
    let r := Real.analyzeTest (transport env) (realService this) request in
    match outcome r with
    | Return result =>
        if negb (TestAnalysisResponse.success result) && autoFallback this
        then
          let this := set_useMock true this in
          from_mock this (console r ++ [RealFailedFallback])%list
            (Mock.analyzeTest (world env) (mockService this) mockRequest)
        else mkOut (Return result) this (console r)
    | Raise error =>
        if autoFallback this then
          let this := set_useMock true this in
          from_mock this (console r ++ [RealErrorFallback])%list
            (Mock.analyzeTest (world env) (mockService this) mockRequest)
        else mkOut (Raise error) this (console r)
    end.

Definition modifyTest (env : Env) (this : EnhancedAIService)
    (filePath modificationRequest : string) : Out TestGenerationResponse.t :=
  if useMock this then
    from_mock this []
      (Mock.modifyTest (world env) (mockService this) filePath
         modificationRequest)
  else
    let r :=
      Real.modifyTest (transport env) (realService this) filePath
        modificationRequest in
    match outcome r with
    | Return result =>
        if negb (TestGenerationResponse.success result) && autoFallback this
        then
          let this := set_useMock true this in
          from_mock this (console r ++ [RealFailedFallback])%list
            (Mock.modifyTest (world env) (mockService this) filePath
               modificationRequest)
        else mkOut (Return result) this (console r)
    | Raise error =>
        if autoFallback this then
          let this := set_useMock true this in
          from_mock this (console r ++ [RealErrorFallback])%list
            (Mock.modifyTest (world env) (mockService this) filePath
               modificationRequest)
        else mkOut (Raise error) this (console r)
    end.

Definition searchTests (env : Env) (this : EnhancedAIService)
    (query : string) (numResults : option Z) : Out (list SearchResult.t) :=
  let numResults := nullish numResults 10%Z in
  if useMock this then
    from_mock this []
      (Mock.searchTests (world env) (mockService this) query
         (Some numResults))
  else
    let r :=
      Real.searchTests (transport env) (realService this) query
        (Some numResults) in
    match outcome r with
    | Return results =>
        if (List.length results =? 0)%nat && autoFallback this then
          let this := set_useMock true this in
          from_mock this (console r ++ [RealNoResultsFallback])%list
            (Mock.searchTests (world env) (mockService this) query
               (Some numResults))
        else mkOut (Return results) this (console r)
    | Raise error =>
        if autoFallback this then
          let this := set_useMock true this in
          from_mock this (console r ++ [RealErrorFallback])%list
            (Mock.searchTests (world env) (mockService this) query
               (Some numResults))
        else mkOut (Raise error) this (console r)
    end.

Definition saveTest (env : Env) (this : EnhancedAIService)
    (code testName : string) (outputDir : option string) : Out SaveResult.t :=
  let outputDir := nullish outputDir "tests" in
  if useMock this then
    from_mock this []
      (Mock.saveTest (world env) (mockService this) code testName
         (Some outputDir))
  else
    let r :=
      Real.saveTest (transport env) (realService this) code testName
        (Some outputDir) in
    match outcome r with
    | Return result =>
        if negb (SaveResult.success result) && autoFallback this then
          let this := set_useMock true this in
          from_mock this (console r ++ [RealFailedFallback])%list
            (Mock.saveTest (world env) (mockService this) code testName
               (Some outputDir))
        else mkOut (Return result) this (console r)
    | Raise error =>
        if autoFallback this then
          let this := set_useMock true this in
          from_mock this (console r ++ [RealErrorFallback])%list
            (Mock.saveTest (world env) (mockService this) code testName
               (Some outputDir))
        else mkOut (Raise error) this (console r)
    end.

Record ServiceStatus : Type := mkStatus
  { currentService : ServiceName;
    realServiceHealthy : bool;
    mockServiceHealthy : bool;
    status_autoFallback : bool }.

Definition getServiceStatus (env : Env) (this : EnhancedAIService)
    : Out ServiceStatus :=
  let r := Real.checkHealth (transport env) (realService this) in
  match outcome r with
  | Raise error => mkOut (Raise error) this (console r)
  | Return realServiceHealthy =>
      match Mock.checkHealth (world env) (mockService this) with
      | Raise error => mkOut (Raise error) this (console r)
      | Return mockServiceHealthy =>
          mkOut
            (Return
               {| currentService := getCurrentService this;
                  realServiceHealthy := realServiceHealthy;
                  mockServiceHealthy := mockServiceHealthy;
                  status_autoFallback := autoFallback this |})
            this (console r)
      end
  end.

(** *** Sequences of operations *)

Inductive Op : Type :=
| OpEnableMock
| OpEnableReal
| OpCheckHealth
| OpGenerateTest (request : TestGenerationRequest.t)
| OpAnalyzeTest (request : TestAnalysisRequest.t)
| OpModifyTest (filePath modificationRequest : string)
| OpSearchTests (query : string) (numResults : option Z)
| OpSaveTest (code testName : string) (outputDir : option string)
| OpGetServiceStatus.

(** The object after one operation, run in its environment. *)
Definition step (this : EnhancedAIService) (call : Env * Op)
    : EnhancedAIService :=
  let (env, op) := call in
  match op with
  | OpEnableMock => self (enableMock this)
  | OpEnableReal => self (enableReal this)
  | OpCheckHealth => self (checkHealth env this)
  | OpGenerateTest request => self (generateTest env this request)
  | OpAnalyzeTest request => self (analyzeTest env this request)
  | OpModifyTest filePath modificationRequest =>
      self (modifyTest env this filePath modificationRequest)
  | OpSearchTests query numResults =>
      self (searchTests env this query numResults)
  | OpSaveTest code testName outputDir =>
      self (saveTest env this code testName outputDir)
  | OpGetServiceStatus => self (getServiceStatus env this)
  end.

(** The objects that a sequence of operations goes through, the first
    excluded. *)
Fixpoint trace (this : EnhancedAIService) (calls : list (Env * Op))
    : list EnhancedAIService :=
  match calls with
  | [] => []
  | call :: rest => let this' := step this call in this' :: trace this' rest
  end.

Definition run (this : EnhancedAIService) (calls : list (Env * Op))
    : EnhancedAIService :=
  fold_left step calls this.

Definition is_enableReal (op : Op) : bool :=
  match op with
  | OpEnableReal => true
  | _ => false
  end.

(** [export const enhancedAIService = new EnhancedAIService({...})], given
    the values of the environment variables USE_MOCK_AI and
    AI_SERVICE_URL. *)
Definition enhancedAIService (env_USE_MOCK_AI env_AI_SERVICE_URL : option string)
    : EnhancedAIService :=
  new env_AI_SERVICE_URL
    {| cfg_useMock :=
         Some (match env_USE_MOCK_AI with
               | Some value => String.eqb value "true"
               | None => false
               end);
       cfg_autoFallback := Some true;
       cfg_mockConfig :=
         Some (Mock.mkConfig (Some 300%float) (Some false) None);
       cfg_realServiceConfig := None |}.

(** [generateTestForPage] of enhanced-ai-integration.ts, on the gateway
    [this] (the exported [enhancedAIService] in its current state). *)
Definition generateTestForPage (env : Env) (this : EnhancedAIService)
    (pageUrl requirements : string) (context : option string)
    : Out TestGenerationResponse.t :=
  let fullContext :=
    match context with
    | Some (String _ _ as c) => c ++ nl ++ "Page URL: " ++ pageUrl
    | _ => "Page URL: " ++ pageUrl
    end in
  generateTest env this
    {| TestGenerationRequest.requirements := requirements;
       TestGenerationRequest.context := Some fullContext;
       TestGenerationRequest.pageUrl := Some pageUrl;
       TestGenerationRequest.existingTests := None |}.

Definition analyzeCurrentTest (env : Env) (this : EnhancedAIService)
    (testCode : string) : Out TestAnalysisResponse.t :=
  analyzeTest env this
    {| TestAnalysisRequest.testCode := testCode;
       TestAnalysisRequest.testName := Some "Current Test" |}.

(** No call of the sequence is [enableMock] or [enableReal]. *)
Definition is_mode_command (op : Op) : bool :=
  match op with
  | OpEnableMock | OpEnableReal => true
  | _ => false
  end.

End Gateway.

(** ** The test lister (list-tests.js) *)

Module ListTests.

(** An entry of the list: what [extractTestInfo] builds ([type] is set for
    hooks only) and what [scanDirectory] adds to it afterwards ([category],
    [fullPath]). *)
Record TestItem : Type := mkItem
  { name : string;
    describe : string;
    line : nat;
    file : string;
    type : option string;
    category : option string;
    fullPath : option string }.

Definition is_quote (c : ascii) : bool :=
  Ascii.eqb c "'"%char || Ascii.eqb c (ascii_of_nat 34)
  || Ascii.eqb c "`"%char.

(** The characters before the next quote character, when there is one. *)
Fixpoint until_quote (s : string) : option string :=
  match s with
  | EmptyString => None
  | String c s' =>
      if is_quote c then Some EmptyString
      else match until_quote s' with
           | Some g => Some (String c g)
           | None => None
           end
  end.

(** The first group of a match of the regular expression that the source
    applies to a line: a quote character (single, double or back quote), a
    group of one or more characters that are not quote characters, a quote
    character.  The matcher tries each position from the left; at a quote
    character the group can only be the whole run of characters that are not
    quotes after it, and the match succeeds when the run is not empty and a
    quote closes it. *)
Fixpoint first_quoted (s : string) : option string :=
  match s with
  | EmptyString => None
  | String c s' =>
      if is_quote c then
        match until_quote s' with
        | Some (String d g) => Some (String d g)
        | _ => first_quoted s'
        end
      else first_quoted s'
  end.

(** A word character, [\w]. *)
Definition is_word (c : ascii) : bool :=
  is_lower c || is_upper c || is_digit c || Ascii.eqb c "_"%char.

(** The longest run of word characters at the head of a text, and what
    follows it. *)
Fixpoint word_run (s : string) : string * string :=
  match s with
  | EmptyString => (EmptyString, EmptyString)
  | String c s' =>
      if is_word c then let (w, rest) := word_run s' in (String c w, rest)
      else (EmptyString, s)
  end.

(** [s.slice(n)] *)
Fixpoint drop (n : nat) (s : string) : string :=
  match n, s with
  | O, _ => s
  | S n', String _ s' => drop n' s'
  | S _, EmptyString => EmptyString
  end.

(** The first group of a match of the regular expression test\.(\w+)\( :
    at each position from the left, the text [test.], then the longest run of
    word characters, not empty, then an opening parenthesis. *)
Fixpoint hook_word (s : string) : option string :=
  let here :=
    if startsWith s "test." then
      match word_run (drop 5 s) with
      | (String c w, rest) =>
          if startsWith rest "(" then Some (String c w) else None
      | _ => None
      end
    else None in
  match here with
  | Some w => Some w
  | None =>
      match s with
      | EmptyString => None
      | String _ s' => hook_word s'
      end
  end.

(** [content.split('\n')] *)
Fixpoint split_lines (content : string) : list string :=
  match content with
  | EmptyString => [EmptyString]
  | String c rest =>
      if Ascii.eqb c (ascii_of_nat 10) then EmptyString :: split_lines rest
      else match split_lines rest with
           | first :: others => String c first :: others
           | [] => [String c EmptyString]
           end
  end.

(** The variables of the loop of [extractTestInfo]. *)
Record LoopState : Type := mkState
  { tests : list TestItem;
    currentTest : option TestItem;
    inTestBlock : bool;
    describeBlock : string }.

Definition starts_describe (line : string) : bool :=
  startsWith line "test.describe(" || startsWith line "describe(".

Definition starts_test (line : string) : bool :=
  startsWith line "test(" || startsWith line "it(".

Definition starts_hook (line : string) : bool :=
  startsWith line "test.beforeEach(" || startsWith line "test.afterEach("
  || startsWith line "test.beforeAll(" || startsWith line "test.afterAll(".

(** The body of the loop, for the line of index [i].  [base] is
    [path.basename(filePath)], taken from the platform. *)
Definition loop_body (base : string) (st : LoopState) (i : nat)
    (raw : string) : LoopState :=
  let line := trim raw in
  let describeBlock :=
    if starts_describe line
    then or_string (first_quoted line) "Unknown Suite"
    else describeBlock st in
  let currentTest :=
    if starts_test line then
      Some {| name := or_string (first_quoted line) "Unnamed Test";
              describe := describeBlock;
              line := i + 1;
              file := base;
              type := None;
              category := None;
              fullPath := None |}
    else currentTest st in
  let inTestBlock := if starts_test line then true else inTestBlock st in
  let tests :=
    if starts_hook line then
      (tests st
       ++ [{| name := or_string (hook_word line) "Unknown Hook" ++ " hook";
              describe := describeBlock;
              line := i + 1;
              file := base;
              type := Some "hook";
              category := None;
              fullPath := None |}])%list
    else tests st in
  if inTestBlock && String.eqb line "});" then
    {| tests :=
         match currentTest with
         | Some test => (tests ++ [test])%list
         | None => tests
         end;
       currentTest := None;
       inTestBlock := false;
       describeBlock := describeBlock |}
  else
    {| tests := tests;
       currentTest := currentTest;
       inTestBlock := inTestBlock;
       describeBlock := describeBlock |}.

(** [for (let i = 0; i < lines.length; i++)], from the line of index [i]
    on. *)
Fixpoint loop (base : string) (lines : list string) (i : nat)
    (st : LoopState) : LoopState :=
  match lines with
  | [] => st
  | raw :: rest => loop base rest (i + 1) (loop_body base st i raw)
  end.

Definition extractTestInfo (basename : string -> string)
    (content filePath : string) : list TestItem :=
  tests
    (loop (basename filePath) (split_lines content) 0
       {| tests := [];
          currentTest := None;
          inTestBlock := false;
          describeBlock := EmptyString |}).

(** The part of the file system below a path: a file, with what
    [fs.readFileSync] returns for it or throws, or a directory, with its
    entries, each a name and what it names, in the order of
    [fs.readdirSync]. *)
Inductive FsNode : Type :=
| FsFile (content : Exc string)
| FsDir (entries : FsEntries)
with FsEntries : Type :=
| FsNil
| FsCons (file : string) (node : FsNode) (rest : FsEntries).

Scheme FsNode_ind2 := Induction for FsNode Sort Prop
  with FsEntries_ind2 := Induction for FsEntries Sort Prop.

Combined Scheme FsNode_FsEntries_ind from FsNode_ind2, FsEntries_ind2.

(** [path.join] and [path.basename], taken from the platform. *)
Record Path : Type := mkPath
  { path_join : string -> string -> string;
    path_basename : string -> string }.

(** [s.endsWith(suffix)] *)
Definition endsWith (s suffix : string) : bool :=
  String.eqb (drop (String.length s - String.length suffix) s) suffix.

(** What a scan yields: the entries found, and the files that could not be
    read, each with its error, which the source reports on the console. *)
Record Scan : Type := mkScan
  { found : list TestItem; unreadable : list (string * JsError) }.

Definition scan_app (a b : Scan) : Scan :=
  {| found := (found a ++ found b)%list;
     unreadable := (unreadable a ++ unreadable b)%list |}.

(** [fileTests.forEach(test => { test.category = category;
    test.fullPath = filePath; })] *)
Definition tag (category filePath : string) (test : TestItem) : TestItem :=
  {| name := name test;
     describe := describe test;
     line := line test;
     file := file test;
     type := type test;
     category := Some category;
     fullPath := Some filePath |}.

(** [for (const file of files)] of [scanDirectory], on the entries of an
    existing directory, and its body for the entry [file] of the directory
    [dirPath]. *)
Fixpoint scan_entries (p : Path) (entries : FsEntries)
    (dirPath category : string) : Scan :=
  match entries with
  | FsNil => mkScan [] []
  | FsCons file node rest =>
      scan_app (scan_entry p node file dirPath category)
        (scan_entries p rest dirPath category)
  end
with scan_entry (p : Path) (node : FsNode) (file dirPath category : string)
    : Scan :=
  let filePath := path_join p dirPath file in
  match node with
  | FsDir sub => scan_entries p sub filePath (category ++ "/" ++ file)
  | FsFile content =>
      if endsWith file ".spec.ts" || endsWith file ".spec.js" then
        match content with
        | Return text =>
            mkScan
              (map (tag category filePath)
                 (extractTestInfo (path_basename p) text filePath))
              []
        | Raise error => mkScan [] [(filePath, error)]
        end
      else mkScan [] []
  end.

(** [scanDirectory(dirPath, category)], where [root] is what the file system
    has at [dirPath], if anything; listing something that is not a directory
    throws. *)
Definition scanDirectory (p : Path) (root : option FsNode)
    (dirPath category : string) : Exc Scan :=
  match root with
  | None => Return (mkScan [] [])
  | Some (FsFile _) =>
      Raise (OtherError "Error: ENOTDIR: not a directory, scandir")
  | Some (FsDir entries) => Return (scan_entries p entries dirPath category)
  end.

(** The four lists of [categorizeTests], under the keys AI Integration,
    Generated, Examples and Standard. *)
Record Categories : Type := mkCategories
  { ai_integration : list TestItem;
    generated : list TestItem;
    examples : list TestItem;
    standard : list TestItem }.

(** Reading [test.category.includes] when the entry has no category. *)
Definition no_category : JsError :=
  OtherError "TypeError: Cannot read properties of undefined".

(** [tests.forEach(test => ...)] of [categorizeTests], on the lists filled so
    far. *)
Fixpoint categorize (items : list TestItem) (categories : Categories)
    : Exc Categories :=
  match items with
  | [] => Return categories
  | test :: rest =>
      match category test with
      | None => Raise no_category
      | Some c =>
          if includes c "generated" then
            categorize rest
              {| ai_integration := ai_integration categories;
                 generated := (generated categories ++ [test])%list;
                 examples := examples categories;
                 standard := standard categories |}
          else if includes c "examples" then
            categorize rest
              {| ai_integration := ai_integration categories;
                 generated := generated categories;
                 examples := (examples categories ++ [test])%list;
                 standard := standard categories |}
          else if includes (file test) "ai-integration"
                  || includes (file test) "ai-generated" then
            categorize rest
              {| ai_integration := (ai_integration categories ++ [test])%list;
                 generated := generated categories;
                 examples := examples categories;
                 standard := standard categories |}
          else
            categorize rest
              {| ai_integration := ai_integration categories;
                 generated := generated categories;
                 examples := examples categories;
                 standard := (standard categories ++ [test])%list |}
      end
  end.

Definition categorizeTests (items : list TestItem) : Exc Categories :=
  categorize items (mkCategories [] [] [] []).

End ListTests.

(** ** The search command of the CLI (commands/search.ts) *)

(** Regular expressions as the command uses them: characters, the end of
    input [$], sequence, alternative and repetition, matched by derivatives.
    [Empty] matches nothing and arises from derivatives only. *)
Module Regex.

Inductive t : Type :=
| Empty
| Eps
| Chr (p : ascii -> bool)
| Eos
| Seq (r1 r2 : t)
| Alt (r1 r2 : t)
| Star (r : t).

(** Whether [r] matches the empty text, at the end of the input or before
    it. *)
Fixpoint nullable (at_end : bool) (r : t) : bool :=
  match r with
  | Empty => false
  | Eps => true
  | Chr _ => false
  | Eos => at_end
  | Seq r1 r2 => nullable at_end r1 && nullable at_end r2
  | Alt r1 r2 => nullable at_end r1 || nullable at_end r2
  | Star _ => true
  end.

(** What is left of [r] to match after the character [c]. *)
Fixpoint deriv (c : ascii) (r : t) : t :=
  match r with
  | Empty => Empty
  | Eps => Empty
  | Chr p => if p c then Eps else Empty
  | Eos => Empty
  | Seq r1 r2 =>
      Alt (Seq (deriv c r1) r2)
        (if nullable false r1 then deriv c r2 else Empty)
  | Alt r1 r2 => Alt (deriv c r1) (deriv c r2)
  | Star r1 => Seq (deriv c r1) (Star r1)
  end.

(** Whether [r] matches at the head of [s], where [s] runs to the end of the
    input. *)
Fixpoint matches_here (r : t) (s : string) : bool :=
  match s with
  | EmptyString => nullable true r
  | String c s' => nullable false r || matches_here (deriv c r) s'
  end.

(** [r.test(s)], for a pattern without the flags g and y: a match at some
    position of [s]. *)
Fixpoint test (r : t) (s : string) : bool :=
  matches_here r s ||
  match s with
  | EmptyString => false
  | String _ s' => test r s'
  end.

(** A character of a pattern under the flag i. *)
Definition chr_i (c : ascii) : t :=
  Chr (fun d => Ascii.eqb (lower_char d) (lower_char c)).

(** A literal text of a pattern under the flag i. *)
Fixpoint lit_i (w : string) : t :=
  match w with
  | EmptyString => Eps
  | String c w' => Seq (chr_i c) (lit_i w')
  end.

(** The dot: any character but a line terminator. *)
Definition dot : t :=
  Chr (fun d => negb (Ascii.eqb d (ascii_of_nat 10)
                      || Ascii.eqb d (ascii_of_nat 13))).

End Regex.

Module SearchCommand.

Import Regex.

(** [(ts|js|tsx|jsx)] *)
Definition extension : Regex.t :=
  Alt (lit_i "ts") (Alt (lit_i "js") (Alt (lit_i "tsx") (lit_i "jsx"))).

(** The four patterns of [testPatterns], in the order of the source: a name
    ending in .spec. and an extension; ending in .test. and an extension;
    the word test, any characters, a dot and an extension at the end; and
    the same after any characters. *)
Definition testPatterns : list Regex.t :=
  [ Seq (lit_i ".spec.") (Seq extension Eos);
    Seq (lit_i ".test.") (Seq extension Eos);
    Seq (lit_i "test")
      (Seq (Star dot) (Seq (lit_i ".") (Seq extension Eos)));
    Seq (Star dot)
      (Seq (lit_i "test")
         (Seq (Star dot) (Seq (lit_i ".") (Seq extension Eos)))) ].

(** The ten patterns of [excludePatterns], in the order of the source. *)
Definition excludePatterns : list Regex.t :=
  [ Seq (lit_i ".py") Eos;
    Seq (lit_i ".json") Eos;
    Seq (lit_i ".md") Eos;
    lit_i ".config.";
    Seq (lit_i "package-lock.json") Eos;
    lit_i "node_modules";
    lit_i "__pycache__";
    lit_i ".git";
    lit_i "venv";
    lit_i ".env" ].

Definition isTestFile (filePath nodeType : string) : bool :=
  if existsb (fun pattern => Regex.test pattern filePath) excludePatterns
  then false
  else if existsb (fun pattern => Regex.test pattern filePath) testPatterns
  then true
  else
    String.eqb nodeType "text_chunk"
    && (includes filePath "test" || includes filePath "spec"
        || includes filePath "tests/").

(** An entry of [result.results], as far as the command reads it. *)
Record Metadata : Type := mkMetadata
  { file_path : option string;
    node_type : option string;
    language : option string }.

Record Hit : Type := mkHit
  { metadata : option Metadata; content : option string }.

(** [(test.metadata || {}).file_path || 'Unknown file'] *)
Definition hit_path (hit : Hit) : string :=
  or_string
    (match metadata hit with
     | Some m => file_path m
     | None => None
     end) "Unknown file".

(** [(test.metadata || {}).node_type || 'unknown'] *)
Definition hit_type (hit : Hit) : string :=
  or_string
    (match metadata hit with
     | Some m => node_type m
     | None => None
     end) "unknown".

(** [result.results.filter(...)] *)
Definition testFiles (results : list Hit) : list Hit :=
  filter (fun hit => isTestFile (hit_path hit) (hit_type hit)) results.

(** [uniqueFilesMap.has(filePath)], the map being kept as the list of its
    entries in the order of insertion. *)
Definition map_has (m : list (string * Hit)) (filePath : string) : bool :=
  existsb (fun entry => String.eqb (fst entry) filePath) m.

(** [testFiles.forEach(test => { if (!uniqueFilesMap.has(filePath))
    uniqueFilesMap.set(filePath, test) })], on the map filled so far. *)
Fixpoint fill_map (hits : list Hit) (m : list (string * Hit))
    : list (string * Hit) :=
  match hits with
  | [] => m
  | hit :: rest =>
      let filePath := hit_path hit in
      if negb (map_has m filePath)
      then fill_map rest (m ++ [(filePath, hit)])%list
      else fill_map rest m
  end.

(** [Array.from(uniqueFilesMap.values())] *)
Definition uniqueTestFiles (results : list Hit) : list Hit :=
  map snd (fill_map (testFiles results) []).

End SearchCommand.

(** * Vocabulary of the properties *)

Section Vocabulary.

Import Mock.

(** The categories of the specification, and the classification in its
    words: on the lower-cased text, the first of the four tests that holds,
    in this order, decides. *)
Inductive Category : Type :=
| Authentication | Navigation | FormSubmission | Commerce | Generic.

Definition category_of (template : TemplateKey) : Category :=
  match template with
  | login => Authentication
  | navigation => Navigation
  | form => FormSubmission
  | shopping => Commerce
  | default => Generic
  end.

Definition classify (lowered : string) : Category :=
  if includes lowered "login" || includes lowered "auth" then Authentication
  else if includes lowered "nav" || includes lowered "menu" then Navigation
  else if includes lowered "form" || includes lowered "submit"
  then FormSubmission
  else if includes lowered "shop" || includes lowered "cart"
          || includes lowered "store" then Commerce
  else Generic.

(** Every template opens with the same lines up to the title of the test. *)
Definition template_head : string :=
  nl ++ "import { test, expect } from '@playwright/test';" ++ nl ++ nl
  ++ "test('".

(** What follows the title, up to the word that tells the templates
    apart. *)
Definition template_neck : string :=
  "', async ({ page }) => {" ++ nl ++ "  // Navigate to the ".

Definition template_mark (template : TemplateKey) : ascii :=
  match template with
  | login => "l"
  | navigation => "m"
  | form => "f"
  | shopping => "s"
  | default => "p"
  end%char.

(** The scores of the specification. *)
Definition nominal_scores : list float := [0.9; 0.8; 0.7; 0.6; 0.5]%float.

Fixpoint strictly_decreasing (l : list float) : bool :=
  match l with
  | x :: (y :: _) as rest => PrimFloat.ltb y x && strictly_decreasing rest
  | _ => true
  end.

(** A test that has the usual import line, a navigation call and a click,
    and no assertion. *)
Definition test_without_assertions : string :=
  "import { test, expect } from '@playwright/test';" ++ nl
  ++ "test('opens the menu', async ({ page }) => {" ++ nl
  ++ "  await page.goto('https://example.com');" ++ nl
  ++ "  await page.click('nav a');" ++ nl
  ++ "});".

(** Scenario C as the specification words it: the code has a navigation
    call, an interaction call and no assertion call; then the analysis has an
    improvement note and its quality is not Excellent. *)
Definition scenario_c_as_stated : Prop :=
  forall (w : World) (this : MockAIService) (request : TestAnalysisRequest.t),
    enableRandomErrors this = false ->
    let testCode := TestAnalysisRequest.testCode request in
    includes testCode "page.goto" = true ->
    includes testCode "await page.click" = true
    \/ includes testCode "page.fill" = true ->
    includes testCode "expect(" = false ->
    exists a : Analysis.t,
      analyzeTest w this request
      = Return (TestAnalysisResponse.mk true (Some a) None)
      /\ Analysis.improvements a <> []
      /\ Analysis.quality a <> "Excellent".

End Vocabulary.

(** The real backend is unreachable: every HTTP request throws. *)
Definition unreachable (tr : Real.Transport) : Prop :=
  (forall url t, is_raise (Real.get_health tr url t) = true)
  /\ (forall url body t,
        is_raise (Real.post_generate_test tr url body t) = true)
  /\ (forall url body t,
        is_raise (Real.post_analyze_test tr url body t) = true)
  /\ (forall url body t,
        is_raise (Real.post_modify_test tr url body t) = true)
  /\ (forall url body t,
        is_raise (Real.post_search_tests tr url body t) = true)
  /\ (forall url body t,
        is_raise (Real.post_save_test tr url body t) = true).

(** No call of the sequence is [enableReal]. *)
Definition no_enableReal (calls : list (Gateway.Env * Gateway.Op)) : bool :=
  forallb (fun call => negb (Gateway.is_enableReal (snd call))) calls.

(** ** Sample inputs *)

Definition sample_world : Mock.World :=
  {| Mock.random := 0.05%float;
     Mock.date_toISOString := fun _ => "2025-06-30T03:40:28.123Z";
     Mock.date_now := 1751254814436%Z;
     Mock.fs_existsSync := fun _ => true;
     Mock.fs_mkdirSync := fun _ => Return tt;
     Mock.fs_writeFileSync := fun _ _ => Return tt;
     Mock.path_join := fun dir file => dir ++ "/" ++ file |}.

Definition connection_refused : JsError :=
  AxiosError None "connect ECONNREFUSED 127.0.0.1:8000".

(** A backend that cannot be reached. *)
Definition transport_down : Real.Transport :=
  {| Real.get_health := fun _ _ => Raise connection_refused;
     Real.post_generate_test := fun _ _ _ => Raise connection_refused;
     Real.post_analyze_test := fun _ _ _ => Raise connection_refused;
     Real.post_modify_test := fun _ _ _ => Raise connection_refused;
     Real.post_search_tests := fun _ _ _ => Raise connection_refused;
     Real.post_save_test := fun _ _ _ => Raise connection_refused |}.

Definition sample_entry : SearchResult.t :=
  SearchResult.mk "tests/login.spec.ts" "login" "2025-06-30T03:40:28.123Z"
    "test('login', async ({ page }) => {});" 0.75%float.

(** A healthy backend that answers every request with success. *)
Definition transport_healthy : Real.Transport :=
  {| Real.get_health :=
       fun _ _ => Return (Some (Real.mkHealthData (Some "healthy")));
     Real.post_generate_test :=
       fun _ _ _ =>
         Return (TestGenerationResponse.mk true (Some "test('real');") None
                   None None);
     Real.post_analyze_test :=
       fun _ _ _ =>
         Return (TestAnalysisResponse.mk true
                   (Some (Analysis.mk "Good" "Medium" [] [])) None);
     Real.post_modify_test :=
       fun _ _ _ =>
         Return (TestGenerationResponse.mk true (Some "test('real');") None
                   None None);
     Real.post_search_tests :=
       fun _ _ _ => Return (Some (Real.mkSearchData (Some [sample_entry])));
     Real.post_save_test :=
       fun _ _ _ =>
         Return (Some (Real.mkSaveData true (Some "tests/real.spec.ts")
                         None)) |}.

(** A backend that answers, and declares every operation failed; its search
    finds nothing. *)
Definition transport_failing : Real.Transport :=
  {| Real.get_health :=
       fun _ _ => Return (Some (Real.mkHealthData (Some "degraded")));
     Real.post_generate_test :=
       fun _ _ _ => Return (TestGenerationResponse.failure "model not loaded");
     Real.post_analyze_test :=
       fun _ _ _ => Return (TestAnalysisResponse.failure "model not loaded");
     Real.post_modify_test :=
       fun _ _ _ => Return (TestGenerationResponse.failure "file not found");
     Real.post_search_tests :=
       fun _ _ _ => Return (Some (Real.mkSearchData (Some [])));
     Real.post_save_test :=
       fun _ _ _ =>
         Return (Some (Real.mkSaveData false None (Some "disk full"))) |}.

Definition env_down : Gateway.Env := Gateway.mkEnv transport_down sample_world.
Definition env_healthy : Gateway.Env :=
  Gateway.mkEnv transport_healthy sample_world.
Definition env_failing : Gateway.Env :=
  Gateway.mkEnv transport_failing sample_world.

(** The gateway as the module exports it when [USE_MOCK_AI] is not set:
    real mode, automatic fallback, a delay of 300 and no injected errors. *)
Definition sample_gateway : Gateway.EnhancedAIService :=
  Gateway.new None
    (Gateway.mkConfig (Some false)
       (Some (Mock.mkConfig (Some 300%float) (Some false) None))
       None (Some true)).

(** The same without automatic fallback. *)
Definition sample_gateway_no_fallback : Gateway.EnhancedAIService :=
  Gateway.new None
    (Gateway.mkConfig (Some false)
       (Some (Mock.mkConfig (Some 300%float) (Some false) None))
       None (Some false)).

Definition sample_mock : Mock.MockAIService :=
  Mock.new (Mock.mkConfig (Some 300%float) (Some false) None).

Definition request_login_cart : TestGenerationRequest.t :=
  TestGenerationRequest.mk "Login, then add an item to the CART"
    (Some "checkout page") None None.

Definition request_login_cart_again : TestGenerationRequest.t :=
  TestGenerationRequest.mk "Login, then add an item to the CART"
    (Some "checkout page") (Some "https://example.com/shop") None.

(** A test with a navigation call and a click in which the word expect does
    not occur. *)
Definition test_without_expect : string :=
  "test('opens the menu', async ({ page }) => {" ++ nl
  ++ "  await page.goto('https://example.com');" ++ nl
  ++ "  await page.click('nav a');" ++ nl
  ++ "});".

Definition calls_before : list (Gateway.Env * Gateway.Op) :=
  [(env_down, Gateway.OpGenerateTest request_login_cart)].

Definition calls_after : list (Gateway.Env * Gateway.Op) :=
  [(env_healthy, Gateway.OpCheckHealth);
   (env_healthy, Gateway.OpGenerateTest request_login_cart);
   (env_healthy, Gateway.OpSearchTests "login" None);
   (env_healthy, Gateway.OpSaveTest "test('x');" "login-test" None);
   (env_healthy, Gateway.OpGetServiceStatus);
   (env_healthy, Gateway.OpEnableMock);
   (env_healthy,
    Gateway.OpAnalyzeTest (TestAnalysisRequest.mk test_without_expect None));
   (env_healthy, Gateway.OpModifyTest "tests/login.spec.ts" "add logout")].

(** ** Further vocabulary *)

(** Every character of the text satisfies the test. *)
Fixpoint string_forall (p : ascii -> bool) (s : string) : bool :=
  match s with
  | EmptyString => true
  | String c s' => p c && string_forall p s'
  end.



Definition blank : ascii := " "%char.

(** A lower-case letter, a digit or a blank: what a test title is made of. *)
Definition title_char (c : ascii) : bool :=
  is_lower c || is_digit c || Ascii.eqb c blank.

(** A letter, a digit or a hyphen: what the stem of a saved file name is made
    of. *)
Definition file_name_char (c : ascii) : bool :=
  is_lower c || is_upper c || is_digit c || Ascii.eqb c "-"%char.

(** The invariant of a generation result: a success carries a non-empty
    artifact, a failure carries an error text. *)
Definition well_formed_generation (r : TestGenerationResponse.t) : Prop :=
  if TestGenerationResponse.success r
  then exists artifact,
         TestGenerationResponse.code r = Some artifact
         /\ artifact <> EmptyString
  else exists text, TestGenerationResponse.error r = Some text.

Definition no_mode_command (calls : list (Gateway.Env * Gateway.Op)) : bool :=
  forallb (fun call => negb (Gateway.is_mode_command (snd call))) calls.

(** The file names of the simulated search results. *)
Definition mock_result_paths : list string :=
  ["tests/mock-result-1.spec.ts"; "tests/mock-result-2.spec.ts";
   "tests/mock-result-3.spec.ts"; "tests/mock-result-4.spec.ts";
   "tests/mock-result-5.spec.ts"].

(** The same simulator without error injection. *)
Definition without_errors (this : Mock.MockAIService) : Mock.MockAIService :=
  {| Mock.responseDelay := Mock.responseDelay this;
     Mock.enableRandomErrors := false;
     Mock.errorRate := Mock.errorRate this |}.

(** ** Further sample inputs *)

(** The test of the documentation of the simulator: import, navigation and
    an assertion. *)
Definition documented_test : string :=
  nl ++ "    import { test, expect } from '@playwright/test';" ++ nl
  ++ "    test('example', async ({ page }) => {" ++ nl
  ++ "      await page.goto('https://example.com');" ++ nl
  ++ "      await expect(page).toHaveTitle(/Example/);" ++ nl
  ++ "    });" ++ nl ++ "  ".

(** A simulator that injects errors at the rate 0.2. *)
Definition sample_mock_errors : Mock.MockAIService :=
  Mock.new (Mock.mkConfig None (Some true) (Some 0.2%float)).

(** A world in which the output directory does not exist and cannot be
    made. *)
Definition world_readonly : Mock.World :=
  {| Mock.random := 0.5%float;
     Mock.date_toISOString := fun _ => "2025-06-30T03:40:28.123Z";
     Mock.date_now := 1751254814436%Z;
     Mock.fs_existsSync := fun _ => false;
     Mock.fs_mkdirSync :=
       fun _ => Raise (OtherError "Error: EACCES: permission denied");
     Mock.fs_writeFileSync := fun _ _ => Return tt;
     Mock.path_join := fun dir file => dir ++ "/" ++ file |}.

Definition sample_simulated_gateway : Gateway.EnhancedAIService :=
  Gateway.set_useMock true sample_gateway.

Definition request_generic : TestGenerationRequest.t :=
  TestGenerationRequest.mk "Check the page title" None None None.

(** ** Vocabulary for the test lister *)

Definition category_includes (word : string) (test : ListTests.TestItem)
    : bool :=
  match ListTests.category test with
  | Some c => includes c word
  | None => false
  end.

(** The tests that [categorizeTests] puts under each key. *)
Definition goes_to_generated (test : ListTests.TestItem) : bool :=
  category_includes "generated" test.

Definition goes_to_examples (test : ListTests.TestItem) : bool :=
  negb (category_includes "generated" test)
  && category_includes "examples" test.

Definition goes_to_ai_integration (test : ListTests.TestItem) : bool :=
  negb (category_includes "generated" test)
  && negb (category_includes "examples" test)
  && (includes (ListTests.file test) "ai-integration"
      || includes (ListTests.file test) "ai-generated").

Definition goes_to_standard (test : ListTests.TestItem) : bool :=
  negb (category_includes "generated" test)
  && negb (category_includes "examples" test)
  && negb (includes (ListTests.file test) "ai-integration"
           || includes (ListTests.file test) "ai-generated").

Definition has_category (test : ListTests.TestItem) : bool :=
  match ListTests.category test with
  | Some _ => true
  | None => false
  end.

Definition is_hook (test : ListTests.TestItem) : bool :=
  match ListTests.type test with
  | Some _ => true
  | None => false
  end.

(** The lines, trimmed, on which the loop of [extractTestInfo] acts. *)
Definition hook_line (raw : string) : bool :=
  ListTests.starts_hook (trim raw).

Definition test_line (raw : string) : bool :=
  ListTests.starts_test (trim raw).

Definition closing_line (raw : string) : bool :=
  String.eqb (trim raw) "});".

Definition count_lines (p : string -> bool) (lines : list string) : nat :=
  List.length (filter p lines).

Definition hook_names : list string :=
  ["beforeEach hook"; "afterEach hook"; "beforeAll hook"; "afterAll hook"].

(** A sample directory: a test file, a directory of generated tests with a
    file that cannot be read, and a file that is not a test file. *)
Definition sample_path : ListTests.Path :=
  ListTests.mkPath (fun dir file => dir ++ "/" ++ file) (fun p => p).

Definition sample_spec : string :=
  "test.describe('Login', () => {" ++ nl
  ++ "  test.beforeEach(async ({ page }) => {" ++ nl
  ++ "  });" ++ nl
  ++ "  test('signs in', async ({ page }) => {" ++ nl
  ++ "  });" ++ nl
  ++ "  test('never closed', async ({ page }) => {" ++ nl
  ++ "  })" ++ nl
  ++ "});".

Definition sample_tree : ListTests.FsEntries :=
  ListTests.FsCons "login.spec.ts" (ListTests.FsFile (Return sample_spec))
    (ListTests.FsCons "generated"
       (ListTests.FsDir
          (ListTests.FsCons "g.spec.js" (ListTests.FsFile (Return sample_spec))
             (ListTests.FsCons "locked.spec.ts"
                (ListTests.FsFile (Raise (OtherError "Error: EACCES")))
                ListTests.FsNil)))
       (ListTests.FsCons "notes.md" (ListTests.FsFile (Return sample_spec))
          ListTests.FsNil)).

(** The entries that the loop of [extractTestInfo] holds: those pushed and
    the test that is open. *)
Definition held (st : ListTests.LoopState) : list ListTests.TestItem :=
  (ListTests.tests st
   ++ match ListTests.currentTest st with
      | Some test => [test]
      | None => []
      end)%list.

Definition pending (st : ListTests.LoopState) : nat :=
  match ListTests.currentTest st with
  | Some _ => 1
  | None => 0
  end.

(** What an entry made at the line [raw] of number [n] looks like. *)
Definition made_at (base : string) (n : nat) (raw : string)
    (test : ListTests.TestItem) : Prop :=
  ListTests.line test = n
  /\ ListTests.file test = base
  /\ ListTests.category test = None
  /\ ListTests.fullPath test = None
  /\ ((ListTests.type test = Some "hook"
       /\ hook_line raw = true
       /\ In (ListTests.name test) hook_names)
      \/ (ListTests.type test = None /\ test_line raw = true)).

(** The test that is open, if any, is not a hook. *)
Definition open_is_test (st : ListTests.LoopState) : Prop :=
  forall test,
    ListTests.currentTest st = Some test -> ListTests.type test = None.

(** What every entry found by a scan that started with [category] has: a
    category that begins with it, and a path of which its file name is the
    base name. *)
Definition scanned (p : ListTests.Path) (category : string)
    (test : ListTests.TestItem) : Prop :=
  exists c fp,
    ListTests.category test = Some c
    /\ startsWith c category = true
    /\ ListTests.fullPath test = Some fp
    /\ ListTests.file test = ListTests.path_basename p fp.

(** ** Vocabulary for the search command *)

(** [Matches r s rest]: the pattern [r] matches the text [s] when [rest] is
    what follows [s] in the input. *)
Inductive Matches : Regex.t -> string -> string -> Prop :=
| MEps (rest : string) : Matches Regex.Eps EmptyString rest
| MChr (p : ascii -> bool) (c : ascii) (rest : string) :
    p c = true -> Matches (Regex.Chr p) (String c EmptyString) rest
| MEos : Matches Regex.Eos EmptyString EmptyString
| MSeq (r1 r2 : Regex.t) (s1 s2 rest : string) :
    Matches r1 s1 (s2 ++ rest) -> Matches r2 s2 rest ->
    Matches (Regex.Seq r1 r2) (s1 ++ s2) rest
| MAltL (r1 r2 : Regex.t) (s rest : string) :
    Matches r1 s rest -> Matches (Regex.Alt r1 r2) s rest
| MAltR (r1 r2 : Regex.t) (s rest : string) :
    Matches r2 s rest -> Matches (Regex.Alt r1 r2) s rest
| MStar0 (r : Regex.t) (rest : string) :
    Matches (Regex.Star r) EmptyString rest
| MStarS (r : Regex.t) (s1 s2 rest : string) :
    Matches r s1 (s2 ++ rest) -> Matches (Regex.Star r) s2 rest ->
    Matches (Regex.Star r) (s1 ++ s2) rest.

Definition at_end (rest : string) : bool :=
  match rest with
  | EmptyString => true
  | String _ _ => false
  end.

(** Not a line terminator. *)
Definition within_line (c : ascii) : bool :=
  negb (Ascii.eqb c (ascii_of_nat 10) || Ascii.eqb c (ascii_of_nat 13)).

Definition extensions : list string := ["ts"; "js"; "tsx"; "jsx"].

Definition excluded (filePath : string) : bool :=
  existsb (fun pattern => Regex.test pattern filePath)
    SearchCommand.excludePatterns.

Definition test_named (filePath : string) : bool :=
  existsb (fun pattern => Regex.test pattern filePath)
    SearchCommand.testPatterns.

(** The file-system entry and keys kept by [fill_map] agree. *)
Definition keyed (m : list (string * SearchCommand.Hit)) : Prop :=
  forall entry, In entry m -> fst entry = SearchCommand.hit_path (snd entry).

Definition sample_hits : list SearchCommand.Hit :=
  [ SearchCommand.mkHit
      (Some (SearchCommand.mkMetadata (Some "tests/login.spec.ts")
               (Some "function") (Some "typescript")))
      (Some "test('login', ...)");
    SearchCommand.mkHit
      (Some (SearchCommand.mkMetadata (Some "node_modules/pkg/a.spec.ts")
               (Some "function") None)) None;
    SearchCommand.mkHit
      (Some (SearchCommand.mkMetadata (Some "tests/login.spec.ts")
               (Some "text_chunk") None)) (Some "second chunk");
    SearchCommand.mkHit None None;
    SearchCommand.mkHit
      (Some (SearchCommand.mkMetadata (Some "docs/testing-notes.txt")
               (Some "text_chunk") None)) None ].

(** The texts an excluded path contains, and the endings of an excluded
    path, in lower case. *)
Definition excluded_anywhere : list string :=
  [".config."; "node_modules"; "__pycache__"; ".git"; "venv"; ".env"].

Definition excluded_endings : list string := [".py"; ".json"; ".md"].

(** * Properties *)

(** ** Strings *)

Section StringFacts.

Lemma append_assoc (a b c : string) : (a ++ b) ++ c = a ++ (b ++ c).
Proof.
  induction a as [|x a IH]; simpl; [reflexivity | now rewrite IH].
Qed.

Lemma append_inv_head (s a b : string) : s ++ a = s ++ b -> a = b.
Proof.
  induction s as [|x s IH]; simpl; intros H; [exact H|].
  injection H as H. now apply IH.
Qed.

Lemma startsWith_spec (s p : string) :
  startsWith s p = true <-> exists t, s = p ++ t.
Proof.
  revert s. induction p as [|c p IH]; intros s; simpl.
  - split; [intros _; now exists s | reflexivity].
  - destruct s as [|d s].
    + split; [discriminate | intros [t Ht]; discriminate].
    + rewrite andb_true_iff, IH, Ascii.eqb_eq. split.
      * intros [-> [t ->]]. now exists t.
      * intros [t Ht]. injection Ht as -> ->. split; [reflexivity | now exists t].
Qed.

Lemma includes_spec (s sub : string) :
  includes s sub = true <-> exists pre post, s = pre ++ sub ++ post.
Proof.
  induction s as [|c s IH].
  - simpl. rewrite orb_false_r, startsWith_spec. split.
    + intros [t Ht]. now exists EmptyString, t.
    + intros [pre [post H]]. destruct pre; [now exists post | discriminate].
  - cbn [includes]. rewrite orb_true_iff, startsWith_spec, IH. split.
    + intros [[t Ht] | [pre [post H]]].
      * now exists EmptyString, t.
      * exists (String c pre), post. simpl. now rewrite H.
    + intros [pre [post H]]. destruct pre as [|d pre].
      * left. now exists post.
      * right. simpl in H. injection H as _ H. now exists pre, post.
Qed.

(** A text includes whatever lies between two other parts of it. *)
Lemma includes_middle (pre sub post : string) :
  includes (pre ++ sub ++ post) sub = true.
Proof. apply includes_spec. now exists pre, post. Qed.

(** A text that includes a phrase includes every part of the phrase. *)
Lemma includes_part (s a b c : string) :
  includes s (a ++ b ++ c) = true -> includes s b = true.
Proof.
  rewrite !includes_spec. intros [pre [post ->]].
  exists (pre ++ a), (c ++ post). now rewrite !append_assoc.
Qed.

Lemma not_includes_part (s a b c : string) :
  includes s b = false -> includes s (a ++ b ++ c) = false.
Proof.
  intros H. destruct (includes s (a ++ b ++ c)) eqn:E; [|reflexivity].
  apply includes_part in E. congruence.
Qed.

End StringFacts.

(** ** The simulator: classification and synthesis *)

Section Classification.

Import Mock.


Lemma select_template_classify (requirements : string) :
  category_of (select_template requirements)
  = classify (toLowerCase requirements).
Proof.
  unfold select_template, classify.
  repeat match goal with
         | |- context [if ?b then _ else _] => destruct b
         end; reflexivity.
Qed.

Lemma category_of_inj (k1 k2 : TemplateKey) :
  category_of k1 = category_of k2 -> k1 = k2.
Proof. destruct k1, k2; simpl; intros H; (reflexivity || discriminate H). Qed.

Lemma testTemplates_nonempty (requirements : string) (context : option string)
    (template : TemplateKey) :
  testTemplates requirements context template <> EmptyString.
Proof. destruct template; simpl; discriminate. Qed.


Lemma testTemplates_shape (requirements : string) (context : option string)
    (template : TemplateKey) :
  exists rest,
    testTemplates requirements context template
    = template_head
      ++ (test_title requirements
          ++ template_neck ++ String (template_mark template) rest).
Proof.
  unfold testTemplates.
  generalize (test_title requirements) as title. intros title.
  destruct template; eexists;
    unfold template_login, template_navigation, template_form,
      template_shopping, template_default, template_head, template_neck;
    cbn [String.concat]; rewrite !append_assoc; cbn [append nl];
    repeat f_equal.
Qed.

(** The artifact tells which template it was made from. *)
Lemma testTemplates_inj (requirements : string) (context : option string)
    (k1 k2 : TemplateKey) :
  testTemplates requirements context k1 = testTemplates requirements context k2
  -> k1 = k2.
Proof.
  intros H.
  destruct (testTemplates_shape requirements context k1) as [r1 E1].
  destruct (testTemplates_shape requirements context k2) as [r2 E2].
  rewrite E1, E2 in H.
  do 3 apply append_inv_head in H.
  injection H as H _.
  destruct k1, k2; (reflexivity || discriminate H).
Qed.

End Classification.

Section Generation.

Import Mock.

Lemma generateTest_without_errors (w : World) (this : MockAIService)
    (request : TestGenerationRequest.t) :
  enableRandomErrors this = false ->
  generateTest w this request
  = Return
      {| TestGenerationResponse.success := true;
         TestGenerationResponse.code :=
           Some (generatePlaywrightTest
                   (TestGenerationRequest.requirements request)
                   (TestGenerationRequest.context request));
         TestGenerationResponse.error := None;
         TestGenerationResponse.validation :=
           Some (Validation.mk true []
                   ["Generated by mock AI service for development"]);
         TestGenerationResponse.context_used :=
           Some [ContextItem.mk "mock-context.ts"
                    "Mock context for development"] |}.
Proof.
  intros H. unfold generateTest, shouldSimulateError. now rewrite H.
Qed.

(** C2.  With error injection disabled, the simulator answers every
    generation request with success, and the artifact is the non-empty
    template of exactly one key, chosen from the lower-cased requirements in
    the fixed order: login or auth decide for the login template
    (Authentication); else nav or menu for the navigation template; else form
    or submit for the form template; else shop, cart or store for the shopping
    template (Commerce); else the default template (Generic).  Requirements
    with both login and cart get the login template. *)
Theorem simulator_classification (w : World) (this : MockAIService)
    (request : TestGenerationRequest.t) :
  enableRandomErrors this = false ->
  let requirements := TestGenerationRequest.requirements request in
  let context := TestGenerationRequest.context request in
  let lowered := toLowerCase requirements in
  exists (response : TestGenerationResponse.t) (artifact : string)
         (template : TemplateKey),
    generateTest w this request = Return response
    /\ TestGenerationResponse.success response = true
    /\ TestGenerationResponse.code response = Some artifact
    /\ artifact <> EmptyString
    /\ artifact = testTemplates requirements context template
    /\ (forall k, artifact = testTemplates requirements context k
                  -> k = template)
    /\ category_of template = classify lowered
    /\ (includes lowered "login" || includes lowered "auth" = true
        -> template = login)
    /\ (includes lowered "login" || includes lowered "auth" = false
        -> includes lowered "nav" || includes lowered "menu" = true
        -> template = navigation)
    /\ (includes lowered "login" || includes lowered "auth" = false
        -> includes lowered "nav" || includes lowered "menu" = false
        -> includes lowered "form" || includes lowered "submit" = true
        -> template = form)
    /\ (includes lowered "login" || includes lowered "auth" = false
        -> includes lowered "nav" || includes lowered "menu" = false
        -> includes lowered "form" || includes lowered "submit" = false
        -> includes lowered "shop" || includes lowered "cart"
           || includes lowered "store" = true
        -> template = shopping)
    /\ (includes lowered "login" || includes lowered "auth" = false
        -> includes lowered "nav" || includes lowered "menu" = false
        -> includes lowered "form" || includes lowered "submit" = false
        -> includes lowered "shop" || includes lowered "cart"
           || includes lowered "store" = false
        -> template = default)
    /\ (includes lowered "login" = true -> includes lowered "cart" = true
        -> template = login).
Proof.
  intros Hoff requirements context lowered.
  eexists. exists (generatePlaywrightTest requirements context).
  exists (select_template requirements).
  split; [apply generateTest_without_errors; exact Hoff|].
  split; [reflexivity|]. split; [reflexivity|].
  split; [apply testTemplates_nonempty|].
  split; [reflexivity|].
  split.
  { intros k Hk. symmetry. apply testTemplates_inj with requirements context.
    exact Hk. }
  split; [apply select_template_classify|].
  unfold select_template. fold lowered.
  repeat split; intros;
    repeat match goal with
           | H : ?b = _ |- context [if ?b then _ else _] => rewrite H
           end; try reflexivity.
  replace (includes lowered "login") with true by (symmetry; assumption).
  reflexivity.
Qed.

(** C8.  Two generation requests with the same requirements and the same
    context, served with error injection disabled, yield the same artifact
    text, whatever the random draws, the clock, the file system, the
    configured delay and error rate and the other request fields are at
    either call. *)
Theorem generation_idempotent (w1 w2 : World) (this1 this2 : MockAIService)
    (request1 request2 : TestGenerationRequest.t) :
  enableRandomErrors this1 = false ->
  enableRandomErrors this2 = false ->
  TestGenerationRequest.requirements request1
  = TestGenerationRequest.requirements request2 ->
  TestGenerationRequest.context request1
  = TestGenerationRequest.context request2 ->
  exists (response1 response2 : TestGenerationResponse.t) (artifact : string),
    generateTest w1 this1 request1 = Return response1
    /\ generateTest w2 this2 request2 = Return response2
    /\ TestGenerationResponse.code response1 = Some artifact
    /\ TestGenerationResponse.code response2 = Some artifact.
Proof.
  intros H1 H2 Hreq Hctx.
  rewrite (generateTest_without_errors w1 this1 request1 H1).
  rewrite (generateTest_without_errors w2 this2 request2 H2).
  rewrite Hreq, Hctx.
  do 2 eexists. eexists.
  repeat split; reflexivity.
Qed.

End Generation.

(** ** The simulator: construction *)

Section Construction.

Import Mock.

Lemma or_number_not_falsy (x : option float) (d : float) :
  falsy_number d = false -> falsy_number (or_number x d) = false.
Proof.
  intros Hd. unfold or_number. destruct x as [v|]; [|exact Hd].
  destruct (falsy_number v) eqn:E; [exact Hd | exact E].
Qed.

(** C10.  A configured delay of zero gives the delay 500 and a configured
    error rate of zero gives the rate 0.1, whatever the other fields are;
    and no configuration at all gives a service whose delay or error rate is
    zero (or NaN). *)
Theorem constructor_ignores_falsy_numbers :
  (forall errors rate,
     responseDelay (new (mkConfig (Some 0%float) errors rate)) = 500%float)
  /\ (forall delay errors,
        errorRate (new (mkConfig delay errors (Some 0%float))) = 0.1%float)
  /\ (forall config,
        PrimFloat.eqb (responseDelay (new config)) 0%float = false
        /\ falsy_number (responseDelay (new config)) = false)
  /\ (forall config,
        PrimFloat.eqb (errorRate (new config)) 0%float = false
        /\ falsy_number (errorRate (new config)) = false).
Proof.
  assert (Hfalsy : forall x, falsy_number x = false
                             -> PrimFloat.eqb x 0%float = false).
  { intros x H. unfold falsy_number in H. now apply orb_false_iff in H. }
  assert (H500 : falsy_number 500%float = false) by reflexivity.
  assert (H01 : falsy_number 0.1%float = false) by reflexivity.
  split; [intros errors rate; reflexivity|].
  split; [intros delay errors; reflexivity|].
  split; intros config; unfold new; cbn [responseDelay errorRate]; split.
  - now apply Hfalsy, or_number_not_falsy.
  - now apply or_number_not_falsy.
  - now apply Hfalsy, or_number_not_falsy.
  - now apply or_number_not_falsy.
Qed.

End Construction.

(** ** The simulator: search *)

Section Search.

Import Mock.

Variable w : World.
Variable query : string.

Lemma search_loop_spec (bound : Z) (fuel i : nat)
    (mockResults : list SearchResult.t) :
  search_loop w query bound fuel i mockResults
  = (mockResults
     ++ map (mock_result w query)
          (seq i (Nat.min fuel (Z.to_nat (bound - Z.of_nat i)))))%list.
Proof.
  revert i mockResults.
  induction fuel as [|fuel IH]; intros i mockResults.
  - simpl. now rewrite app_nil_r.
  - cbn [search_loop]. destruct (Z.ltb_spec (Z.of_nat i) bound) as [Hlt|Hge].
    + rewrite IH, <- app_assoc. f_equal.
      replace (Z.to_nat (bound - Z.of_nat i))
        with (S (Z.to_nat (bound - Z.of_nat (i + 1)))) by lia.
      rewrite <- Nat.succ_min_distr. cbn [seq map app].
      now rewrite Nat.add_1_r.
    + replace (Z.to_nat (bound - Z.of_nat i)) with 0%nat by lia.
      rewrite Nat.min_0_r. simpl. now rewrite app_nil_r.
Qed.

(** Five iterations are enough for the loop, whatever count is asked for. *)
Lemma search_loop_five (numResults : Z) :
  search_loop w query (Z.min numResults 5) 5 0 []
  = map (mock_result w query) (seq 0 (Z.to_nat (Z.min numResults 5))).
Proof.
  rewrite search_loop_spec. cbn [app]. do 2 f_equal. lia.
Qed.

(** More iterations would change nothing. *)
Lemma search_loop_enough (numResults : Z) (fuel : nat) :
  (5 <= fuel)%nat ->
  search_loop w query (Z.min numResults 5) fuel 0 []
  = search_loop w query (Z.min numResults 5) 5 0 [].
Proof.
  intros Hfuel. rewrite !search_loop_spec. do 3 f_equal. lia.
Qed.

Lemma searchTests_without_errors (this : MockAIService)
    (numResults : option Z) :
  enableRandomErrors this = false ->
  searchTests w this query numResults
  = Return
      (map (mock_result w query)
         (seq 0 (Z.to_nat (Z.min (nullish numResults 10%Z) 5)))).
Proof.
  intros H. unfold searchTests, shouldSimulateError, simulateDelay.
  rewrite H. cbn [bind negb]. now rewrite search_loop_five.
Qed.

End Search.


(** C7.  With error injection disabled the simulated search for a count
    [n >= 0] returns exactly [min n 5] entries; the score of the entry at
    index i is the number [0.9 - i * 0.1], which makes the scores 0.9, 0.8,
    0.7, 0.6, 0.5 in this order, strictly decreasing; the content of every
    entry includes the query; and for [n = 3] the scores are 0.9, 0.8,
    0.7. *)
Theorem simulated_search (w : Mock.World) (this : Mock.MockAIService)
    (query : string) (n : Z) :
  Mock.enableRandomErrors this = false ->
  (0 <= n)%Z ->
  exists results : list SearchResult.t,
    Mock.searchTests w this query (Some n) = Return results
    /\ List.length results = Z.to_nat (Z.min n 5)
    /\ map SearchResult.score results
       = firstn (Z.to_nat (Z.min n 5)) nominal_scores
    /\ (forall i e, nth_error results i = Some e ->
          SearchResult.score e = (0.9 - number_of_nat i * 0.1)%float)
    /\ strictly_decreasing (map SearchResult.score results) = true
    /\ (forall e, In e results ->
          includes (SearchResult.content e) query = true)
    /\ (n = 3%Z ->
        map SearchResult.score results = [0.9; 0.8; 0.7]%float).
Proof.
  intros Hoff Hn.
  rewrite (searchTests_without_errors w query this (Some n) Hoff).
  cbn [nullish]. eexists. split; [reflexivity|].
  set (k := Z.to_nat (Z.min n 5)).
  assert (Hk : (k <= 5)%nat) by (unfold k; lia).
  assert (Hscores :
            map SearchResult.score
              (map (Mock.mock_result w query) (seq 0 k))
            = firstn k nominal_scores).
  { do 6 (destruct k as [|k]; [vm_compute; reflexivity|]). lia. }
  split; [now rewrite length_map, length_seq|].
  split; [exact Hscores|].
  split.
  { intros i e. rewrite nth_error_map.
    destruct (nth_error (seq 0 k) i) as [j|] eqn:E; [|discriminate].
    intros [= <-]. cbn [SearchResult.score Mock.mock_result].
    rewrite nth_error_seq in E.
    destruct (i <? k)%nat; [|discriminate E]. now injection E as <-. }
  split.
  { rewrite Hscores.
    do 6 (destruct k as [|k]; [vm_compute; reflexivity|]). lia. }
  split.
  { intros e He. apply in_map_iff in He. destruct He as [i [<- _]].
    cbn [SearchResult.content Mock.mock_result]. apply includes_middle. }
  intros ->. reflexivity.
Qed.

(** ** The simulator: analysis *)

Section AnalysisFacts.

Import Mock.

Lemma analyzeTest_without_errors (w : World) (this : MockAIService)
    (request : TestAnalysisRequest.t) :
  enableRandomErrors this = false ->
  analyzeTest w this request
  = Return
      (TestAnalysisResponse.mk true
         (Some (analyzeTestCode (TestAnalysisRequest.testCode request)))
         None).
Proof.
  intros H. unfold analyzeTest, shouldSimulateError. now rewrite H.
Qed.


(** C6, as stated, fails: the import line of a test names [expect], which is
    enough for the analysis to add no improvement note, and with the single
    suggestion left the score is 90 and the quality Excellent. *)
Lemma scenario_c_counterexample :
  includes test_without_assertions "page.goto" = true
  /\ includes test_without_assertions "await page.click" = true
  /\ includes test_without_assertions "expect(" = false
  /\ analyzeTestCode test_without_assertions
     = Analysis.mk "Excellent" "High"
         ["Add assertions to verify expected behavior"] []
  /\ ~ scenario_c_as_stated.
Proof.
  split; [reflexivity|]. split; [reflexivity|]. split; [reflexivity|].
  split; [reflexivity|].
  intros claim.
  destruct (claim
              (mkWorld 0%float (fun _ => EmptyString) 0%Z (fun _ => true)
                 (fun _ => Return tt) (fun _ _ => Return tt)
                 (fun a b => a ++ "/" ++ b))
              (new empty_config)
              (TestAnalysisRequest.mk test_without_assertions None)
              eq_refl eq_refl (or_introl eq_refl) eq_refl)
    as [a [Ha [Himp _]]].
  apply Himp.
  rewrite analyzeTest_without_errors in Ha by reflexivity.
  injection Ha as <-. reflexivity.
Qed.

(** C6, amended.  With error injection disabled, for code that includes
    [page.goto], includes [await page.click] or [page.fill], and has no
    assertion call (does not include [expect(]), the analysis succeeds and
    carries the suggestion to add assertions; and when the word [expect]
    does not occur in the code at all, it also carries an improvement note
    for each kind of interaction present (at least one), exactly the two
    suggestions about imports and assertions, quality Good and coverage
    Medium. *)
Theorem analysis_without_expect (w : World) (this : MockAIService)
    (request : TestAnalysisRequest.t) :
  enableRandomErrors this = false ->
  let testCode := TestAnalysisRequest.testCode request in
  includes testCode "page.goto" = true ->
  includes testCode "await page.click" = true
  \/ includes testCode "page.fill" = true ->
  includes testCode "expect(" = false ->
  exists a : Analysis.t,
    analyzeTest w this request
    = Return (TestAnalysisResponse.mk true (Some a) None)
    /\ In "Add assertions to verify expected behavior"
         (Analysis.suggestions a)
    /\ (includes testCode "expect" = false ->
        Analysis.improvements a <> []
        /\ (includes testCode "await page.click" = true ->
            In "Add assertions after click actions"
              (Analysis.improvements a))
        /\ (includes testCode "page.fill" = true ->
            In "Verify form submissions with assertions"
              (Analysis.improvements a))
        /\ Analysis.suggestions a
           = ["Add proper Playwright imports";
              "Add assertions to verify expected behavior"]
        /\ Analysis.quality a = "Good"
        /\ Analysis.coverage a = "Medium").
Proof.
  intros Hoff testCode Hgoto Hact Hcall.
  rewrite (analyzeTest_without_errors w this request Hoff).
  fold testCode. eexists. split; [reflexivity|].
  unfold analyzeTestCode. rewrite Hgoto, Hcall.
  destruct (includes testCode "expect") eqn:Hexpect.
  - split; [|discriminate].
    destruct (includes testCode "import { test, expect }");
      rewrite !andb_false_r; cbn; auto.
  - assert (Himport : includes testCode "import { test, expect }" = false).
    { apply (not_includes_part testCode "import { test, " "expect" " }").
      exact Hexpect. }
    rewrite Himport.
    destruct (includes testCode "await page.click") eqn:Hclick;
      destruct (includes testCode "page.fill") eqn:Hfill; cbn.
    + repeat split; (discriminate || auto).
    + repeat split; (discriminate || auto).
    + repeat split; (discriminate || auto).
    + destruct Hact; discriminate.
Qed.

End AnalysisFacts.

(** ** The simulator never throws *)

Section MockTotal.

Import Mock.

Variable w : World.
Variable this : MockAIService.

Lemma mock_checkHealth_returns :
  exists b, checkHealth w this = Return b.
Proof. unfold checkHealth. cbn. eexists. reflexivity. Qed.

Lemma mock_generateTest_returns (request : TestGenerationRequest.t) :
  exists r,
    generateTest w this request = Return r
    /\ (TestGenerationResponse.success r = true
        \/ r = TestGenerationResponse.failure
                 "Mock AI service temporarily unavailable").
Proof.
  unfold generateTest. cbn [bind simulateDelay].
  destruct (shouldSimulateError w this); eexists; split;
    try reflexivity; [right | left]; reflexivity.
Qed.

Lemma mock_analyzeTest_returns (request : TestAnalysisRequest.t) :
  exists r,
    analyzeTest w this request = Return r
    /\ (TestAnalysisResponse.success r = true
        \/ r = TestAnalysisResponse.failure
                 "Mock analysis service temporarily unavailable").
Proof.
  unfold analyzeTest. cbn [bind simulateDelay].
  destruct (shouldSimulateError w this); eexists; split;
    try reflexivity; [right | left]; reflexivity.
Qed.

Lemma mock_modifyTest_returns (filePath modificationRequest : string) :
  exists r,
    modifyTest w this filePath modificationRequest = Return r
    /\ (TestGenerationResponse.success r = true
        \/ r = TestGenerationResponse.failure
                 "Mock modification service temporarily unavailable").
Proof.
  unfold modifyTest. cbn [bind simulateDelay].
  destruct (shouldSimulateError w this); eexists; split;
    try reflexivity; [right | left]; reflexivity.
Qed.

Lemma mock_searchTests_returns (query : string) (numResults : option Z) :
  exists results, searchTests w this query numResults = Return results.
Proof.
  unfold searchTests. cbn [bind simulateDelay].
  destruct (shouldSimulateError w this); eexists; reflexivity.
Qed.

Lemma mock_saveTest_returns (code testName : string)
    (outputDir : option string) :
  exists r,
    saveTest w this code testName outputDir = Return r
    /\ (SaveResult.success r = true
        \/ r = SaveResult.failure "Mock save service temporarily unavailable"
        \/ exists error,
             r = SaveResult.failure
                   ("Failed to save test: " ++ error_to_string error)).
Proof.
  unfold saveTest. cbn [bind simulateDelay].
  destruct (shouldSimulateError w this).
  { eexists. split; [reflexivity|]. right. left. reflexivity. }
  destruct (fs_existsSync w (nullish outputDir "tests")); cbn [negb].
  - cbn [bind]. destruct (fs_writeFileSync w _ code) as [[]|e]; cbn.
    + eexists. split; [reflexivity|]. left. reflexivity.
    + eexists. split; [reflexivity|]. right. right. now exists e.
  - destruct (fs_mkdirSync w (nullish outputDir "tests")) as [[]|e]; cbn.
    + destruct (fs_writeFileSync w _ code) as [[]|e]; cbn.
      * eexists. split; [reflexivity|]. left. reflexivity.
      * eexists. split; [reflexivity|]. right. right. now exists e.
    + eexists. split; [reflexivity|]. right. right. now exists e.
Qed.

End MockTotal.

(** ** The real client *)

Section RealClient.

Import Real.

Variable tr : Transport.
Variable this : AIServiceIntegration.

Lemma real_checkHealth_returns :
  exists b, outcome (checkHealth tr this) = Return b.
Proof.
  unfold checkHealth, io_try_catch, lift. cbn [outcome].
  destruct (request_health tr this) as [[d|]|e]; cbn; eexists; reflexivity.
Qed.











End RealClient.

(** ** The gateway *)

Ltac gw_simpl :=
  unfold Gateway.from_mock;
  cbn [Gateway.result Gateway.written Gateway.self Gateway.mockService
       Gateway.realService Gateway.useMock Gateway.autoFallback
       Gateway.set_useMock].


Section GatewayFacts.

Import Gateway.







End GatewayFacts.


Section GatewayModes.

Import Gateway.

Lemma step_keeps_simulated (this : EnhancedAIService) (env : Env) (op : Op) :
  useMock this = true ->
  is_enableReal op = false ->
  useMock (step this (env, op)) = true.
Proof.
  intros Hmock Hop.
  destruct op; cbn [step]; try discriminate Hop;
    try reflexivity;
    try (unfold checkHealth, generateTest, analyzeTest, modifyTest,
           searchTests, saveTest; cbv zeta; rewrite Hmock; exact Hmock).
  unfold getServiceStatus. cbv zeta.
  destruct (outcome (Real.checkHealth (transport env) (realService this)));
    [|exact Hmock].
  destruct (Mock.checkHealth (world env) (mockService this)); exact Hmock.
Qed.

Lemma run_app (this : EnhancedAIService) (before after : list (Env * Op)) :
  run this (before ++ after)%list = run (run this before) after.
Proof. unfold run. apply fold_left_app. Qed.

Lemma trace_keeps_simulated (calls : list (Env * Op)) :
  forall this : EnhancedAIService,
    useMock this = true ->
    no_enableReal calls = true ->
    Forall (fun s => useMock s = true) (trace this calls)
    /\ useMock (run this calls) = true.
Proof.
  induction calls as [|[env op] rest IH]; intros this Hmock Hcalls.
  - split; [constructor | exact Hmock].
  - cbn in Hcalls. apply andb_true_iff in Hcalls. destruct Hcalls as [Hop Hrest].
    apply negb_true_iff in Hop.
    pose proof (step_keeps_simulated this env op Hmock Hop) as Hstep.
    destruct (IH (step this (env, op)) Hstep Hrest) as [Htrace Hrun].
    split; [constructor; assumption | exact Hrun].
Qed.

(** C1.  Once a sequence of operations has brought the gateway into
    Simulated mode, every further operation that is not [enableReal] leaves
    it in Simulated mode, whatever the real backend answers meanwhile; and an
    operation that takes the gateway from Simulated to Real is
    [enableReal]. *)
Theorem no_silent_recovery (this : EnhancedAIService)
    (before after : list (Env * Op)) :
  useMock (run this before) = true ->
  no_enableReal after = true ->
  Forall (fun s => useMock s = true) (trace (run this before) after)
  /\ useMock (run this (before ++ after)%list) = true
  /\ (forall (s : EnhancedAIService) (env : Env) (op : Op),
        useMock s = true -> useMock (step s (env, op)) = false ->
        op = OpEnableReal).
Proof.
  intros Hmock Hafter.
  destruct (trace_keeps_simulated after (run this before) Hmock Hafter)
    as [Htrace Hrun].
  split; [exact Htrace|]. split; [now rewrite run_app|].
  intros s env op Hs Hstep.
  destruct (is_enableReal op) eqn:Hop.
  - destruct op; (reflexivity || discriminate Hop).
  - rewrite (step_keeps_simulated s env op Hs Hop) in Hstep. discriminate.
Qed.

Lemma no_silent_recovery_witness :
  useMock (run sample_gateway calls_before) = true
  /\ Forall (fun s => useMock s = true)
       (trace (run sample_gateway calls_before) calls_after)
  /\ useMock (run sample_gateway (calls_before ++ calls_after)%list) = true.
Proof.
  assert (Hbefore : useMock (run sample_gateway calls_before) = true)
    by reflexivity.
  split; [exact Hbefore|].
  destruct (no_silent_recovery sample_gateway calls_before calls_after
              Hbefore eq_refl) as [Htrace [Hrun _]].
  split; [exact Htrace | exact Hrun].
Defined.

End GatewayModes.

Section GatewayFailover.

Import Gateway.

Variable env : Env.
Variable this : EnhancedAIService.
Hypothesis Hauto : autoFallback this = true.
Hypothesis Hdown : unreachable (transport env).

Ltac real_down H :=
  unfold Real.checkHealth, Real.generateTest, Real.analyzeTest,
    Real.modifyTest, Real.searchTests, Real.saveTest,
    Real.request_health, Real.request_generate_test,
    Real.request_analyze_test, Real.request_modify_test,
    Real.request_search_tests, Real.request_save_test,
    io_try_catch, io_bind, lift, log, io_ret;
  cbv zeta; cbn [outcome console];
  let Hr := fresh "Hr" in
  match goal with
  | |- context [Real.get_health ?tr ?u ?t] =>
      pose proof (H u t) as Hr; destruct (Real.get_health tr u t)
  | |- context [Real.post_generate_test ?tr ?u ?b ?t] =>
      pose proof (H u b t) as Hr; destruct (Real.post_generate_test tr u b t)
  | |- context [Real.post_analyze_test ?tr ?u ?b ?t] =>
      pose proof (H u b t) as Hr; destruct (Real.post_analyze_test tr u b t)
  | |- context [Real.post_modify_test ?tr ?u ?b ?t] =>
      pose proof (H u b t) as Hr; destruct (Real.post_modify_test tr u b t)
  | |- context [Real.post_search_tests ?tr ?u ?b ?t] =>
      pose proof (H u b t) as Hr; destruct (Real.post_search_tests tr u b t)
  | |- context [Real.post_save_test ?tr ?u ?b ?t] =>
      pose proof (H u b t) as Hr; destruct (Real.post_save_test tr u b t)
  end;
  [discriminate Hr|];
  cbn [bind outcome console app negb andb Nat.eqb List.length
       TestGenerationResponse.success TestGenerationResponse.failure
       TestAnalysisResponse.success TestAnalysisResponse.failure
       SaveResult.success SaveResult.failure];
  rewrite ?Hauto; gw_simpl.

Lemma gateway_checkHealth_down :
  result (checkHealth env this)
  = Mock.checkHealth (world env) (mockService this).
Proof.
  destruct Hdown as (H & _).
  unfold checkHealth. cbv zeta.
  destruct (useMock this); [reflexivity|].
  real_down H. reflexivity.
Qed.

Lemma gateway_generateTest_down (request : TestGenerationRequest.t) :
  result (generateTest env this request)
  = Mock.generateTest (world env) (mockService this) request.
Proof.
  destruct Hdown as (_ & H & _).
  unfold generateTest. cbv zeta.
  destruct (useMock this); [reflexivity|].
  real_down H. reflexivity.
Qed.

Lemma gateway_analyzeTest_down (request : TestAnalysisRequest.t) :
  result (analyzeTest env this request)
  = Mock.analyzeTest (world env) (mockService this) (mock_request request).
Proof.
  destruct Hdown as (_ & _ & H & _).
  unfold analyzeTest. cbv zeta.
  destruct (useMock this); [reflexivity|].
  real_down H. reflexivity.
Qed.

Lemma gateway_modifyTest_down (filePath modificationRequest : string) :
  result (modifyTest env this filePath modificationRequest)
  = Mock.modifyTest (world env) (mockService this) filePath
      modificationRequest.
Proof.
  destruct Hdown as (_ & _ & _ & H & _).
  unfold modifyTest. cbv zeta.
  destruct (useMock this); [reflexivity|].
  real_down H. reflexivity.
Qed.

Lemma gateway_searchTests_down (query : string) (numResults : option Z) :
  result (searchTests env this query numResults)
  = Mock.searchTests (world env) (mockService this) query
      (Some (nullish numResults 10%Z)).
Proof.
  destruct Hdown as (_ & _ & _ & _ & H & _).
  unfold searchTests. cbv zeta.
  destruct (useMock this); [reflexivity|].
  real_down H. reflexivity.
Qed.

Lemma gateway_saveTest_down (code testName : string)
    (outputDir : option string) :
  result (saveTest env this code testName outputDir)
  = Mock.saveTest (world env) (mockService this) code testName
      (Some (nullish outputDir "tests")).
Proof.
  destruct Hdown as (_ & _ & _ & _ & _ & H).
  unfold saveTest. cbv zeta.
  destruct (useMock this); [reflexivity|].
  real_down H. reflexivity.
Qed.

End GatewayFailover.

(** C3.  With automatic fallback enabled and a real backend whose every HTTP
    request throws, each of the six operations of the gateway returns to its
    caller, never throws, and what it returns is the very answer of the
    simulator to the same request: a success, or a failure that the simulator
    declares with one of its own messages (for checkHealth a boolean, for
    searchTests a list). *)
Theorem failover_invariant (env : Gateway.Env)
    (this : Gateway.EnhancedAIService) :
  Gateway.autoFallback this = true ->
  unreachable (Gateway.transport env) ->
  let w := Gateway.world env in
  let simulator := Gateway.mockService this in
  (forall request, exists r,
      Gateway.result (Gateway.generateTest env this request) = Return r
      /\ Mock.generateTest w simulator request = Return r
      /\ (TestGenerationResponse.success r = true
          \/ r = TestGenerationResponse.failure
                   "Mock AI service temporarily unavailable"))
  /\ (forall request, exists r,
        Gateway.result (Gateway.analyzeTest env this request) = Return r
        /\ Mock.analyzeTest w simulator (Gateway.mock_request request)
           = Return r
        /\ (TestAnalysisResponse.success r = true
            \/ r = TestAnalysisResponse.failure
                     "Mock analysis service temporarily unavailable"))
  /\ (forall filePath modificationRequest, exists r,
        Gateway.result
          (Gateway.modifyTest env this filePath modificationRequest)
        = Return r
        /\ Mock.modifyTest w simulator filePath modificationRequest = Return r
        /\ (TestGenerationResponse.success r = true
            \/ r = TestGenerationResponse.failure
                     "Mock modification service temporarily unavailable"))
  /\ (forall query numResults, exists results,
        Gateway.result (Gateway.searchTests env this query numResults)
        = Return results
        /\ Mock.searchTests w simulator query
             (Some (nullish numResults 10%Z)) = Return results)
  /\ (forall code testName outputDir, exists r,
        Gateway.result (Gateway.saveTest env this code testName outputDir)
        = Return r
        /\ Mock.saveTest w simulator code testName
             (Some (nullish outputDir "tests")) = Return r
        /\ (SaveResult.success r = true
            \/ r = SaveResult.failure
                     "Mock save service temporarily unavailable"
            \/ exists error,
                 r = SaveResult.failure
                       ("Failed to save test: " ++ error_to_string error)))
  /\ (exists healthy,
        Gateway.result (Gateway.checkHealth env this) = Return healthy
        /\ Mock.checkHealth w simulator = Return healthy).
Proof.
  intros Hauto Hdown w simulator.
  split.
  { intros request.
    rewrite (gateway_generateTest_down env this Hauto Hdown).
    destruct (mock_generateTest_returns w simulator request) as [r [Hr Hd]].
    exists r. now rewrite Hr. }
  split.
  { intros request.
    rewrite (gateway_analyzeTest_down env this Hauto Hdown).
    destruct (mock_analyzeTest_returns w simulator
                (Gateway.mock_request request)) as [r [Hr Hd]].
    exists r. now rewrite Hr. }
  split.
  { intros filePath modificationRequest.
    rewrite (gateway_modifyTest_down env this Hauto Hdown).
    destruct (mock_modifyTest_returns w simulator filePath
                modificationRequest) as [r [Hr Hd]].
    exists r. now rewrite Hr. }
  split.
  { intros query numResults.
    rewrite (gateway_searchTests_down env this Hauto Hdown).
    destruct (mock_searchTests_returns w simulator query
                (Some (nullish numResults 10%Z))) as [r Hr].
    exists r. now rewrite Hr. }
  split.
  { intros code testName outputDir.
    rewrite (gateway_saveTest_down env this Hauto Hdown).
    destruct (mock_saveTest_returns w simulator code testName
                (Some (nullish outputDir "tests"))) as [r [Hr Hd]].
    exists r. now rewrite Hr. }
  rewrite (gateway_checkHealth_down env this Hauto Hdown).
  destruct (mock_checkHealth_returns w simulator) as [b Hb].
  exists b. now rewrite Hb.
Qed.

(** C4.  In Real mode with automatic fallback disabled, a result with
    success false that the real client returns for generateTest, analyzeTest,
    modifyTest or saveTest is returned to the caller as it is, and the
    gateway object, its mode included, is left as it was. *)
Theorem failure_propagates_without_fallback (env : Gateway.Env)
    (this : Gateway.EnhancedAIService) :
  Gateway.useMock this = false ->
  Gateway.autoFallback this = false ->
  let tr := Gateway.transport env in
  let client := Gateway.realService this in
  (forall request r,
      outcome (Real.generateTest tr client request) = Return r ->
      TestGenerationResponse.success r = false ->
      Gateway.result (Gateway.generateTest env this request) = Return r
      /\ Gateway.self (Gateway.generateTest env this request) = this
      /\ Gateway.useMock (Gateway.self (Gateway.generateTest env this request))
         = false)
  /\ (forall request r,
        outcome (Real.analyzeTest tr client request) = Return r ->
        TestAnalysisResponse.success r = false ->
        Gateway.result (Gateway.analyzeTest env this request) = Return r
        /\ Gateway.self (Gateway.analyzeTest env this request) = this
        /\ Gateway.useMock
             (Gateway.self (Gateway.analyzeTest env this request)) = false)
  /\ (forall filePath modificationRequest r,
        outcome (Real.modifyTest tr client filePath modificationRequest)
        = Return r ->
        TestGenerationResponse.success r = false ->
        Gateway.result
          (Gateway.modifyTest env this filePath modificationRequest)
        = Return r
        /\ Gateway.self
             (Gateway.modifyTest env this filePath modificationRequest)
           = this
        /\ Gateway.useMock
             (Gateway.self
                (Gateway.modifyTest env this filePath modificationRequest))
           = false)
  /\ (forall code testName outputDir r,
        outcome
          (Real.saveTest tr client code testName
             (Some (nullish outputDir "tests"))) = Return r ->
        SaveResult.success r = false ->
        Gateway.result (Gateway.saveTest env this code testName outputDir)
        = Return r
        /\ Gateway.self (Gateway.saveTest env this code testName outputDir)
           = this
        /\ Gateway.useMock
             (Gateway.self (Gateway.saveTest env this code testName outputDir))
           = false).
Proof.
  intros Hreal Hauto tr client.
  split; [|split; [|split]]; intros;
    unfold Gateway.generateTest, Gateway.analyzeTest, Gateway.modifyTest,
      Gateway.saveTest; cbv zeta; rewrite Hreal;
    match goal with
    | H : outcome _ = Return _ |- _ => fold tr client; rewrite H
    end;
    rewrite Hauto, andb_false_r; gw_simpl; auto.
Qed.

Lemma failure_propagates_without_fallback_witness :
  Gateway.result
    (Gateway.generateTest env_failing sample_gateway_no_fallback
       request_login_cart)
  = Return (TestGenerationResponse.failure "model not loaded")
  /\ Gateway.useMock
       (Gateway.self
          (Gateway.generateTest env_failing sample_gateway_no_fallback
             request_login_cart)) = false.
Proof.
  destruct (failure_propagates_without_fallback env_failing
              sample_gateway_no_fallback eq_refl eq_refl) as [Hgen _].
  destruct (Hgen request_login_cart
              (TestGenerationResponse.failure "model not loaded")
              eq_refl eq_refl) as [Hresult [_ Hmode]].
  split; [exact Hresult | exact Hmode].
Defined.

(** C5.  In Real mode with automatic fallback enabled, when the search of
    the real client comes back empty, the gateway switches to Simulated mode
    (saying so on the console), puts the same query with the same count to
    the simulator and returns what the simulator returns. *)
Theorem empty_search_falls_back (env : Gateway.Env)
    (this : Gateway.EnhancedAIService) (query : string)
    (numResults : option Z) :
  Gateway.useMock this = false ->
  Gateway.autoFallback this = true ->
  outcome
    (Real.searchTests (Gateway.transport env) (Gateway.realService this) query
       (Some (nullish numResults 10%Z))) = Return [] ->
  let out := Gateway.searchTests env this query numResults in
  Gateway.self out = Gateway.set_useMock true this
  /\ Gateway.useMock (Gateway.self out) = true
  /\ Gateway.result out
     = Mock.searchTests (Gateway.world env) (Gateway.mockService this) query
         (Some (nullish numResults 10%Z))
  /\ In RealNoResultsFallback (Gateway.written out).
Proof.
  intros Hreal Hauto Hempty out. unfold out, Gateway.searchTests. cbv zeta.
  rewrite Hreal, Hempty, Hauto. gw_simpl. cbn [List.length Nat.eqb andb].
  repeat split. apply in_or_app. right. now left.
Qed.

Lemma empty_search_falls_back_witness :
  Gateway.useMock
    (Gateway.self
       (Gateway.searchTests env_failing sample_gateway "login" (Some 3%Z)))
  = true
  /\ Gateway.result
       (Gateway.searchTests env_failing sample_gateway "login" (Some 3%Z))
     = Mock.searchTests sample_world sample_mock "login" (Some 3%Z).
Proof.
  destruct (empty_search_falls_back env_failing sample_gateway "login"
              (Some 3%Z) eq_refl eq_refl eq_refl) as [_ [Hmode [Hresult _]]].
  split; [exact Hmode | exact Hresult].
Defined.

Lemma failover_invariant_witness :
  exists r,
    Gateway.result
      (Gateway.generateTest env_down sample_gateway request_login_cart)
    = Return r
    /\ Mock.generateTest sample_world sample_mock request_login_cart
       = Return r.
Proof.
  assert (Hdown : unreachable (Gateway.transport env_down))
    by (repeat split; intros; reflexivity).
  destruct (failover_invariant env_down sample_gateway eq_refl Hdown)
    as [Hgen _].
  destruct (Hgen request_login_cart) as [r [Hresult [Hmock _]]].
  exists r. split; [exact Hresult | exact Hmock].
Defined.


Lemma simulator_classification_witness :
  exists response artifact,
    Mock.generateTest sample_world sample_mock request_login_cart
    = Return response
    /\ TestGenerationResponse.code response = Some artifact
    /\ artifact
       = Mock.testTemplates "Login, then add an item to the CART"
           (Some "checkout page") Mock.login.
Proof.
  destruct (simulator_classification sample_world sample_mock
              request_login_cart eq_refl)
    as (response & artifact & template & Hgen & _ & Hcode & _ & Hart & _ & _
        & _ & _ & _ & _ & _ & Hboth).
  exists response, artifact.
  split; [exact Hgen|]. split; [exact Hcode|].
  rewrite <- (Hboth eq_refl eq_refl). exact Hart.
Defined.

Lemma generation_idempotent_witness :
  exists response1 response2 artifact,
    Mock.generateTest sample_world sample_mock request_login_cart
    = Return response1
    /\ Mock.generateTest
         {| Mock.random := 0.99%float;
            Mock.date_toISOString := fun _ => "2026-01-01T00:00:00.000Z";
            Mock.date_now := 1767225600000%Z;
            Mock.fs_existsSync := fun _ => false;
            Mock.fs_mkdirSync := fun _ => Raise (OtherError "Error: EACCES");
            Mock.fs_writeFileSync := fun _ _ => Return tt;
            Mock.path_join := fun dir file => dir ++ "/" ++ file |}
         (Mock.new Mock.empty_config) request_login_cart_again
       = Return response2
    /\ TestGenerationResponse.code response1 = Some artifact
    /\ TestGenerationResponse.code response2 = Some artifact.
Proof.
  exact (generation_idempotent sample_world _ sample_mock
           (Mock.new Mock.empty_config) request_login_cart
           request_login_cart_again eq_refl eq_refl eq_refl eq_refl).
Defined.

Lemma simulated_search_witness :
  exists results,
    Mock.searchTests sample_world sample_mock "login" (Some 3%Z)
    = Return results
    /\ List.length results = 3%nat
    /\ map SearchResult.score results = [0.9; 0.8; 0.7]%float.
Proof.
  destruct (simulated_search sample_world sample_mock "login" (n := 3)
              eq_refl ltac:(lia))
    as (results & Hsearch & Hlen & _ & _ & _ & _ & Hthree).
  exists results.
  split; [exact Hsearch|]. split; [exact Hlen | exact (Hthree eq_refl)].
Defined.

Lemma analysis_without_expect_witness :
  exists a,
    Mock.analyzeTest sample_world sample_mock
      (TestAnalysisRequest.mk test_without_expect None)
    = Return (TestAnalysisResponse.mk true (Some a) None)
    /\ In "Add assertions after click actions" (Analysis.improvements a)
    /\ Analysis.quality a = "Good".
Proof.
  destruct (analysis_without_expect sample_world sample_mock
              (TestAnalysisRequest.mk test_without_expect None)
              eq_refl eq_refl (or_introl eq_refl) eq_refl)
    as (a & Ha & _ & Hmore).
  destruct (Hmore eq_refl) as (_ & Hclick & _ & _ & Hquality & _).
  exists a.
  split; [exact Ha|]. split; [exact (Hclick eq_refl) | exact Hquality].
Defined.

(** * Further properties of the simulator *)

Section TitleFacts.

Lemma string_forall_map_chars (p : ascii -> bool) (f : ascii -> ascii)
    (s : string) :
  (forall c, p (f c) = true) -> string_forall p (map_chars f s) = true.
Proof.
  intros H. induction s as [|c s IH]; simpl; [reflexivity|].
  now rewrite H, IH.
Qed.


Lemma map_chars_length (f : ascii -> ascii) (s : string) :
  String.length (map_chars f s) = String.length s.
Proof. induction s as [|c s IH]; simpl; [reflexivity | now rewrite IH]. Qed.













Lemma title_char_white (c : ascii) :
  title_char c = true -> is_white c = false -> is_lower c || is_digit c = true.
Proof.
  unfold title_char. destruct (is_lower c || is_digit c); [reflexivity|].
  cbn [orb]. intros H. apply Ascii.eqb_eq in H. subst c. discriminate.
Qed.


End TitleFacts.


Section AnalysisRange.

Import Mock.

Lemma includes_call_word (testCode : string) :
  includes testCode "expect" = false ->
  includes testCode "import { test, expect }" = false
  /\ includes testCode "expect(" = false.
Proof.
  intros H. split.
  - exact (not_includes_part testCode "import { test, " "expect" " }" H).
  - exact (not_includes_part testCode EmptyString "expect" "(" H).
Qed.

(** X2.  The analysis of the simulator never rates a test as Needs
    Improvement (coverage Low): whatever the code is, the quality is
    Excellent with coverage High, which happens exactly when there is no
    improvement note and at most two suggestions, or else Good with coverage
    Medium. *)
Theorem analysis_never_needs_improvement (testCode : string) :
  let a := analyzeTestCode testCode in
  (Analysis.quality a = "Excellent"
   /\ Analysis.coverage a = "High"
   /\ Analysis.improvements a = []
   /\ (List.length (Analysis.suggestions a) <= 2)%nat)
  \/ (Analysis.quality a = "Good"
      /\ Analysis.coverage a = "Medium"
      /\ (Analysis.improvements a <> []
          \/ List.length (Analysis.suggestions a) = 3%nat)).
Proof.
  unfold analyzeTestCode.
  destruct (includes testCode "expect") eqn:Hexpect.
  - rewrite !andb_false_r.
    destruct (includes testCode "import { test, expect }");
      destruct (includes testCode "page.goto");
      destruct (includes testCode "expect("); cbn;
      ((left; repeat split; (reflexivity || lia))
       || (right; repeat split; right; reflexivity)).
  - destruct (includes_call_word testCode Hexpect) as [-> ->].
    destruct (includes testCode "page.goto");
      destruct (includes testCode "await page.click");
      destruct (includes testCode "page.fill"); cbn;
      ((left; repeat split; (reflexivity || lia))
       || (right; repeat split; ((left; discriminate) || (right; reflexivity)))).
Qed.

(** X3.  A test that has the import line, a navigation call and an
    assertion call gets a clean report: no suggestion, no improvement note,
    quality Excellent and coverage High, whether it clicks or fills or
    not. *)
Theorem complete_test_is_excellent (testCode : string) :
  includes testCode "import { test, expect }" = true ->
  includes testCode "page.goto" = true ->
  includes testCode "expect(" = true ->
  analyzeTestCode testCode = Analysis.mk "Excellent" "High" [] [].
Proof.
  intros Himport Hgoto Hcall.
  assert (Hexpect : includes testCode "expect" = true)
    by exact (includes_part testCode EmptyString "expect" "(" Hcall).
  unfold analyzeTestCode.
  rewrite Himport, Hgoto, Hcall, Hexpect, !andb_false_r. reflexivity.
Qed.

Lemma complete_test_is_excellent_witness :
  analyzeTestCode documented_test = Analysis.mk "Excellent" "High" [] [].
Proof.
  exact (complete_test_is_excellent documented_test eq_refl eq_refl eq_refl).
Defined.

End AnalysisRange.

Section ErrorInjection.

Import Mock.

(** X4.  When error injection is enabled and the random draw is below the
    error rate, every operation of the simulator fails in its own way:
    checkHealth returns false, searchTests returns no entry, and generateTest,
    analyzeTest, modifyTest and saveTest return success false, each with its
    own message, without looking at the request or the file system. *)
Theorem injected_errors (w : World) (this : MockAIService) :
  enableRandomErrors this = true ->
  PrimFloat.ltb (random w) (errorRate this) = true ->
  checkHealth w this = Return false
  /\ (forall request,
        generateTest w this request
        = Return (TestGenerationResponse.mk false None
                    (Some "Mock AI service temporarily unavailable")
                    None None))
  /\ (forall request,
        analyzeTest w this request
        = Return (TestAnalysisResponse.mk false None
                    (Some "Mock analysis service temporarily unavailable")))
  /\ (forall filePath modificationRequest,
        modifyTest w this filePath modificationRequest
        = Return (TestGenerationResponse.mk false None
                    (Some "Mock modification service temporarily unavailable")
                    None None))
  /\ (forall query numResults, searchTests w this query numResults = Return [])
  /\ (forall code testName outputDir,
        saveTest w this code testName outputDir
        = Return (SaveResult.mk false None None None
                    (Some "Mock save service temporarily unavailable"))).
Proof.
  intros Hon Hdraw.
  assert (H : shouldSimulateError w this = true)
    by (unfold shouldSimulateError; now rewrite Hon, Hdraw).
  unfold checkHealth, generateTest, analyzeTest, modifyTest, searchTests,
    saveTest, simulateDelay. cbn [bind]. rewrite H.
  repeat split.
Qed.

Lemma injected_errors_witness :
  checkHealth sample_world sample_mock_errors = Return false
  /\ searchTests sample_world sample_mock_errors "login" (Some 3%Z)
     = Return [].
Proof.
  destruct (injected_errors sample_world sample_mock_errors eq_refl eq_refl)
    as (Hhealth & _ & _ & _ & Hsearch & _).
  split; [exact Hhealth | exact (Hsearch "login" (Some 3%Z))].
Defined.

(** X5.  When the random draw is not below the error rate, a simulator with
    error injection enabled answers every operation exactly as the same
    simulator with error injection disabled does. *)
Theorem draw_not_below_rate (w : World) (this : MockAIService) :
  PrimFloat.ltb (random w) (errorRate this) = false ->
  checkHealth w this = Return true
  /\ (forall request,
        generateTest w this request
        = generateTest w (without_errors this) request)
  /\ (forall request,
        analyzeTest w this request
        = analyzeTest w (without_errors this) request)
  /\ (forall filePath modificationRequest,
        modifyTest w this filePath modificationRequest
        = modifyTest w (without_errors this) filePath modificationRequest)
  /\ (forall query numResults,
        searchTests w this query numResults
        = searchTests w (without_errors this) query numResults)
  /\ (forall code testName outputDir,
        saveTest w this code testName outputDir
        = saveTest w (without_errors this) code testName outputDir).
Proof.
  intros Hdraw.
  assert (H : shouldSimulateError w this = false).
  { unfold shouldSimulateError. rewrite Hdraw.
    now destruct (enableRandomErrors this). }
  assert (H' : shouldSimulateError w (without_errors this) = false)
    by reflexivity.
  unfold checkHealth, generateTest, analyzeTest, modifyTest, searchTests,
    saveTest, simulateDelay. cbn [bind]. rewrite H, H'.
  repeat split.
Qed.

Lemma draw_not_below_rate_witness :
  checkHealth world_readonly sample_mock_errors = Return true
  /\ generateTest world_readonly sample_mock_errors request_generic
     = generateTest world_readonly (without_errors sample_mock_errors)
         request_generic.
Proof.
  destruct (draw_not_below_rate world_readonly sample_mock_errors eq_refl)
    as (Hhealth & Hgen & _).
  split; [exact Hhealth | exact (Hgen request_generic)].
Defined.

End ErrorInjection.

Section ContextUse.

Import Mock.

Lemma includes_trans (a b c : string) :
  includes a b = true -> includes b c = true -> includes a c = true.
Proof.
  rewrite !includes_spec. intros [p1 [q1 ->]] [p2 [q2 ->]].
  exists (p1 ++ p2), (q2 ++ q1). now rewrite !append_assoc.
Qed.

Lemma includes_self (s : string) : includes s s = true.
Proof.
  apply includes_spec. exists EmptyString, EmptyString. simpl.
  induction s as [|c s IH]; simpl; [reflexivity | now rewrite <- IH].
Qed.

Lemma includes_suffix (pre s : string) : includes (pre ++ s) s = true.
Proof.
  apply includes_spec. exists pre, EmptyString.
  f_equal. induction s as [|c s IH]; simpl; [reflexivity | now rewrite <- IH].
Qed.

(** A text joined from lines includes each of the lines. *)
Lemma concat_includes (sep : string) (lines : list string) (line : string) :
  In line lines -> includes (String.concat sep lines) line = true.
Proof.
  induction lines as [|x rest IH]; intros Hin; [destruct Hin|].
  destruct rest as [|y rest].
  - destruct Hin as [<-|[]]. apply includes_self.
  - change (String.concat sep (x :: y :: rest))
      with (x ++ sep ++ String.concat sep (y :: rest)).
    destruct Hin as [<-|Hin].
    + apply (includes_middle EmptyString x).
    + apply includes_trans with (String.concat sep (y :: rest)).
      * rewrite <- append_assoc. apply includes_suffix.
      * now apply IH.
Qed.

Lemma default_template_includes_context (title ctx : string) :
  includes (template_default title ctx) ("// Additional context: " ++ ctx)
  = true.
Proof.
  apply includes_trans with ("  // Additional context: " ++ ctx).
  - unfold template_default. apply concat_includes.
    cbn [In]. repeat first [left; reflexivity | right].
  - apply (includes_suffix "  ").
Qed.

(** X6.  The context of a generation request reaches the artifact through
    the default template only: requirements that select another template
    yield the same artifact whatever the context is, and with the default
    template the artifact includes the comment with the context, or with the
    words No additional context provided when the context is missing or
    empty. *)
Theorem context_only_in_default_template (requirements : string) :
  (select_template requirements <> default ->
   forall context1 context2,
     generatePlaywrightTest requirements context1
     = generatePlaywrightTest requirements context2)
  /\ (select_template requirements = default ->
      forall context,
        includes (generatePlaywrightTest requirements context)
          ("// Additional context: "
           ++ or_string context "No additional context provided") = true)
  /\ (select_template requirements = default ->
      includes (generatePlaywrightTest requirements None)
        "// Additional context: No additional context provided" = true
      /\ generatePlaywrightTest requirements (Some EmptyString)
         = generatePlaywrightTest requirements None).
Proof.
  unfold generatePlaywrightTest.
  split; [|split].
  - intros Hk context1 context2.
    destruct (select_template requirements); (reflexivity || now elim Hk).
  - intros -> context. cbn [testTemplates].
    apply default_template_includes_context.
  - intros ->. split; [|reflexivity]. cbn [testTemplates].
    apply (default_template_includes_context (test_title requirements)
             "No additional context provided").
Qed.

Lemma context_only_in_default_template_witness :
  generatePlaywrightTest "Login, then add an item to the CART"
    (Some "checkout page")
  = generatePlaywrightTest "Login, then add an item to the CART" None
  /\ includes
       (generatePlaywrightTest "Check the page title" (Some "checkout page"))
       "// Additional context: checkout page" = true.
Proof.
  destruct (context_only_in_default_template
              "Login, then add an item to the CART") as [Hother _].
  destruct (context_only_in_default_template "Check the page title")
    as [_ [Hdefault _]].
  split.
  - apply Hother. discriminate.
  - exact (Hdefault eq_refl (Some "checkout page")).
Defined.

End ContextUse.

(** X7.  In Simulated mode, with error injection disabled,
    [generateTestForPage] succeeds; when the requirements select the default
    template the artifact includes the line Page URL: followed by the URL
    (after the caller's context and a line break when a non-empty context is
    given), and when they select another template the artifact is the one
    generated without any context: the URL and the context leave no trace in
    it. *)
Theorem generateTestForPage_simulated (env : Gateway.Env)
    (this : Gateway.EnhancedAIService) (pageUrl requirements : string)
    (context : option string) :
  Gateway.useMock this = true ->
  Mock.enableRandomErrors (Gateway.mockService this) = false ->
  exists (response : TestGenerationResponse.t) (artifact : string),
    Gateway.result
      (Gateway.generateTestForPage env this pageUrl requirements context)
    = Return response
    /\ TestGenerationResponse.success response = true
    /\ TestGenerationResponse.code response = Some artifact
    /\ (Mock.select_template requirements = Mock.default ->
        includes artifact ("Page URL: " ++ pageUrl) = true
        /\ forall c, context = Some c -> c <> EmptyString ->
             includes artifact
               ("// Additional context: " ++ c ++ nl ++ "Page URL: "
                ++ pageUrl) = true)
    /\ (Mock.select_template requirements <> Mock.default ->
        artifact = Mock.generatePlaywrightTest requirements None).
Proof.
  intros Hmock Hoff.
  unfold Gateway.generateTestForPage, Gateway.generateTest. cbv zeta.
  rewrite Hmock. gw_simpl.
  rewrite (generateTest_without_errors _ _ _ Hoff).
  cbn [TestGenerationRequest.requirements TestGenerationRequest.context].
  eexists. eexists.
  split; [reflexivity|]. split; [reflexivity|]. split; [reflexivity|].
  destruct (context_only_in_default_template requirements)
    as [Hother [Hdefault _]].
  split.
  - intros Hk. split.
    + eapply includes_trans; [apply (Hdefault Hk)|].
      destruct context as [[|a c]|].
      * apply (includes_suffix "// Additional context: ").
      * change (includes
                  ("// Additional context: "
                   ++ (String a c ++ nl ++ "Page URL: " ++ pageUrl))
                  ("Page URL: " ++ pageUrl) = true).
        replace ("// Additional context: "
                 ++ (String a c ++ nl ++ "Page URL: " ++ pageUrl))
          with (("// Additional context: " ++ String a c ++ nl)
                ++ "Page URL: " ++ pageUrl)
          by now rewrite !append_assoc.
        apply includes_suffix.
      * apply (includes_suffix "// Additional context: ").
    + intros c -> Hc. destruct c as [|a c]; [now elim Hc|].
      exact (Hdefault Hk
               (Some (String a c ++ nl ++ "Page URL: " ++ pageUrl))).
  - intros Hk. now apply Hother.
Qed.

Lemma generateTestForPage_simulated_witness :
  exists response artifact,
    Gateway.result
      (Gateway.generateTestForPage env_healthy sample_simulated_gateway
         "https://playwright.dev/" "Check the page title"
         (Some "Page title: Playwright"))
    = Return response
    /\ TestGenerationResponse.code response = Some artifact
    /\ includes artifact "Page URL: https://playwright.dev/" = true.
Proof.
  destruct (generateTestForPage_simulated env_healthy sample_simulated_gateway
              "https://playwright.dev/" "Check the page title"
              (Some "Page title: Playwright") eq_refl eq_refl)
    as (response & artifact & Hresult & _ & Hcode & Hdefault & _).
  exists response, artifact.
  split; [exact Hresult|]. split; [exact Hcode|].
  exact (proj1 (Hdefault eq_refl)).
Defined.

Section SaveFacts.

Import Mock.

Lemma file_name_char_replace (c : ascii) :
  file_name_char
    (if is_lower c || is_upper c || is_digit c then c else "-"%char) = true.
Proof.
  unfold file_name_char.
  destruct (is_lower c || is_upper c || is_digit c) eqn:E; [|reflexivity].
  apply orb_true_iff in E. destruct E as [E|E]; [|now rewrite E, !orb_true_r].
  now rewrite E.
Qed.

(** X8.  Saving with the simulator, error injection disabled.  The file name
    is the test name with every character that is not a letter or a digit
    turned into a hyphen (so of the same length), then a hyphen, the clock
    reading and [.spec.ts], joined to the output directory, which is [tests]
    when none is given.  The directory is made only when it does not exist;
    if making it throws, or if writing the file throws, the answer is success
    false with the text Failed to save test: and the error, and nothing is
    thrown; otherwise the answer is a success that carries the path. *)
Theorem saveTest_outcomes (w : World) (this : MockAIService)
    (code testName : string) (outputDir : option string) :
  enableRandomErrors this = false ->
  let dir := nullish outputDir "tests" in
  let stem := replace_non_alnum_i "-"%char testName in
  let path :=
    path_join w dir
      (stem ++ "-" ++ string_of_Z (date_now w) ++ ".spec.ts") in
  string_forall file_name_char stem = true
  /\ String.length stem = String.length testName
  /\ (forall error,
        fs_existsSync w dir = false ->
        fs_mkdirSync w dir = Raise error ->
        saveTest w this code testName outputDir
        = Return (SaveResult.mk false None None None
                    (Some ("Failed to save test: "
                           ++ error_to_string error))))
  /\ (forall error,
        fs_existsSync w dir = true \/ fs_mkdirSync w dir = Return tt ->
        fs_writeFileSync w path code = Raise error ->
        saveTest w this code testName outputDir
        = Return (SaveResult.mk false None None None
                    (Some ("Failed to save test: "
                           ++ error_to_string error))))
  /\ (fs_existsSync w dir = true \/ fs_mkdirSync w dir = Return tt ->
      fs_writeFileSync w path code = Return tt ->
      saveTest w this code testName outputDir
      = Return (SaveResult.mk true None (Some path)
                  (Some "Test saved successfully by mock service") None)).
Proof.
  intros Hoff dir stem path.
  split.
  { unfold stem, replace_non_alnum_i. apply string_forall_map_chars.
    intros c. apply file_name_char_replace. }
  split; [apply map_chars_length|].
  assert (Hshould : shouldSimulateError w this = false)
    by (unfold shouldSimulateError; now rewrite Hoff).
  unfold saveTest, simulateDelay. cbv zeta. cbn [bind]. rewrite Hshould.
  fold dir. fold stem. fold path.
  split; [|split].
  - intros error Hex Hmk. now rewrite Hex, Hmk.
  - intros error Hdir Hwr.
    destruct (fs_existsSync w dir); cbn [negb].
    + cbn [bind try_catch]. now rewrite Hwr.
    + destruct Hdir as [Hdir|Hdir]; [discriminate|].
      rewrite Hdir. cbn [bind try_catch]. now rewrite Hwr.
  - intros Hdir Hwr.
    destruct (fs_existsSync w dir); cbn [negb].
    + cbn [bind try_catch]. now rewrite Hwr.
    + destruct Hdir as [Hdir|Hdir]; [discriminate|].
      rewrite Hdir. cbn [bind try_catch]. now rewrite Hwr.
Qed.

Lemma saveTest_outcomes_witness :
  saveTest sample_world sample_mock "test('x');" "My login test!" None
  = Return (SaveResult.mk true None
              (Some "tests/My-login-test--1751254814436.spec.ts")
              (Some "Test saved successfully by mock service") None)
  /\ saveTest world_readonly sample_mock "test('x');" "My login test!" None
     = Return (SaveResult.mk false None None None
                 (Some "Failed to save test: Error: EACCES: permission denied")).
Proof.
  destruct (saveTest_outcomes sample_world sample_mock "test('x');"
              "My login test!" None eq_refl) as (_ & _ & _ & _ & Hok).
  destruct (saveTest_outcomes world_readonly sample_mock "test('x');"
              "My login test!" None eq_refl) as (_ & _ & Hmk & _).
  split.
  - exact (Hok (or_introl eq_refl) eq_refl).
  - exact (Hmk _ eq_refl eq_refl).
Defined.

End SaveFacts.

(** X9.  Where the caller of the gateway finds the path of a saved test
    depends on the backend that served the call: a success of the simulator
    carries it in [file_path] and leaves [filePath] undefined, a success of
    the real backend carries it in [filePath] and leaves [file_path]
    undefined. *)
Theorem save_path_field (env : Gateway.Env) (this : Gateway.EnhancedAIService)
    (code testName : string) (outputDir : option string) :
  (Gateway.useMock this = true ->
   forall r,
     Gateway.result (Gateway.saveTest env this code testName outputDir)
     = Return r ->
     SaveResult.success r = true ->
     SaveResult.filePath r = None
     /\ exists path, SaveResult.file_path r = Some path)
  /\ (Gateway.useMock this = false ->
      forall d,
        Real.request_save_test (Gateway.transport env)
          (Gateway.realService this) code testName
          (nullish outputDir "tests") = Return (Some d) ->
        Real.data_success d = true ->
        Gateway.result (Gateway.saveTest env this code testName outputDir)
        = Return (SaveResult.mk true (Real.data_file_path d) None None
                    (Real.data_error d))
        /\ Gateway.useMock
             (Gateway.self (Gateway.saveTest env this code testName outputDir))
           = false).
Proof.
  split.
  - intros Hmock r. unfold Gateway.saveTest. cbv zeta. rewrite Hmock.
    gw_simpl. unfold Mock.saveTest, Mock.simulateDelay. cbv zeta. cbn [bind].
    destruct (Mock.shouldSimulateError _ _);
      [intros [= <-]; cbn; intros Hs; discriminate Hs|].
    destruct (Mock.fs_existsSync _ _); cbn [negb].
    + cbn [bind try_catch].
      destruct (Mock.fs_writeFileSync _ _ _) as [[]|e]; cbn [bind try_catch];
        intros [= <-]; cbn; intros Hs;
        [split; [reflexivity | eauto] | discriminate Hs].
    + destruct (Mock.fs_mkdirSync _ _) as [[]|e]; cbn [bind try_catch];
        [|intros [= <-]; cbn; intros Hs; discriminate Hs].
      destruct (Mock.fs_writeFileSync _ _ _) as [[]|e]; cbn [bind try_catch];
        intros [= <-]; cbn; intros Hs;
        [split; [reflexivity | eauto] | discriminate Hs].
  - intros Hreal d Hd Hsuccess. unfold Gateway.saveTest. cbv zeta.
    rewrite Hreal. unfold Real.saveTest, io_try_catch, lift. cbv zeta.
    cbn [nullish]. rewrite Hd. cbn [bind Real.read_data outcome console SaveResult.success].
    rewrite Hsuccess. gw_simpl. split; [reflexivity | exact Hreal].
Qed.

Lemma save_path_field_witness :
  (forall r,
     Gateway.result
       (Gateway.saveTest env_healthy sample_simulated_gateway "test('x');"
          "login" None) = Return r ->
     SaveResult.success r = true ->
     SaveResult.filePath r = None
     /\ exists path, SaveResult.file_path r = Some path)
  /\ Gateway.result
       (Gateway.saveTest env_healthy sample_gateway "test('x');" "login" None)
     = Return (SaveResult.mk true (Some "tests/real.spec.ts") None None None).
Proof.
  destruct (save_path_field env_healthy sample_simulated_gateway "test('x');"
              "login" None) as [Hsim _].
  destruct (save_path_field env_healthy sample_gateway "test('x');" "login"
              None) as [_ Hreal].
  split.
  - exact (Hsim eq_refl).
  - exact (proj1 (Hreal eq_refl _ eq_refl eq_refl)).
Defined.

Section SearchDefaults.

Import Mock.

(** X10.  The simulated search, error injection disabled: without a count it
    returns five entries (the default of ten is capped), for a count of zero
    or less it returns none, and in every case the entries are named
    [tests/mock-result-1.spec.ts], [tests/mock-result-2.spec.ts], ... in this
    order, so no two entries share a file name. *)
Theorem simulated_search_defaults (w : World) (this : MockAIService)
    (query : string) :
  enableRandomErrors this = false ->
  (exists results,
      searchTests w this query None = Return results
      /\ List.length results = 5%nat)
  /\ (forall n, (n <= 0)%Z -> searchTests w this query (Some n) = Return [])
  /\ (forall numResults results,
        searchTests w this query numResults = Return results ->
        map SearchResult.file_path results
        = firstn (List.length results) mock_result_paths
        /\ NoDup (map SearchResult.file_path results)).
Proof.
  intros Hoff. split; [|split].
  - rewrite (searchTests_without_errors w query this None Hoff).
    eexists. split; [reflexivity|]. reflexivity.
  - intros n Hn.
    rewrite (searchTests_without_errors w query this (Some n) Hoff).
    cbn [nullish]. replace (Z.to_nat (Z.min n 5)) with 0%nat by lia.
    reflexivity.
  - intros numResults results.
    rewrite (searchTests_without_errors w query this numResults Hoff).
    intros [= <-].
    set (k := Z.to_nat (Z.min (nullish numResults 10%Z) 5)).
    assert (Hk : (k <= 5)%nat) by (unfold k; lia).
    do 6 (destruct k as [|k];
          [split; [reflexivity|];
           repeat (constructor;
                   [cbn; intros H; repeat destruct H as [H|H];
                    (discriminate H || exact H)|]);
           constructor|]).
    lia.
Qed.

Lemma simulated_search_defaults_witness :
  exists results,
    searchTests sample_world sample_mock "login" None = Return results
    /\ List.length results = 5%nat.
Proof.
  exact (proj1 (simulated_search_defaults sample_world sample_mock "login"
                  eq_refl)).
Defined.

End SearchDefaults.

(** * Further properties of the real client *)

Section RealFacts.

Import Real.


(** X12.  The real client always has a base URL that is not empty and a
    timeout that is neither zero nor NaN: an empty configured URL gives way to
    the environment variable, an empty or unset variable to
    [http://localhost:8000], and a configured timeout of zero to 30000. *)
Theorem real_client_defaults :
  (forall env_value config,
     baseUrl (new env_value config) <> EmptyString
     /\ falsy_number (timeout (new env_value config)) = false)
  /\ (forall env_value url,
        timeout (new env_value (mkConfig url (Some 0%float))) = 30000%float)
  /\ (forall env_value t c s,
        baseUrl (new env_value (mkConfig (Some (String c s)) t))
        = String c s)
  /\ (forall t c s,
        baseUrl (new (Some (String c s)) (mkConfig None t)) = String c s
        /\ baseUrl (new (Some (String c s)) (mkConfig (Some EmptyString) t))
           = String c s)
  /\ (forall t,
        baseUrl (new None (mkConfig None t)) = "http://localhost:8000"
        /\ baseUrl (new (Some EmptyString) (mkConfig (Some EmptyString) t))
           = "http://localhost:8000").
Proof.
  split; [|repeat split].
  intros env_value [url t]. unfold new. cbn [baseUrl timeout cfg_baseUrl cfg_timeout].
  split.
  - unfold AI_SERVICE_URL.
    destruct url as [[|c s]|]; destruct env_value as [[|d r]|]; discriminate.
  - apply or_number_not_falsy. reflexivity.
Qed.

End RealFacts.

(** * Further properties of the gateway *)

Section RealOutcomes.

Import Real.

Variable tr : Transport.
Variable this : AIServiceIntegration.

Lemma real_generateTest_fault (request : TestGenerationRequest.t)
    (fault : JsError) :
  request_generate_test tr this request = Raise fault ->
  generateTest tr this request
  = mkIO (Return (TestGenerationResponse.failure (error_text fault))) [].
Proof. intros H. unfold generateTest, io_try_catch, lift. now rewrite H. Qed.

Lemma real_generateTest_reply (request : TestGenerationRequest.t)
    (d : TestGenerationResponse.t) :
  request_generate_test tr this request = Return d ->
  generateTest tr this request = mkIO (Return d) [].
Proof. intros H. unfold generateTest, io_try_catch, lift. now rewrite H. Qed.

Lemma real_analyzeTest_fault (request : TestAnalysisRequest.t)
    (fault : JsError) :
  request_analyze_test tr this request = Raise fault ->
  analyzeTest tr this request
  = mkIO (Return (TestAnalysisResponse.failure (error_text fault))) [].
Proof. intros H. unfold analyzeTest, io_try_catch, lift. now rewrite H. Qed.

Lemma real_modifyTest_fault (filePath modificationRequest : string)
    (fault : JsError) :
  request_modify_test tr this filePath modificationRequest = Raise fault ->
  modifyTest tr this filePath modificationRequest
  = mkIO (Return (TestGenerationResponse.failure (error_text fault))) [].
Proof. intros H. unfold modifyTest, io_try_catch, lift. now rewrite H. Qed.

Lemma real_modifyTest_reply (filePath modificationRequest : string)
    (d : TestGenerationResponse.t) :
  request_modify_test tr this filePath modificationRequest = Return d ->
  modifyTest tr this filePath modificationRequest = mkIO (Return d) [].
Proof. intros H. unfold modifyTest, io_try_catch, lift. now rewrite H. Qed.

Lemma real_searchTests_fault (query : string) (numResults : Z)
    (fault : JsError) :
  request_search_tests tr this query numResults = Raise fault ->
  searchTests tr this query (Some numResults)
  = mkIO (Return []) [TestSearchFailed fault].
Proof.
  intros H. unfold searchTests, io_try_catch, lift. cbv zeta. cbn [nullish].
  now rewrite H.
Qed.

Lemma real_saveTest_fault (code testName outputDir : string)
    (fault : JsError) :
  request_save_test tr this code testName outputDir = Raise fault ->
  saveTest tr this code testName (Some outputDir)
  = mkIO (Return (SaveResult.failure (error_text fault))) [].
Proof.
  intros H. unfold saveTest, io_try_catch, lift. cbv zeta. cbn [nullish].
  now rewrite H.
Qed.

Lemma real_checkHealth_fault (fault : JsError) :
  request_health tr this = Raise fault ->
  checkHealth tr this = mkIO (Return false) [HealthCheckFailed fault].
Proof. intros H. unfold checkHealth, io_try_catch, lift. now rewrite H. Qed.

End RealOutcomes.

Lemma is_raise_inv (A : Type) (m : Exc A) :
  is_raise m = true -> exists e, m = Raise e.
Proof. destruct m as [a|e]; [discriminate | now exists e]. Qed.

Section GatewayMore.

Import Gateway.

(** X13.  A generation request reaches either backend through its
    requirements and its context only: two requests that agree on these two
    fields get the same result and leave the gateway in the same state,
    whatever their page URL and existing tests are. *)
Theorem generateTest_reads_two_fields (env : Env) (this : EnhancedAIService)
    (request1 request2 : TestGenerationRequest.t) :
  TestGenerationRequest.requirements request1
  = TestGenerationRequest.requirements request2 ->
  TestGenerationRequest.context request1
  = TestGenerationRequest.context request2 ->
  generateTest env this request1 = generateTest env this request2.
Proof.
  intros Hreq Hctx.
  assert (Hmock : forall m,
             Mock.generateTest (world env) m request1
             = Mock.generateTest (world env) m request2).
  { intros m. unfold Mock.generateTest. now rewrite Hreq, Hctx. }
  assert (Hreal : Real.generateTest (transport env) (realService this) request1
                  = Real.generateTest (transport env) (realService this)
                      request2).
  { unfold Real.generateTest, Real.request_generate_test.
    now rewrite Hreq, Hctx. }
  unfold generateTest. cbv zeta. now rewrite Hreal, !Hmock.
Qed.

Lemma generateTest_reads_two_fields_witness :
  generateTest env_failing sample_gateway request_login_cart
  = generateTest env_failing sample_gateway request_login_cart_again.
Proof.
  exact (generateTest_reads_two_fields env_failing sample_gateway
           request_login_cart request_login_cart_again eq_refl eq_refl).
Defined.

(** X14.  In Simulated mode the gateway sends no request to the real
    backend: each of the six operations returns what the simulator returns
    for the same arguments (the test name of an analysis dropped when empty,
    the count 10 and the directory [tests] filled in when missing), leaves the
    gateway as it was and writes nothing. *)
Theorem simulated_mode_is_the_simulator (env : Env) (this : EnhancedAIService) :
  useMock this = true ->
  let w := world env in
  let simulator := mockService this in
  checkHealth env this = mkOut (Mock.checkHealth w simulator) this []
  /\ (forall request,
        generateTest env this request
        = mkOut (Mock.generateTest w simulator request) this [])
  /\ (forall request,
        analyzeTest env this request
        = mkOut (Mock.analyzeTest w simulator (mock_request request)) this [])
  /\ (forall filePath modificationRequest,
        modifyTest env this filePath modificationRequest
        = mkOut (Mock.modifyTest w simulator filePath modificationRequest)
            this [])
  /\ (forall query numResults,
        searchTests env this query numResults
        = mkOut
            (Mock.searchTests w simulator query
               (Some (nullish numResults 10%Z))) this [])
  /\ (forall code testName outputDir,
        saveTest env this code testName outputDir
        = mkOut
            (Mock.saveTest w simulator code testName
               (Some (nullish outputDir "tests"))) this []).
Proof.
  intros Hmock w simulator.
  unfold checkHealth, generateTest, analyzeTest, modifyTest, searchTests,
    saveTest. cbv zeta. rewrite Hmock. repeat split.
Qed.

Lemma simulated_mode_is_the_simulator_witness :
  generateTest env_down sample_simulated_gateway request_login_cart
  = generateTest env_healthy sample_simulated_gateway request_login_cart.
Proof.
  destruct (simulated_mode_is_the_simulator env_down sample_simulated_gateway
              eq_refl) as (_ & Hdown & _).
  destruct (simulated_mode_is_the_simulator env_healthy
              sample_simulated_gateway eq_refl) as (_ & Hhealthy & _).
  rewrite Hdown, Hhealthy. reflexivity.
Defined.

(** X15.  A health check can switch the mode for good.  In Real mode with
    automatic fallback, when the real backend is not healthy, checkHealth
    answers with the health of the simulator and leaves the gateway in
    Simulated mode; with error injection disabled the answer is true although
    the real backend is not healthy.  Without automatic fallback the answer
    is false and the mode stays Real. *)
Theorem checkHealth_switches_mode (env : Env) (this : EnhancedAIService) :
  useMock this = false ->
  outcome (Real.checkHealth (transport env) (realService this))
  = Return false ->
  (autoFallback this = true ->
   result (checkHealth env this)
   = Mock.checkHealth (world env) (mockService this)
   /\ self (checkHealth env this) = set_useMock true this
   /\ In RealUnhealthyFallback (written (checkHealth env this))
   /\ (Mock.enableRandomErrors (mockService this) = false ->
       result (checkHealth env this) = Return true))
  /\ (autoFallback this = false ->
      result (checkHealth env this) = Return false
      /\ self (checkHealth env this) = this).
Proof.
  intros Hreal Hprobe. unfold checkHealth. cbv zeta. rewrite Hreal, Hprobe.
  split; intros Hauto; rewrite Hauto; gw_simpl; cbn [negb andb].
  - split; [reflexivity|]. split; [reflexivity|].
    split; [apply in_or_app; right; now left|].
    intros Hoff. unfold Mock.checkHealth, Mock.shouldSimulateError.
    now rewrite Hoff.
  - split; reflexivity.
Qed.

Lemma checkHealth_switches_mode_witness :
  result (checkHealth env_down sample_gateway) = Return true
  /\ useMock (self (checkHealth env_down sample_gateway)) = true
  /\ result (checkHealth env_down sample_gateway_no_fallback) = Return false.
Proof.
  destruct (checkHealth_switches_mode env_down sample_gateway eq_refl eq_refl)
    as [Hon _].
  destruct (checkHealth_switches_mode env_down sample_gateway_no_fallback
              eq_refl eq_refl) as [_ Hoff].
  destruct (Hon eq_refl) as (_ & Hself & _ & Htrue).
  split; [exact (Htrue eq_refl)|].
  split; [now rewrite Hself | exact (proj1 (Hoff eq_refl))].
Defined.

(** X16.  In Real mode a success of the real backend is handed to the caller
    as it is and the gateway stays in Real mode, with or without automatic
    fallback: so it is for generateTest, analyzeTest, modifyTest and saveTest
    on a result with success true, for searchTests on a result that is not
    empty and for checkHealth on true. *)
Theorem real_success_passes_through (env : Env) (this : EnhancedAIService) :
  useMock this = false ->
  let tr := transport env in
  let client := realService this in
  (outcome (Real.checkHealth tr client) = Return true ->
   result (checkHealth env this) = Return true
   /\ self (checkHealth env this) = this)
  /\ (forall request r,
        outcome (Real.generateTest tr client request) = Return r ->
        TestGenerationResponse.success r = true ->
        result (generateTest env this request) = Return r
        /\ self (generateTest env this request) = this)
  /\ (forall request r,
        outcome (Real.analyzeTest tr client request) = Return r ->
        TestAnalysisResponse.success r = true ->
        result (analyzeTest env this request) = Return r
        /\ self (analyzeTest env this request) = this)
  /\ (forall filePath modificationRequest r,
        outcome (Real.modifyTest tr client filePath modificationRequest)
        = Return r ->
        TestGenerationResponse.success r = true ->
        result (modifyTest env this filePath modificationRequest) = Return r
        /\ self (modifyTest env this filePath modificationRequest) = this)
  /\ (forall query numResults entry rest,
        outcome
          (Real.searchTests tr client query (Some (nullish numResults 10%Z)))
        = Return (entry :: rest) ->
        result (searchTests env this query numResults)
        = Return (entry :: rest)
        /\ self (searchTests env this query numResults) = this)
  /\ (forall code testName outputDir r,
        outcome
          (Real.saveTest tr client code testName
             (Some (nullish outputDir "tests"))) = Return r ->
        SaveResult.success r = true ->
        result (saveTest env this code testName outputDir) = Return r
        /\ self (saveTest env this code testName outputDir) = this).
Proof.
  intros Hreal tr client.
  unfold checkHealth, generateTest, analyzeTest, modifyTest, searchTests,
    saveTest. cbv zeta. rewrite Hreal. fold tr client.
  split; [intros H; rewrite H; now gw_simpl|].
  split; [intros request r H Hs; rewrite H, Hs; now gw_simpl|].
  split; [intros request r H Hs; rewrite H, Hs; now gw_simpl|].
  split; [intros filePath modificationRequest r H Hs; rewrite H, Hs;
          now gw_simpl|].
  split; [intros query numResults entry rest H; rewrite H; now gw_simpl|].
  intros code testName outputDir r H Hs. rewrite H, Hs. now gw_simpl.
Qed.

Lemma real_success_passes_through_witness :
  result (generateTest env_healthy sample_gateway request_login_cart)
  = Return (TestGenerationResponse.mk true (Some "test('real');") None None
              None)
  /\ useMock (self (generateTest env_healthy sample_gateway request_login_cart))
     = false.
Proof.
  destruct (real_success_passes_through env_healthy sample_gateway eq_refl)
    as (_ & Hgen & _).
  destruct (Hgen request_login_cart _ eq_refl eq_refl) as [Hresult Hself].
  split; [exact Hresult | now rewrite Hself].
Defined.

End GatewayMore.

Section GatewayInvariants.

Import Gateway.

Lemma step_without_fallback (this : EnhancedAIService) (env : Env) (op : Op) :
  autoFallback this = false ->
  is_mode_command op = false ->
  step this (env, op) = this.
Proof.
  intros Hauto Hop.
  destruct op; cbn [step]; try discriminate Hop;
    unfold checkHealth, generateTest, analyzeTest, modifyTest, searchTests,
      saveTest, getServiceStatus; cbv zeta;
    try (destruct (useMock this); [reflexivity|]);
    match goal with
    | |- context [outcome ?r] => destruct (outcome r)
    end;
    rewrite ?Hauto, ?andb_false_r;
    reflexivity.
Qed.

(** X17.  With automatic fallback disabled the gateway changes only on
    command: after any sequence of operations none of which is enableMock or
    enableReal, the gateway object is what it was; in particular a gateway in
    Real mode stays in Real mode however the real backend fails. *)
Theorem mode_fixed_without_fallback (this : EnhancedAIService)
    (calls : list (Env * Op)) :
  autoFallback this = false ->
  no_mode_command calls = true ->
  run this calls = this
  /\ Forall (fun s => s = this) (trace this calls).
Proof.
  intros Hauto. induction calls as [|[env op] rest IH]; intros Hcalls.
  - split; [reflexivity | constructor].
  - cbn in Hcalls. apply andb_true_iff in Hcalls. destruct Hcalls as [Hop Hrest].
    apply negb_true_iff in Hop.
    pose proof (step_without_fallback this env op Hauto Hop) as Hstep.
    destruct (IH Hrest) as [Hrun Htrace].
    unfold run in *. cbn [fold_left trace]. rewrite Hstep.
    split; [exact Hrun | constructor; [reflexivity | exact Htrace]].
Qed.

Lemma mode_fixed_without_fallback_witness :
  run sample_gateway_no_fallback
    [(env_down, OpGenerateTest request_login_cart);
     (env_down, OpCheckHealth);
     (env_failing, OpSearchTests "login" None);
     (env_failing, OpSaveTest "test('x');" "login" None);
     (env_down, OpGetServiceStatus)]
  = sample_gateway_no_fallback.
Proof.
  exact (proj1 (mode_fixed_without_fallback sample_gateway_no_fallback
                  [(env_down, OpGenerateTest request_login_cart);
                   (env_down, OpCheckHealth);
                   (env_failing, OpSearchTests "login" None);
                   (env_failing, OpSaveTest "test('x');" "login" None);
                   (env_down, OpGetServiceStatus)] eq_refl eq_refl)).
Defined.

(** X18.  The status report probes both backends and changes nothing: it
    always returns, leaves the gateway as it was in either mode (an unhealthy
    real backend does not switch the mode here, unlike in checkHealth), names
    the current mode and the fallback setting, and reports the real backend
    healthy exactly when its health reply has the status healthy and the
    simulator healthy exactly when no error is injected. *)
Theorem getServiceStatus_observes_only (env : Env) (this : EnhancedAIService) :
  exists status,
    result (getServiceStatus env this) = Return status
    /\ self (getServiceStatus env this) = this
    /\ currentService status = getCurrentService this
    /\ status_autoFallback status = autoFallback this
    /\ (realServiceHealthy status = true
        <-> Real.request_health (transport env) (realService this)
            = Return (Some (Real.mkHealthData (Some "healthy"))))
    /\ mockServiceHealthy status
       = negb (Mock.shouldSimulateError (world env) (mockService this)).
Proof.
  unfold getServiceStatus. cbv zeta.
  destruct (real_checkHealth_returns (transport env) (realService this))
    as [b Hb].
  rewrite Hb. unfold Mock.checkHealth, Mock.simulateDelay. cbn [bind].
  eexists. split; [reflexivity|]. split; [reflexivity|].
  split; [reflexivity|]. split; [reflexivity|]. split; [|reflexivity].
  cbn [realServiceHealthy].
  unfold Real.checkHealth, io_try_catch, lift in Hb. cbn [outcome] in Hb.
  destruct (Real.request_health (transport env) (realService this))
    as [[[[s|]]|]|e]; cbn in Hb; injection Hb as <-.
  - destruct (String.eqb_spec s "healthy") as [->|Hs]; split;
      try reflexivity; try discriminate.
    intros [= H]. now elim Hs.
  - split; discriminate.
  - split; discriminate.
  - split; discriminate.
Qed.

(** X19.  The mode commands: enableMock and enableReal return, set the mode
    whatever it was and keep the two backends and the fallback setting; given
    in the mode that is already current they leave the gateway object as it
    is (and still write their line on the console); and of two commands in a
    row the last decides. *)
Theorem mode_commands (this : EnhancedAIService) :
  (result (enableMock this) = Return tt
   /\ getCurrentService (self (enableMock this)) = mock
   /\ realService (self (enableMock this)) = realService this
   /\ mockService (self (enableMock this)) = mockService this
   /\ autoFallback (self (enableMock this)) = autoFallback this
   /\ written (enableMock this) = [SwitchedToMock])
  /\ (result (enableReal this) = Return tt
      /\ getCurrentService (self (enableReal this)) = real
      /\ realService (self (enableReal this)) = realService this
      /\ mockService (self (enableReal this)) = mockService this
      /\ autoFallback (self (enableReal this)) = autoFallback this
      /\ written (enableReal this) = [SwitchedToReal])
  /\ (useMock this = true -> self (enableMock this) = this)
  /\ (useMock this = false -> self (enableReal this) = this)
  /\ self (enableReal (self (enableMock this))) = self (enableReal this)
  /\ self (enableMock (self (enableReal this))) = self (enableMock this).
Proof.
  destruct this as [r m u a]. cbn.
  repeat split; intros ->; reflexivity.
Qed.

Lemma mode_commands_witness :
  self (enableMock sample_simulated_gateway) = sample_simulated_gateway
  /\ self (enableReal sample_gateway) = sample_gateway.
Proof.
  destruct (mode_commands sample_simulated_gateway)
    as (_ & _ & Hmock & _).
  destruct (mode_commands sample_gateway) as (_ & _ & _ & Hreal & _).
  split; [exact (Hmock eq_refl) | exact (Hreal eq_refl)].
Defined.

(** X20.  In Real mode with automatic fallback disabled, a request to the
    real backend that throws comes back to the caller as an ordinary answer,
    never as an exception, and the gateway is unchanged: generateTest,
    analyzeTest, modifyTest and saveTest answer success false with an error
    text, searchTests with no entry, checkHealth with false.  The error text
    is the detail of the reply of the backend when an axios error has a
    non-empty one, else the message of the axios error, and for any other
    error the words Unexpected error: followed by the error. *)
Theorem faults_without_fallback (env : Env) (this : EnhancedAIService)
    (fault : JsError) :
  useMock this = false ->
  autoFallback this = false ->
  let tr := transport env in
  let client := realService this in
  (Real.request_health tr client = Raise fault ->
   result (checkHealth env this) = Return false
   /\ self (checkHealth env this) = this)
  /\ (forall request,
        Real.request_generate_test tr client request = Raise fault ->
        result (generateTest env this request)
        = Return (TestGenerationResponse.mk false None
                    (Some (Real.error_text fault)) None None)
        /\ self (generateTest env this request) = this)
  /\ (forall request,
        Real.request_analyze_test tr client request = Raise fault ->
        result (analyzeTest env this request)
        = Return (TestAnalysisResponse.mk false None
                    (Some (Real.error_text fault)))
        /\ self (analyzeTest env this request) = this)
  /\ (forall filePath modificationRequest,
        Real.request_modify_test tr client filePath modificationRequest
        = Raise fault ->
        result (modifyTest env this filePath modificationRequest)
        = Return (TestGenerationResponse.mk false None
                    (Some (Real.error_text fault)) None None)
        /\ self (modifyTest env this filePath modificationRequest) = this)
  /\ (forall query numResults,
        Real.request_search_tests tr client query (nullish numResults 10%Z)
        = Raise fault ->
        result (searchTests env this query numResults) = Return []
        /\ self (searchTests env this query numResults) = this)
  /\ (forall code testName outputDir,
        Real.request_save_test tr client code testName
          (nullish outputDir "tests") = Raise fault ->
        result (saveTest env this code testName outputDir)
        = Return (SaveResult.mk false None None None
                    (Some (Real.error_text fault)))
        /\ self (saveTest env this code testName outputDir) = this)
  /\ (forall c d message,
        Real.error_text (AxiosError (Some (String c d)) message) = String c d)
  /\ (forall message,
        Real.error_text (AxiosError None message) = message
        /\ Real.error_text (AxiosError (Some EmptyString) message) = message)
  /\ (forall text,
        Real.error_text (OtherError text) = "Unexpected error: " ++ text).
Proof.
  intros Hreal Hauto tr client.
  unfold checkHealth, generateTest, analyzeTest, modifyTest, searchTests,
    saveTest. cbv zeta. rewrite Hreal. fold tr client.
  split.
  { intros H. rewrite (real_checkHealth_fault tr client H).
    cbn [outcome console]. rewrite Hauto. now gw_simpl. }
  split.
  { intros request H. rewrite (real_generateTest_fault tr client request H).
    cbn [outcome console]. rewrite Hauto, andb_false_r. now gw_simpl. }
  split.
  { intros request H. rewrite (real_analyzeTest_fault tr client request H).
    cbn [outcome console]. rewrite Hauto, andb_false_r. now gw_simpl. }
  split.
  { intros filePath modificationRequest H.
    rewrite (real_modifyTest_fault tr client filePath modificationRequest H).
    cbn [outcome console]. rewrite Hauto, andb_false_r. now gw_simpl. }
  split.
  { intros query numResults H.
    rewrite (real_searchTests_fault tr client query _ H).
    cbn [outcome console]. rewrite Hauto, andb_false_r. now gw_simpl. }
  split.
  { intros code testName outputDir H.
    rewrite (real_saveTest_fault tr client code testName _ H).
    cbn [outcome console]. rewrite Hauto, andb_false_r. now gw_simpl. }
  repeat split.
Qed.

Lemma faults_without_fallback_witness :
  result (generateTest env_down sample_gateway_no_fallback request_login_cart)
  = Return (TestGenerationResponse.mk false None
              (Some "connect ECONNREFUSED 127.0.0.1:8000") None None)
  /\ result (searchTests env_down sample_gateway_no_fallback "login" None)
     = Return [].
Proof.
  destruct (faults_without_fallback env_down sample_gateway_no_fallback
              connection_refused eq_refl eq_refl)
    as (_ & Hgen & _ & _ & Hsearch & _).
  split.
  - exact (proj1 (Hgen request_login_cart eq_refl)).
  - exact (proj1 (Hsearch "login" None eq_refl)).
Defined.

End GatewayInvariants.

Section GatewayResults.

Import Gateway.

Lemma mock_generateTest_well_formed (w : Mock.World)
    (this : Mock.MockAIService) (request : TestGenerationRequest.t) :
  exists r,
    Mock.generateTest w this request = Return r /\ well_formed_generation r.
Proof.
  unfold Mock.generateTest, Mock.simulateDelay. cbn [bind].
  destruct (Mock.shouldSimulateError w this); eexists; split;
    try reflexivity; unfold well_formed_generation; cbn.
  - eexists. reflexivity.
  - eexists. split; [reflexivity|]. apply testTemplates_nonempty.
Qed.

Lemma mock_modifyTest_well_formed (w : Mock.World)
    (this : Mock.MockAIService) (filePath modificationRequest : string) :
  exists r,
    Mock.modifyTest w this filePath modificationRequest = Return r
    /\ well_formed_generation r.
Proof.
  unfold Mock.modifyTest, Mock.simulateDelay. cbn [bind].
  destruct (Mock.shouldSimulateError w this); eexists; split;
    try reflexivity; unfold well_formed_generation; cbn.
  - eexists. reflexivity.
  - eexists. split; [reflexivity|]. discriminate.
Qed.

Lemma failure_well_formed (text : string) :
  well_formed_generation (TestGenerationResponse.failure text).
Proof. unfold well_formed_generation. cbn. now exists text. Qed.

(** X21.  The gateway keeps the invariant of generation results: provided
    every reply that the real backend itself sends is well formed (a success
    with a non-empty artifact, a failure with an error text), every result of
    generateTest and of modifyTest is returned, not thrown, and is well
    formed, in either mode, with or without automatic fallback, whether the
    request to the backend throws or not. *)
Theorem generation_results_well_formed (env : Env)
    (this : EnhancedAIService) :
  (forall request, exists r,
      result (generateTest env
                (set_useMock true this) request) = Return r
      /\ well_formed_generation r)
  /\ (forall request,
        (forall d,
           Real.request_generate_test (transport env) (realService this)
             request = Return d -> well_formed_generation d) ->
        exists r,
          result (generateTest env this request) = Return r
          /\ well_formed_generation r)
  /\ (forall filePath modificationRequest,
        (forall d,
           Real.request_modify_test (transport env) (realService this)
             filePath modificationRequest = Return d ->
           well_formed_generation d) ->
        exists r,
          result (modifyTest env this filePath modificationRequest) = Return r
          /\ well_formed_generation r).
Proof.
  split; [|split].
  - intros request. unfold generateTest. cbv zeta. gw_simpl.
    apply mock_generateTest_well_formed.
  - intros request Hreply. unfold generateTest. cbv zeta.
    destruct (useMock this);
      [gw_simpl; apply mock_generateTest_well_formed|].
    destruct (Real.request_generate_test (transport env) (realService this)
                request) as [d|e] eqn:Hcall.
    + rewrite (real_generateTest_reply _ _ _ Hcall). cbn [outcome console].
      destruct (negb (TestGenerationResponse.success d) && autoFallback this);
        gw_simpl; [apply mock_generateTest_well_formed|].
      exists d. split; [reflexivity | now apply Hreply].
    + rewrite (real_generateTest_fault _ _ _ Hcall). cbn [outcome console].
      destruct (negb _ && autoFallback this);
        gw_simpl; [apply mock_generateTest_well_formed|].
      eexists. split; [reflexivity | apply failure_well_formed].
  - intros filePath modificationRequest Hreply. unfold modifyTest. cbv zeta.
    destruct (useMock this);
      [gw_simpl; apply mock_modifyTest_well_formed|].
    destruct (Real.request_modify_test (transport env) (realService this)
                filePath modificationRequest) as [d|e] eqn:Hcall.
    + rewrite (real_modifyTest_reply _ _ _ _ Hcall). cbn [outcome console].
      destruct (negb (TestGenerationResponse.success d) && autoFallback this);
        gw_simpl; [apply mock_modifyTest_well_formed|].
      exists d. split; [reflexivity | now apply Hreply].
    + rewrite (real_modifyTest_fault _ _ _ _ Hcall). cbn [outcome console].
      destruct (negb _ && autoFallback this);
        gw_simpl; [apply mock_modifyTest_well_formed|].
      eexists. split; [reflexivity | apply failure_well_formed].
Qed.

Lemma generation_results_well_formed_witness :
  exists r,
    result (generateTest env_failing sample_gateway_no_fallback
              request_login_cart) = Return r
    /\ well_formed_generation r.
Proof.
  destruct (generation_results_well_formed env_failing
              sample_gateway_no_fallback) as (_ & Hgen & _).
  apply Hgen. intros d Hd. injection Hd as <-. apply failure_well_formed.
Defined.

(** X22.  A fallback is a switch followed by a retry.  In Real mode with
    automatic fallback, when the real backend answers generateTest,
    analyzeTest, modifyTest or saveTest with success false, searchTests with
    no entry or checkHealth with false, the caller gets what the same
    operation returns from a gateway already in Simulated mode, and the
    gateway is left in the state that enableMock would have put it in. *)
Theorem fallback_is_switch_and_retry (env : Env) (this : EnhancedAIService) :
  useMock this = false ->
  autoFallback this = true ->
  let tr := transport env in
  let client := realService this in
  let switched := self (enableMock this) in
  (outcome (Real.checkHealth tr client) = Return false ->
   result (checkHealth env this) = result (checkHealth env switched)
   /\ self (checkHealth env this) = switched)
  /\ (forall request r,
        outcome (Real.generateTest tr client request) = Return r ->
        TestGenerationResponse.success r = false ->
        result (generateTest env this request)
        = result (generateTest env switched request)
        /\ self (generateTest env this request) = switched)
  /\ (forall request r,
        outcome (Real.analyzeTest tr client request) = Return r ->
        TestAnalysisResponse.success r = false ->
        result (analyzeTest env this request)
        = result (analyzeTest env switched request)
        /\ self (analyzeTest env this request) = switched)
  /\ (forall filePath modificationRequest r,
        outcome (Real.modifyTest tr client filePath modificationRequest)
        = Return r ->
        TestGenerationResponse.success r = false ->
        result (modifyTest env this filePath modificationRequest)
        = result (modifyTest env switched filePath modificationRequest)
        /\ self (modifyTest env this filePath modificationRequest) = switched)
  /\ (forall query numResults,
        outcome
          (Real.searchTests tr client query (Some (nullish numResults 10%Z)))
        = Return [] ->
        result (searchTests env this query numResults)
        = result (searchTests env switched query numResults)
        /\ self (searchTests env this query numResults) = switched)
  /\ (forall code testName outputDir r,
        outcome
          (Real.saveTest tr client code testName
             (Some (nullish outputDir "tests"))) = Return r ->
        SaveResult.success r = false ->
        result (saveTest env this code testName outputDir)
        = result (saveTest env switched code testName outputDir)
        /\ self (saveTest env this code testName outputDir) = switched).
Proof.
  intros Hreal Hauto tr client switched.
  unfold checkHealth, generateTest, analyzeTest, modifyTest, searchTests,
    saveTest. cbv zeta. rewrite Hreal. fold tr client.
  unfold switched, enableMock. gw_simpl.
  split; [intros H; rewrite H, Hauto; now gw_simpl|].
  split; [intros request r H Hs; rewrite H, Hs, Hauto; now gw_simpl|].
  split; [intros request r H Hs; rewrite H, Hs, Hauto; now gw_simpl|].
  split; [intros filePath modificationRequest r H Hs; rewrite H, Hs, Hauto;
          now gw_simpl|].
  split; [intros query numResults H; rewrite H, Hauto; now gw_simpl|].
  intros code testName outputDir r H Hs. rewrite H, Hs, Hauto. now gw_simpl.
Qed.

Lemma fallback_is_switch_and_retry_witness :
  result (generateTest env_failing sample_gateway request_login_cart)
  = result (generateTest env_failing sample_simulated_gateway
              request_login_cart)
  /\ self (generateTest env_failing sample_gateway request_login_cart)
     = sample_simulated_gateway.
Proof.
  destruct (fallback_is_switch_and_retry env_failing sample_gateway
              eq_refl eq_refl) as (_ & Hgen & _).
  exact (Hgen request_login_cart
           (TestGenerationResponse.failure "model not loaded")
           eq_refl eq_refl).
Defined.

(** X23.  The gateway that the module exports starts in Simulated mode
    exactly when the environment variable USE_MOCK_AI is the text true, has
    automatic fallback on and a simulator that never injects errors; hence,
    while the real backend cannot be reached, every generation request put to
    it succeeds with a non-empty artifact that is reported valid, and leaves
    it in Simulated mode. *)
Theorem exported_gateway (env_USE_MOCK_AI env_AI_SERVICE_URL : option string) :
  let gateway := enhancedAIService env_USE_MOCK_AI env_AI_SERVICE_URL in
  (useMock gateway = true <-> env_USE_MOCK_AI = Some "true")
  /\ autoFallback gateway = true
  /\ Mock.enableRandomErrors (mockService gateway) = false
  /\ Mock.responseDelay (mockService gateway) = 300%float
  /\ (forall env request,
        unreachable (transport env) ->
        exists r artifact warnings,
          result (generateTest env gateway request) = Return r
          /\ TestGenerationResponse.success r = true
          /\ TestGenerationResponse.code r = Some artifact
          /\ artifact <> EmptyString
          /\ TestGenerationResponse.validation r
             = Some (Validation.mk true [] warnings)
          /\ useMock (self (generateTest env gateway request)) = true).
Proof.
  intros gateway.
  split.
  { unfold gateway, enhancedAIService, new. cbn [useMock cfg_useMock nullish].
    destruct env_USE_MOCK_AI as [value|]; [|split; discriminate].
    destruct (String.eqb_spec value "true") as [->|Hv]; split;
      try reflexivity; try discriminate.
    intros [= H]. now elim Hv. }
  split; [reflexivity|]. split; [reflexivity|]. split; [reflexivity|].
  intros env request Hdown.
  assert (Hoff : Mock.enableRandomErrors (mockService gateway) = false)
    by reflexivity.
  assert (Hauto : autoFallback gateway = true) by reflexivity.
  pose proof (generateTest_without_errors (world env) (mockService gateway)
                request Hoff) as Hmock.
  do 3 eexists.
  unfold generateTest. cbv zeta.
  destruct (useMock gateway) eqn:Hmode.
  - gw_simpl. rewrite Hmock, Hmode.
    repeat split; try reflexivity. apply testTemplates_nonempty.
  - destruct Hdown as (_ & Hgen & _).
    destruct (@is_raise_inv _ _
                (Hgen (Real.baseUrl (realService gateway) ++ "/generate-test")
                   {| Real.requirements :=
                        TestGenerationRequest.requirements request;
                      Real.context_query :=
                        TestGenerationRequest.context request |}
                   (Real.timeout (realService gateway)))) as [e He].
    rewrite (real_generateTest_fault (transport env) (realService gateway)
               request He).
    cbn [outcome console TestGenerationResponse.success
         TestGenerationResponse.failure negb andb].
    rewrite Hauto. gw_simpl. rewrite Hmock.
    repeat split; try reflexivity. apply testTemplates_nonempty.
Qed.

Lemma exported_gateway_witness :
  exists r,
    result
      (generateTest env_down (enhancedAIService None None)
         (TestGenerationRequest.mk "test login functionality" None None None))
    = Return r
    /\ TestGenerationResponse.success r = true
    /\ useMock
         (self
            (generateTest env_down (enhancedAIService None None)
               (TestGenerationRequest.mk "test login functionality" None None
                  None))) = true.
Proof.
  destruct (exported_gateway None None) as (_ & _ & _ & _ & Hgen).
  destruct (Hgen env_down
              (TestGenerationRequest.mk "test login functionality" None None
                 None))
    as (r & artifact & warnings & Hresult & Hsuccess & _ & _ & _ & Hmode).
  { repeat split; intros; reflexivity. }
  exists r. split; [exact Hresult|]. split; [exact Hsuccess | exact Hmode].
Defined.

End GatewayResults.

Section SearchReplies.

Import Gateway.



End SearchReplies.

(** * Properties of the test lister *)

Section Categorize.

Import ListTests.

Lemma categorize_spec (items : list TestItem) :
  forall acc : Categories,
    forallb has_category items = true ->
    categorize items acc
    = Return
        {| ai_integration :=
             (ai_integration acc ++ filter goes_to_ai_integration items)%list;
           generated := (generated acc ++ filter goes_to_generated items)%list;
           examples := (examples acc ++ filter goes_to_examples items)%list;
           standard := (standard acc ++ filter goes_to_standard items)%list |}.
Proof.
  induction items as [|test rest IH]; intros acc Hall.
  - cbn. rewrite !app_nil_r. now destruct acc.
  - cbn [forallb] in Hall. apply andb_true_iff in Hall.
    destruct Hall as [Hcat Hrest].
    cbn [categorize filter].
    unfold goes_to_ai_integration, goes_to_generated, goes_to_examples,
      goes_to_standard, category_includes, has_category in *.
    destruct (category test) as [c|]; [|discriminate Hcat].
    destruct (includes c "generated"); cbn [negb andb];
      [rewrite (IH _ Hrest); cbn; now rewrite <- !app_assoc|].
    destruct (includes c "examples"); cbn [negb andb];
      [rewrite (IH _ Hrest); cbn; now rewrite <- !app_assoc|].
    destruct (includes (file test) "ai-integration"
              || includes (file test) "ai-generated"); cbn [negb andb];
      rewrite (IH _ Hrest); cbn; now rewrite <- !app_assoc.
Qed.

Lemma categorize_raises (items : list TestItem) :
  forall acc : Categories,
    forallb has_category items = false ->
    categorize items acc = Raise no_category.
Proof.
  induction items as [|test rest IH]; intros acc Hall; [discriminate|].
  cbn [forallb] in Hall. cbn [categorize]. unfold has_category in Hall.
  destruct (category test) as [c|]; [|reflexivity].
  cbn [andb] in Hall.
  destruct (includes c "generated"); [now apply IH|].
  destruct (includes c "examples"); [now apply IH|].
  destruct (includes (file test) "ai-integration"
            || includes (file test) "ai-generated"); now apply IH.
Qed.

Lemma four_way_split (items : list TestItem) :
  forallb has_category items = true ->
  (List.length (filter goes_to_ai_integration items)
   + List.length (filter goes_to_generated items)
   + List.length (filter goes_to_examples items)
   + List.length (filter goes_to_standard items))%nat
  = List.length items.
Proof.
  induction items as [|test rest IH]; intros Hall; [reflexivity|].
  cbn [forallb] in Hall. apply andb_true_iff in Hall.
  destruct Hall as [_ Hrest]. specialize (IH Hrest).
  cbn [filter List.length].
  unfold goes_to_ai_integration, goes_to_generated, goes_to_examples,
    goes_to_standard in *.
  destruct (category_includes "generated" test);
    destruct (category_includes "examples" test);
    destruct (includes (file test) "ai-integration"
              || includes (file test) "ai-generated");
    cbn [negb andb List.length]; lia.
Qed.

(** X25.  [categorizeTests] splits a list of entries that all have a category
    four ways without losing, repeating or reordering any: Generated gets the
    entries whose category includes the word generated, Examples those of the
    others whose category includes examples, AI Integration those of the rest
    whose file name includes ai-integration or ai-generated, Standard what is
    left, each in the order of the list, and the four sizes add up to the size
    of the list.  On a list with an entry that has no category (as
    [extractTestInfo] returns them) it throws a TypeError. *)
Theorem categorizeTests_partition (items : list TestItem) :
  (forallb has_category items = true ->
   categorizeTests items
   = Return
       {| ai_integration := filter goes_to_ai_integration items;
          generated := filter goes_to_generated items;
          examples := filter goes_to_examples items;
          standard := filter goes_to_standard items |}
   /\ (List.length (filter goes_to_ai_integration items)
       + List.length (filter goes_to_generated items)
       + List.length (filter goes_to_examples items)
       + List.length (filter goes_to_standard items))%nat
      = List.length items
   /\ (forall test, In test items ->
         (goes_to_ai_integration test = true
          /\ goes_to_generated test = false
          /\ goes_to_examples test = false
          /\ goes_to_standard test = false)
         \/ (goes_to_ai_integration test = false
             /\ goes_to_generated test = true
             /\ goes_to_examples test = false
             /\ goes_to_standard test = false)
         \/ (goes_to_ai_integration test = false
             /\ goes_to_generated test = false
             /\ goes_to_examples test = true
             /\ goes_to_standard test = false)
         \/ (goes_to_ai_integration test = false
             /\ goes_to_generated test = false
             /\ goes_to_examples test = false
             /\ goes_to_standard test = true)))
  /\ (forallb has_category items = false ->
      categorizeTests items = Raise no_category).
Proof.
  split.
  - intros Hall. split; [|split].
    + unfold categorizeTests. now rewrite (categorize_spec items _ Hall).
    + now apply four_way_split.
    + intros test _.
      unfold goes_to_ai_integration, goes_to_generated, goes_to_examples,
        goes_to_standard.
      destruct (category_includes "generated" test);
        destruct (category_includes "examples" test);
        destruct (includes (file test) "ai-integration"
                  || includes (file test) "ai-generated");
        cbn; tauto.
  - intros Hall. now apply categorize_raises.
Qed.

End Categorize.

Section Extract.

Import ListTests.

Variable base : string.

Lemma hook_name_known (line : string) :
  starts_hook line = true ->
  In (or_string (hook_word line) "Unknown Hook" ++ " hook") hook_names.
Proof.
  unfold starts_hook. rewrite !orb_true_iff, !startsWith_spec.
  intros [[[[t ->]|[t ->]]|[t ->]]|[t ->]]; vm_compute; tauto.
Qed.

Lemma loop_body_open (st : LoopState) (i : nat) (raw : string) :
  open_is_test st -> open_is_test (loop_body base st i raw).
Proof.
  intros Hst test. unfold loop_body. cbv zeta.
  destruct (starts_test (trim raw));
    destruct (_ && String.eqb (trim raw) "});"); cbn;
    try discriminate; try (intros [= <-]; reflexivity); apply Hst.
Qed.

Lemma loop_body_held (st : LoopState) (i : nat) (raw : string)
    (test : TestItem) :
  In test (held (loop_body base st i raw)) ->
  In test (held st) \/ made_at base (i + 1) raw test.
Proof.
  unfold held, loop_body, made_at, hook_line, test_line. cbv zeta.
  pose proof (hook_name_known (trim raw)) as Hname.
  destruct (starts_test (trim raw)) eqn:Htest;
    destruct (starts_hook (trim raw)) eqn:Hhook;
    destruct (inTestBlock st); cbn [andb];
    destruct (String.eqb (trim raw) "});");
    destruct (currentTest st) as [open|];
    cbn [tests currentTest]; rewrite ?app_nil_r;
    intros Hin; repeat (apply in_app_or in Hin; destruct Hin as [Hin|Hin]);
    try (destruct Hin as [<-|[]]);
    try (left; now auto using in_or_app, in_eq);
    try (left; apply in_or_app; now auto using in_eq);
    try (right; cbn;
         split; [reflexivity|]; split; [reflexivity|];
         split; [reflexivity|]; split; [reflexivity|];
         first [ left; split; [reflexivity|];
                 split; [reflexivity | now apply Hname]
               | right; split; reflexivity ]).
Qed.

Lemma filter_snoc (A : Type) (p : A -> bool) (l : list A) (x : A) :
  filter p (l ++ [x]) = (filter p l ++ if p x then [x] else [])%list.
Proof. now rewrite filter_app. Qed.

Lemma loop_body_counts (st : LoopState) (i : nat) (raw : string) :
  open_is_test st ->
  let st' := loop_body base st i raw in
  List.length (filter is_hook (tests st'))
  = (List.length (filter is_hook (tests st))
     + if hook_line raw then 1 else 0)%nat
  /\ (List.length (filter (fun t => negb (is_hook t)) (tests st'))
      + pending st'
      <= List.length (filter (fun t => negb (is_hook t)) (tests st))
         + pending st + if test_line raw then 1 else 0)%nat
  /\ (List.length (filter (fun t => negb (is_hook t)) (tests st'))
      <= List.length (filter (fun t => negb (is_hook t)) (tests st))
         + if closing_line raw then 1 else 0)%nat.
Proof.
  intros Hopen. unfold loop_body, pending, hook_line, test_line, closing_line.
  cbv zeta.
  assert (Hcur : forall t, currentTest st = Some t -> is_hook t = false).
  { intros t Ht. unfold is_hook. now rewrite (Hopen t Ht). }
  destruct (starts_test (trim raw));
    destruct (starts_hook (trim raw));
    destruct (inTestBlock st); cbn [andb];
    destruct (String.eqb (trim raw) "});");
    destruct (currentTest st) as [open|] eqn:Hc;
    cbn [tests currentTest];
    rewrite ?filter_snoc, ?filter_app, ?length_app;
    try rewrite (Hcur open eq_refl);
    cbn; rewrite ?length_app; cbn; lia.
Qed.

Lemma loop_open (lines : list string) :
  forall i st, open_is_test st -> open_is_test (loop base lines i st).
Proof.
  induction lines as [|raw rest IH]; intros i st Hst; [exact Hst|].
  cbn [loop]. apply IH. now apply loop_body_open.
Qed.

Lemma loop_held (lines : list string) :
  forall i st test,
    In test (held (loop base lines i st)) ->
    In test (held st)
    \/ exists k raw,
         nth_error lines k = Some raw /\ made_at base (i + k + 1) raw test.
Proof.
  induction lines as [|raw rest IH]; intros i st test Hin; [now left|].
  cbn [loop] in Hin. apply IH in Hin. destruct Hin as [Hin|(k & raw' & Hk & Hm)].
  - apply loop_body_held in Hin. destruct Hin as [Hin|Hm]; [now left|].
    right. exists 0%nat, raw. split; [reflexivity|].
    now replace (i + 0 + 1)%nat with (i + 1)%nat by lia.
  - right. exists (S k), raw'. split; [exact Hk|].
    now replace (i + S k + 1)%nat with (i + 1 + k + 1)%nat by lia.
Qed.

Lemma loop_counts (lines : list string) :
  forall i st,
    open_is_test st ->
    let st' := loop base lines i st in
    List.length (filter is_hook (tests st'))
    = (List.length (filter is_hook (tests st)) + count_lines hook_line lines)%nat
    /\ (List.length (filter (fun t => negb (is_hook t)) (tests st'))
        + pending st'
        <= List.length (filter (fun t => negb (is_hook t)) (tests st))
           + pending st + count_lines test_line lines)%nat
    /\ (List.length (filter (fun t => negb (is_hook t)) (tests st'))
        <= List.length (filter (fun t => negb (is_hook t)) (tests st))
           + count_lines closing_line lines)%nat.
Proof.
  unfold count_lines.
  induction lines as [|raw rest IH]; intros i st Hst; cbn [loop filter].
  - cbn. lia.
  - destruct (@loop_body_counts st i raw Hst) as (H1 & H2 & H3).
    destruct (IH (i + 1)%nat _ (@loop_body_open st i raw Hst))
      as (G1 & G2 & G3).
    cbv zeta in *.
    destruct (hook_line raw); destruct (test_line raw);
      destruct (closing_line raw); cbn [List.length]; lia.
Qed.

End Extract.

Lemma extractTestInfo_made (basename : string -> string)
    (content filePath : string) (test : ListTests.TestItem) :
  In test (ListTests.extractTestInfo basename content filePath) ->
  exists k raw,
    nth_error (ListTests.split_lines content) k = Some raw
    /\ made_at (basename filePath) (k + 1) raw test.
Proof.
  intros Hin. unfold ListTests.extractTestInfo in Hin.
  assert (Hheld : In test
            (held (ListTests.loop (basename filePath)
                     (ListTests.split_lines content) 0
                     (ListTests.mkState [] None false EmptyString)))).
  { unfold held. apply in_or_app. now left. }
  apply loop_held in Hheld.
  destruct Hheld as [[]|(k & raw & Hk & Hm)].
  exists k, raw. split; [exact Hk | exact Hm].
Qed.

(** X26.  What [extractTestInfo] reports.  Every entry carries the base name
    of the file, no category and no path, and a line number that is the
    number of a line of the content; a hook entry points at a line that
    (trimmed) begins with one of the four hook calls and is named beforeEach
    hook, afterEach hook, beforeAll hook or afterAll hook (the name Unknown
    Hook never occurs); any other entry points at a line that begins with
    [test(] or [it(]. *)
Theorem extractTestInfo_entries (basename : string -> string)
    (content filePath : string) (test : ListTests.TestItem) :
  In test (ListTests.extractTestInfo basename content filePath) ->
  let lines := ListTests.split_lines content in
  ListTests.file test = basename filePath
  /\ ListTests.category test = None
  /\ ListTests.fullPath test = None
  /\ (1 <= ListTests.line test <= List.length lines)%nat
  /\ exists raw,
       nth_error lines (ListTests.line test - 1) = Some raw
       /\ ((ListTests.type test = Some "hook"
            /\ hook_line raw = true
            /\ In (ListTests.name test) hook_names)
           \/ (ListTests.type test = None /\ test_line raw = true)).
Proof.
  intros Hin lines.
  destruct (extractTestInfo_made basename content filePath test Hin)
    as (k & raw & Hk & Hline & Hfile & Hcat & Hpath & Hkind).
  fold lines in Hk.
  split; [exact Hfile|]. split; [exact Hcat|]. split; [exact Hpath|].
  assert (Hlt : (k < List.length lines)%nat)
    by (apply nth_error_Some; congruence).
  split; [lia|].
  exists raw. split; [|exact Hkind].
  now replace (ListTests.line test - 1)%nat with k by lia.
Qed.

Lemma extractTestInfo_entries_witness :
  exists raw,
    nth_error (ListTests.split_lines sample_spec) 3 = Some raw
    /\ test_line raw = true.
Proof.
  destruct (extractTestInfo_entries (fun p => p) sample_spec "login.spec.ts"
              (ListTests.mkItem "signs in" "Login" 4 "login.spec.ts" None None
                 None))
    as (_ & _ & _ & _ & raw & Hraw & Hkind).
  { vm_compute. right. now left. }
  exists raw. split; [exact Hraw|].
  destruct Hkind as [[Habs _]|[_ Htest]]; [discriminate Habs | exact Htest].
Defined.

(** X27.  How many entries [extractTestInfo] reports: exactly one hook entry
    for each line that begins with a hook call, and at most as many other
    entries as there are lines that begin with [test(] or [it(], and at most
    as many as there are lines that read [});]: a test is reported only once
    a line closes it, so content without such a line yields hooks only. *)
Theorem extractTestInfo_counts (basename : string -> string)
    (content filePath : string) :
  let lines := ListTests.split_lines content in
  let entries := ListTests.extractTestInfo basename content filePath in
  let tests := filter (fun t => negb (is_hook t)) entries in
  List.length (filter is_hook entries) = count_lines hook_line lines
  /\ (List.length tests <= count_lines test_line lines)%nat
  /\ (List.length tests <= count_lines closing_line lines)%nat
  /\ (List.length entries
      <= count_lines hook_line lines + count_lines test_line lines)%nat
  /\ (count_lines closing_line lines = 0%nat -> tests = []).
Proof.
  intros lines entries tests.
  destruct (@loop_counts (basename filePath) lines 0
              (ListTests.mkState [] None false EmptyString))
    as (H1 & H2 & H3); [intros t Ht; discriminate Ht|].
  cbv zeta in H1, H2, H3. cbn [ListTests.tests filter List.length pending
                               ListTests.currentTest Nat.add] in H1, H2, H3.
  assert (E : ListTests.tests
                (ListTests.loop (basename filePath) lines 0
                   (ListTests.mkState [] None false EmptyString)) = entries)
    by reflexivity.
  rewrite E in H1, H2, H3. fold tests in H2, H3.
  assert (Hsplit : List.length entries
                   = (List.length (filter is_hook entries)
                      + List.length tests)%nat).
  { unfold tests. clear. induction entries as [|t rest IH]; [reflexivity|].
    cbn [filter List.length]. destruct (is_hook t); cbn [negb List.length]; lia. }
  split; [exact H1|]. split; [lia|]. split; [lia|]. split; [lia|].
  intros Hzero. destruct tests; [reflexivity | cbn in H3; lia].
Qed.

Section Scan.

Import ListTests.

Variable p : Path.

Lemma startsWith_refl (s : string) : startsWith s s = true.
Proof.
  induction s as [|c s IH]; simpl; [reflexivity|].
  now rewrite Ascii.eqb_refl, IH.
Qed.

Lemma startsWith_app (s prefix more : string) :
  startsWith s (prefix ++ more) = true -> startsWith s prefix = true.
Proof.
  rewrite !startsWith_spec. intros [t ->]. exists (more ++ t).
  apply append_assoc.
Qed.

Lemma startsWith_includes (s prefix word : string) :
  startsWith s prefix = true -> includes prefix word = true ->
  includes s word = true.
Proof.
  rewrite startsWith_spec. intros [t ->] H.
  apply includes_trans with prefix; [|exact H].
  apply (includes_middle EmptyString prefix t).
Qed.

Lemma scan_found :
  (forall node file dirPath category test,
      In test (found (scan_entry p node file dirPath category)) ->
      scanned p category test)
  /\ (forall entries dirPath category test,
        In test (found (scan_entries p entries dirPath category)) ->
        scanned p category test).
Proof.
  apply FsNode_FsEntries_ind.
  - intros content file dirPath category test. cbn [scan_entry].
    destruct (endsWith file ".spec.ts" || endsWith file ".spec.js");
      [|intros []].
    destruct content as [text|error]; [|intros []].
    cbn [found]. intros Hin. apply in_map_iff in Hin.
    destruct Hin as [t [<- Hin]].
    exists category, (path_join p dirPath file).
    split; [reflexivity|]. split; [apply startsWith_refl|].
    split; [reflexivity|]. cbn [ListTests.file tag].
    apply extractTestInfo_made in Hin.
    destruct Hin as (k & raw & _ & _ & Hfile & _). exact Hfile.
  - intros entries IH file dirPath category test. cbn [scan_entry].
    intros Hin. apply IH in Hin.
    destruct Hin as (c & fp & Hc & Hs & Hrest).
    exists c, fp. split; [exact Hc|]. split; [|exact Hrest].
    exact (startsWith_app c category ("/" ++ file) Hs).
  - intros dirPath category test [].
  - intros file node IHnode rest IHrest dirPath category test.
    cbn [scan_entries scan_app found]. intros Hin.
    apply in_app_or in Hin. destruct Hin as [Hin|Hin];
      [now apply IHnode in Hin | now apply IHrest in Hin].
Qed.

End Scan.

Section ScanResults.

Import ListTests.

Lemma filter_none (A : Type) (q : A -> bool) (l : list A) :
  (forall x, In x l -> q x = false) -> filter q l = [].
Proof.
  induction l as [|x l IH]; intros H; [reflexivity|].
  cbn [filter]. rewrite (H x (in_eq x l)). apply IH.
  intros y Hy. apply H. now right.
Qed.

Lemma scanned_has_category (p : Path) (category : string)
    (items : list TestItem) :
  (forall test, In test items -> scanned p category test) ->
  forallb has_category items = true.
Proof.
  intros H. apply forallb_forall. intros test Hin.
  destruct (H test Hin) as (c & fp & Hc & _). unfold has_category.
  now rewrite Hc.
Qed.

(** X28.  [scanDirectory] and [categorizeTests] together.  A directory that
    does not exist yields nothing, and a path that names a file makes the
    listing throw.  Otherwise every entry found carries a category that
    begins with the category the scan started with, the path of its file and
    the base name of that path, files that cannot be read are passed over,
    and so [categorizeTests] never throws on the entries of a scan and loses
    none of them; when the starting category includes the word examples (as
    for the examples directory), every entry ends up under Generated or
    Examples and none under AI Integration or Standard. *)
Theorem scanDirectory_results (p : Path) (root : option FsNode)
    (dirPath category : string) :
  (root = None ->
   scanDirectory p root dirPath category = Return (mkScan [] []))
  /\ (forall content,
        root = Some (FsFile content) ->
        is_raise (scanDirectory p root dirPath category) = true)
  /\ (forall scan,
        scanDirectory p root dirPath category = Return scan ->
        (forall test, In test (found scan) -> scanned p category test)
        /\ exists categories,
             categorizeTests (found scan) = Return categories
             /\ (List.length (ai_integration categories)
                 + List.length (generated categories)
                 + List.length (examples categories)
                 + List.length (standard categories))%nat
                = List.length (found scan)
             /\ (includes category "examples" = true ->
                 ai_integration categories = []
                 /\ standard categories = [])).
Proof.
  split; [intros ->; reflexivity|].
  split; [intros content ->; reflexivity|].
  intros scan Hscan.
  assert (Hall : forall test, In test (found scan) -> scanned p category test).
  { destruct root as [[content|entries]|]; cbn in Hscan.
    - discriminate Hscan.
    - injection Hscan as <-. intros test. apply (proj2 (scan_found p)).
    - injection Hscan as <-. intros test []. }
  split; [exact Hall|].
  pose proof (@scanned_has_category p category (found scan) Hall) as Hcat.
  eexists. split.
  { unfold categorizeTests. rewrite (categorize_spec (found scan) _ Hcat).
    reflexivity. }
  cbn [ai_integration generated examples standard app].
  split; [now apply four_way_split|].
  intros Hex.
  assert (Hin : forall test, In test (found scan) ->
                  category_includes "generated" test = true
                  \/ category_includes "examples" test = true).
  { intros test Htest. destruct (Hall test Htest) as (c & fp & Hc & Hs & _).
    right. unfold category_includes. rewrite Hc.
    exact (startsWith_includes c category "examples" Hs Hex). }
  split; apply filter_none; intros test Htest;
    unfold goes_to_ai_integration, goes_to_standard;
    destruct (Hin test Htest) as [-> | ->];
    cbn [negb andb]; rewrite ?andb_false_r; reflexivity.
Qed.

Lemma scanDirectory_results_witness :
  exists scan categories,
    scanDirectory sample_path (Some (FsDir sample_tree)) "/repo/tests-examples"
      "examples" = Return scan
    /\ categorizeTests (found scan) = Return categories
    /\ ai_integration categories = []
    /\ standard categories = [].
Proof.
  destruct (scanDirectory_results sample_path (Some (FsDir sample_tree))
              "/repo/tests-examples" "examples") as (_ & _ & Hscan).
  destruct (Hscan _ eq_refl) as (_ & categories & Hcat & _ & Hex).
  destruct (Hex eq_refl) as [Hai Hstd].
  eexists. exists categories.
  split; [reflexivity|]. split; [exact Hcat|]. split; assumption.
Defined.

Lemma categorizeTests_partition_witness :
  categorizeTests
    (found
       (scan_entries sample_path sample_tree "/repo/tests" "tests"))
  = Return
      {| ai_integration :=
           filter goes_to_ai_integration
             (found
                (scan_entries sample_path sample_tree "/repo/tests" "tests"));
         generated :=
           filter goes_to_generated
             (found
                (scan_entries sample_path sample_tree "/repo/tests" "tests"));
         examples :=
           filter goes_to_examples
             (found
                (scan_entries sample_path sample_tree "/repo/tests" "tests"));
         standard :=
           filter goes_to_standard
             (found
                (scan_entries sample_path sample_tree "/repo/tests" "tests"))
      |}
  /\ categorizeTests
       (extractTestInfo (fun path => path) sample_spec "login.spec.ts")
     = Raise no_category.
Proof.
  destruct (categorizeTests_partition
              (found
                 (scan_entries sample_path sample_tree "/repo/tests" "tests")))
    as [Hok _].
  destruct (categorizeTests_partition
              (extractTestInfo (fun path => path) sample_spec "login.spec.ts"))
    as [_ Hbad].
  split; [exact (proj1 (Hok eq_refl)) | exact (Hbad eq_refl)].
Defined.

Lemma extractTestInfo_counts_witness :
  filter (fun t => negb (is_hook t))
    (extractTestInfo (fun path => path)
       ("test('never closed', async () => {" ++ nl ++ "})")
       "open.spec.ts") = [].
Proof.
  destruct (extractTestInfo_counts (fun path => path)
              ("test('never closed', async () => {" ++ nl ++ "})")
              "open.spec.ts") as (_ & _ & _ & _ & Hnone).
  exact (Hnone eq_refl).
Defined.

End ScanResults.

(** * Properties of the search command *)

Section RegexFacts.

Import Regex.

Lemma append_nil_r (s : string) : s ++ EmptyString = s.
Proof. induction s as [|c s IH]; simpl; [reflexivity | now rewrite IH]. Qed.

Lemma append_eq_nil (a b : string) :
  a ++ b = EmptyString -> a = EmptyString /\ b = EmptyString.
Proof. destruct a; simpl; [now split | discriminate]. Qed.

Lemma nullable_mono (r : Regex.t) :
  nullable false r = true -> nullable true r = true.
Proof.
  induction r; simpl; try tauto; try discriminate.
  - rewrite !andb_true_iff. tauto.
  - rewrite !orb_true_iff. tauto.
Qed.

Lemma matches_nullable (r : Regex.t) (s rest : string) :
  Matches r s rest -> s = EmptyString -> nullable (at_end rest) r = true.
Proof.
  induction 1 as [rest|p c rest Hp| |r1 r2 s1 s2 rest H1 IH1 H2 IH2
                  |r1 r2 s rest H IH|r1 r2 s rest H IH|r rest
                  |r s1 s2 rest H1 IH1 H2 IH2]; intros Hs; simpl;
    try reflexivity; try discriminate Hs.
  - apply append_eq_nil in Hs. destruct Hs as [-> ->].
    simpl in IH1. now rewrite IH1, IH2.
  - now rewrite IH.
  - rewrite IH by exact Hs. apply orb_true_r.
Qed.

Lemma matches_deriv (r : Regex.t) (x rest : string) :
  Matches r x rest ->
  forall c tl, x = String c tl -> Matches (deriv c r) tl rest.
Proof.
  induction 1 as [rest|p d rest Hp| |r1 r2 s1 s2 rest H1 IH1 H2 IH2
                  |r1 r2 s rest H IH|r1 r2 s rest H IH|r rest
                  |r s1 s2 rest H1 IH1 H2 IH2]; intros c tl Hx;
    try discriminate Hx.
  - injection Hx as <- <-. simpl. rewrite Hp. constructor.
  - simpl. destruct s1 as [|d s1'].
    + simpl in Hx. subst s2. apply MAltR.
      pose proof (matches_nullable H1 eq_refl) as Hn. simpl in Hn.
      rewrite Hn. now apply IH2.
    + simpl in Hx. injection Hx as <- <-. apply MAltL.
      apply MSeq; [now apply IH1 | exact H2].
  - simpl. apply MAltL. now apply IH.
  - simpl. apply MAltR. now apply IH.
  - simpl. destruct s1 as [|d s1'].
    + simpl in Hx. now apply IH2.
    + simpl in Hx. injection Hx as <- <-.
      apply MSeq; [now apply IH1 | exact H2].
Qed.

Lemma matches_here_complete (s : string) :
  forall r rest, Matches r s rest -> matches_here r (s ++ rest) = true.
Proof.
  induction s as [|c s IH]; intros r rest H.
  - pose proof (matches_nullable H eq_refl) as Hn. simpl.
    destruct rest as [|d rest]; simpl in *; [exact Hn | now rewrite Hn].
  - simpl. rewrite (IH _ _ (matches_deriv H eq_refl)). apply orb_true_r.
Qed.

Lemma test_complete (before s rest : string) (r : Regex.t) :
  Matches r s rest -> Regex.test r (before ++ s ++ rest) = true.
Proof.
  intros H. induction before as [|c before IH].
  - change (EmptyString ++ s ++ rest) with (s ++ rest).
    pose proof (matches_here_complete H) as Hm.
    destruct (s ++ rest); cbn [Regex.test]; now rewrite Hm.
  - cbn [append Regex.test]. rewrite IH. apply orb_true_r.
Qed.

Lemma lit_i_matches (w : string) :
  forall s rest,
    toLowerCase s = toLowerCase w -> Matches (lit_i w) s rest.
Proof.
  induction w as [|c w IH]; intros s rest Hs; destruct s as [|d s];
    try discriminate Hs.
  - constructor.
  - simpl in Hs. injection Hs as Hc Hs. simpl.
    change (String d s) with (String d EmptyString ++ s).
    apply MSeq; [|now apply IH].
    constructor. rewrite Hc. apply Ascii.eqb_refl.
Qed.

Lemma map_chars_app (f : ascii -> ascii) (a b : string) :
  map_chars f (a ++ b) = map_chars f a ++ map_chars f b.
Proof. induction a as [|c a IH]; simpl; [reflexivity | now rewrite IH]. Qed.

Lemma map_chars_app_inv (f : ascii -> ascii) (s : string) :
  forall a b,
    map_chars f s = a ++ b ->
    exists s1 s2, s = s1 ++ s2 /\ map_chars f s1 = a /\ map_chars f s2 = b.
Proof.
  induction s as [|c s IH]; intros a b H.
  - simpl in H. symmetry in H. apply append_eq_nil in H. destruct H as [-> ->].
    now exists EmptyString, EmptyString.
  - destruct a as [|d a].
    + simpl in H. exists EmptyString, (String c s). now subst b.
    + simpl in H. injection H as Hd H.
      destruct (IH a b H) as (s1 & s2 & -> & <- & <-).
      exists (String c s1), s2. simpl. now rewrite Hd.
Qed.

(** A pattern text occurs in the lower-cased path: the pattern matches. *)
Lemma test_lit_i (w path : string) :
  toLowerCase w = w ->
  includes (toLowerCase path) w = true ->
  Regex.test (lit_i w) path = true.
Proof.
  intros Hw H. apply includes_spec in H. destruct H as (a & b & H).
  unfold toLowerCase in H.
  apply map_chars_app_inv in H. destruct H as (p1 & p23 & -> & _ & H).
  apply map_chars_app_inv in H. destruct H as (p2 & p3 & -> & H2 & _).
  apply test_complete. apply lit_i_matches. unfold toLowerCase in *.
  now rewrite Hw.
Qed.

(** The lower-cased path ends with a pattern text: the pattern followed by
    the end of input matches. *)
Lemma test_lit_i_end (r : Regex.t) (w path before : string) :
  (forall s, toLowerCase s = w -> Matches r s EmptyString) ->
  toLowerCase path = before ++ w ->
  Regex.test r path = true.
Proof.
  intros Hr H. unfold toLowerCase in H.
  apply map_chars_app_inv in H. destruct H as (p1 & p2 & -> & _ & H2).
  rewrite <- (append_nil_r p2). apply test_complete. now apply Hr.
Qed.

Lemma seq_eos (r : Regex.t) (s : string) :
  Matches r s EmptyString -> Matches (Seq r Eos) s EmptyString.
Proof.
  intros H. rewrite <- (append_nil_r s). apply MSeq; [|constructor].
  now rewrite append_nil_r.
Qed.

Lemma extension_matches (ext s rest : string) :
  In ext extensions -> toLowerCase s = ext ->
  Matches SearchCommand.extension s rest.
Proof.
  unfold extensions, SearchCommand.extension.
  intros [<-|[<-|[<-|[<-|[]]]]] Hs.
  - apply MAltL. now apply lit_i_matches.
  - apply MAltR, MAltL. now apply lit_i_matches.
  - apply MAltR, MAltR, MAltL. now apply lit_i_matches.
  - apply MAltR, MAltR, MAltR. now apply lit_i_matches.
Qed.

Lemma star_dot_matches (s rest : string) :
  string_forall within_line s = true -> Matches (Star dot) s rest.
Proof.
  induction s as [|c s IH]; intros H; [constructor|].
  cbn [string_forall] in H. apply andb_true_iff in H. destruct H as [Hc Hs].
  change (String c s) with (String c EmptyString ++ s).
  apply MStarS; [|now apply IH]. constructor. exact Hc.
Qed.

Lemma within_line_lower (c : ascii) :
  within_line (lower_char c) = true -> within_line c = true.
Proof.
  unfold within_line.
  destruct (Ascii.eqb_spec c (ascii_of_nat 10)) as [->|_]; [now vm_compute|].
  destruct (Ascii.eqb_spec c (ascii_of_nat 13)) as [->|_]; [now vm_compute|].
  reflexivity.
Qed.

Lemma within_line_toLowerCase (s : string) :
  string_forall within_line (toLowerCase s) = true ->
  string_forall within_line s = true.
Proof.
  induction s as [|c s IH]; simpl; [reflexivity|].
  intros H. apply andb_true_iff in H. destruct H as [Hc Hs].
  now rewrite (within_line_lower c Hc), (IH Hs).
Qed.

End RegexFacts.

Section IsTestFile.

Import Regex.

Lemma excluded_by (r : Regex.t) (filePath : string) :
  In r SearchCommand.excludePatterns ->
  Regex.test r filePath = true ->
  excluded filePath = true.
Proof.
  intros Hin Ht. unfold excluded. apply existsb_exists. now exists r.
Qed.

Lemma test_named_by (r : Regex.t) (filePath : string) :
  In r SearchCommand.testPatterns ->
  Regex.test r filePath = true ->
  test_named filePath = true.
Proof.
  intros Hin Ht. unfold test_named. apply existsb_exists. now exists r.
Qed.

Lemma excluded_includes (w filePath : string) :
  In w excluded_anywhere ->
  includes (toLowerCase filePath) w = true ->
  excluded filePath = true.
Proof.
  unfold excluded_anywhere. intros Hin H.
  apply excluded_by with (r := lit_i w).
  - destruct Hin as [<-|[<-|[<-|[<-|[<-|[<-|[]]]]]]];
      unfold SearchCommand.excludePatterns;
      repeat (first [left; reflexivity | right]).
  - apply test_lit_i; [|exact H].
    destruct Hin as [<-|[<-|[<-|[<-|[<-|[<-|[]]]]]]]; reflexivity.
Qed.

Lemma excluded_ending (w filePath before : string) :
  In w excluded_endings ->
  toLowerCase filePath = before ++ w ->
  excluded filePath = true.
Proof.
  unfold excluded_endings.
  intros [<-|[<-|[<-|[]]]] H.
  - apply excluded_by with (r := Seq (lit_i ".py") Eos);
      [unfold SearchCommand.excludePatterns;
       repeat (first [left; reflexivity | right])|].
    eapply test_lit_i_end; [|exact H].
    intros s Hs. apply seq_eos. now apply lit_i_matches.
  - apply excluded_by with (r := Seq (lit_i ".json") Eos);
      [unfold SearchCommand.excludePatterns;
       repeat (first [left; reflexivity | right])|].
    eapply test_lit_i_end; [|exact H].
    intros s Hs. apply seq_eos. now apply lit_i_matches.
  - apply excluded_by with (r := Seq (lit_i ".md") Eos);
      [unfold SearchCommand.excludePatterns;
       repeat (first [left; reflexivity | right])|].
    eapply test_lit_i_end; [|exact H].
    intros s Hs. apply seq_eos. now apply lit_i_matches.
Qed.

Lemma extension_eos (ext s : string) :
  In ext extensions -> toLowerCase s = ext ->
  Matches (Seq SearchCommand.extension Eos) s EmptyString.
Proof.
  intros Hin Hs. apply seq_eos. now apply extension_matches with (ext := ext).
Qed.

Lemma spec_named (filePath before ext : string) :
  In ext extensions ->
  toLowerCase filePath = before ++ ".spec." ++ ext ->
  test_named filePath = true.
Proof.
  intros Hin H. unfold toLowerCase in H.
  apply map_chars_app_inv in H. destruct H as (p1 & p23 & -> & _ & H).
  apply map_chars_app_inv in H. destruct H as (p2 & p3 & -> & H2 & H3).
  apply test_named_by
    with (r := Seq (lit_i ".spec.") (Seq SearchCommand.extension Eos));
    [now left|].
  rewrite <- (append_nil_r (p2 ++ p3)). apply test_complete.
  apply MSeq.
  - now apply lit_i_matches.
  - now apply extension_eos with (ext := ext).
Qed.

Lemma test_word_named (filePath before mid ext : string) :
  In ext extensions ->
  string_forall within_line mid = true ->
  toLowerCase filePath = before ++ "test" ++ mid ++ "." ++ ext ->
  test_named filePath = true.
Proof.
  intros Hin Hmid H. unfold toLowerCase in H.
  apply map_chars_app_inv in H. destruct H as (p1 & q1 & -> & _ & H).
  apply map_chars_app_inv in H. destruct H as (p2 & q2 & -> & H2 & H).
  apply map_chars_app_inv in H. destruct H as (p3 & q3 & -> & H3 & H).
  apply map_chars_app_inv in H. destruct H as (p4 & p5 & -> & H4 & H5).
  apply test_named_by
    with (r := Seq (lit_i "test")
                 (Seq (Star dot)
                    (Seq (lit_i ".") (Seq SearchCommand.extension Eos))));
    [right; right; now left|].
  rewrite <- (append_nil_r (p2 ++ p3 ++ p4 ++ p5)). apply test_complete.
  apply MSeq; [now apply lit_i_matches|].
  apply MSeq.
  - apply star_dot_matches. apply within_line_toLowerCase.
    unfold toLowerCase. now rewrite H3.
  - apply MSeq; [now apply lit_i_matches|].
    now apply extension_eos with (ext := ext).
Qed.

Lemma includes_tests_dir (filePath : string) :
  includes filePath "tests/" = true -> includes filePath "test" = true.
Proof.
  intros H. apply (@includes_part filePath EmptyString "test" "s/"). exact H.
Qed.

Lemma isTestFile_cases (filePath nodeType : string) :
  SearchCommand.isTestFile filePath nodeType =
  if excluded filePath then false
  else if test_named filePath then true
  else String.eqb nodeType "text_chunk"
       && (includes filePath "test" || includes filePath "spec").
Proof.
  unfold SearchCommand.isTestFile, excluded, test_named.
  destruct (existsb _ SearchCommand.excludePatterns); [reflexivity|].
  destruct (existsb _ SearchCommand.testPatterns); [reflexivity|].
  destruct (includes filePath "tests/") eqn:E.
  - rewrite (includes_tests_dir _ E). reflexivity.
  - now rewrite orb_false_r.
Qed.

(** X29 (search.ts, isTestFile).  The exclusions come first: a path whose
    lower-cased text contains one of .config., node_modules, __pycache__,
    .git, venv, .env, or ends with .py, .json or .md, is no test file
    whatever its node type.  A path that no exclusion pattern matches is a
    test file, for every node type, as soon as its lower-cased text ends with
    .spec. and one of the extensions ts, js, tsx, jsx, or contains the word
    test followed, on the same line, by a dot and one of the extensions at
    the end.  When neither an exclusion nor a test pattern matches, the
    answer is the keyword rule: the node type is text_chunk and the path, as
    written, contains test or spec. *)
Theorem isTestFile_rules (filePath nodeType : string) :
  ((exists w, In w excluded_anywhere
              /\ includes (toLowerCase filePath) w = true)
   \/ (exists before w, In w excluded_endings
                        /\ toLowerCase filePath = before ++ w) ->
   SearchCommand.isTestFile filePath nodeType = false)
  /\ (excluded filePath = false ->
      (forall before ext,
          In ext extensions ->
          toLowerCase filePath = before ++ ".spec." ++ ext ->
          SearchCommand.isTestFile filePath nodeType = true)
      /\ (forall before mid ext,
             In ext extensions ->
             string_forall within_line mid = true ->
             toLowerCase filePath = before ++ "test" ++ mid ++ "." ++ ext ->
             SearchCommand.isTestFile filePath nodeType = true)
      /\ (test_named filePath = false ->
          SearchCommand.isTestFile filePath nodeType =
          String.eqb nodeType "text_chunk"
          && (includes filePath "test" || includes filePath "spec"))).
Proof.
  rewrite isTestFile_cases. split.
  - intros [(w & Hin & H)|(before & w & Hin & H)].
    + now rewrite (@excluded_includes _ _ Hin H).
    + now rewrite (@excluded_ending _ _ _ Hin H).
  - intros ->. split; [|split].
    + intros before ext Hin H. now rewrite (@spec_named _ _ _ Hin H).
    + intros before mid ext Hin Hmid H.
      now rewrite (@test_word_named _ _ _ _ Hin Hmid H).
    + now intros ->.
Qed.

Lemma isTestFile_rules_witness :
  SearchCommand.isTestFile "work/node_modules/pkg/a.spec.ts" "text_chunk"
  = false
  /\ SearchCommand.isTestFile "notes/README.MD" "text_chunk" = false
  /\ SearchCommand.isTestFile "e2e/Login.Spec.TSX" "function" = true
  /\ SearchCommand.isTestFile "src/latest.js" "function" = true
  /\ SearchCommand.isTestFile "docs/testing-notes.txt" "text_chunk" = true.
Proof.
  split; [|split; [|split; [|split]]].
  - apply (proj1 (isTestFile_rules "work/node_modules/pkg/a.spec.ts"
                    "text_chunk")).
    left. exists "node_modules". split; [simpl; tauto | reflexivity].
  - apply (proj1 (isTestFile_rules "notes/README.MD" "text_chunk")).
    right. exists "notes/readme", ".md". split; [simpl; tauto | reflexivity].
  - apply (proj1 (proj2 (isTestFile_rules "e2e/Login.Spec.TSX" "function")
                    eq_refl) "e2e/login" "tsx");
      [simpl; tauto | reflexivity].
  - apply (proj1 (proj2 (proj2 (isTestFile_rules "src/latest.js" "function")
                           eq_refl)) "src/la" "" "js");
      [simpl; tauto | reflexivity | reflexivity].
  - rewrite (proj2 (proj2 (proj2 (isTestFile_rules "docs/testing-notes.txt"
                                    "text_chunk") eq_refl)) eq_refl).
    reflexivity.
Defined.

End IsTestFile.

Section UniqueTestFiles.

Import SearchCommand.

Lemma map_has_spec (m : list (string * Hit)) (filePath : string) :
  map_has m filePath = true <-> In filePath (map fst m).
Proof.
  unfold map_has. rewrite existsb_exists, in_map_iff. split.
  - intros (entry & Hin & He). apply String.eqb_eq in He. now exists entry.
  - intros (entry & He & Hin). exists entry. split; [exact Hin|].
    now apply String.eqb_eq.
Qed.

Lemma map_has_false (m : list (string * Hit)) (filePath : string) :
  map_has m filePath = false <-> ~ In filePath (map fst m).
Proof.
  rewrite <- map_has_spec. destruct (map_has m filePath); split;
    congruence.
Qed.

Lemma keyed_snoc (m : list (string * Hit)) (hit : Hit) :
  keyed m -> keyed (m ++ [(hit_path hit, hit)]).
Proof.
  intros Hk entry Hin. apply in_app_or in Hin.
  destruct Hin as [Hin|[<-|[]]]; [now apply Hk | reflexivity].
Qed.

Lemma nodup_snoc (A : Type) (l : list A) (x : A) :
  NoDup l -> ~ In x l -> NoDup (l ++ [x]).
Proof.
  intros Hl Hx. induction Hl as [|y l Hy Hl IH]; simpl.
  - constructor; [intros [] | constructor].
  - constructor.
    + intros Hin. apply in_app_or in Hin. destruct Hin as [Hin|[->|[]]].
      * now apply Hy.
      * apply Hx. now left.
    + apply IH. intros Hin. apply Hx. now right.
Qed.

(** What the loop over the hits makes of the map filled so far. *)
Lemma fill_map_spec (hits : list Hit) :
  forall m,
    keyed m -> NoDup (map fst m) ->
    keyed (fill_map hits m)
    /\ NoDup (map fst (fill_map hits m))
    /\ (exists added,
           fill_map hits m = (m ++ added)%list
           /\ (forall entry, In entry added -> In (snd entry) hits)
           /\ List.length added <= List.length hits)
    /\ (forall hit, In hit hits ->
                    In (hit_path hit) (map fst (fill_map hits m))).
Proof.
  induction hits as [|hit rest IH]; intros m Hk Hn.
  - simpl. repeat split; try assumption.
    + exists []. rewrite app_nil_r. repeat split; [intros _ [] | simpl; lia].
    + intros _ [].
  - cbn [fill_map].
    destruct (map_has m (hit_path hit)) eqn:E; cbn [negb].
    + destruct (IH m Hk Hn) as (Hk' & Hn' & (added & Ha & Hin & Hlen) & Hall).
      repeat split; try assumption.
      * exists added. repeat split; [exact Ha | | simpl; lia].
        intros entry He. right. now apply Hin.
      * intros h [<-|Hh]; [|now apply Hall].
        rewrite Ha, map_app. apply in_or_app. left.
        now apply map_has_spec.
    + assert (Hk1 : keyed (m ++ [(hit_path hit, hit)])) by
        now apply keyed_snoc.
      assert (Hn1 : NoDup (map fst (m ++ [(hit_path hit, hit)]))).
      { rewrite map_app. apply nodup_snoc; [exact Hn|].
        now apply map_has_false. }
      destruct (IH _ Hk1 Hn1)
        as (Hk' & Hn' & (added & Ha & Hin & Hlen) & Hall).
      repeat split; try assumption.
      * exists ((hit_path hit, hit) :: added). repeat split.
        -- rewrite Ha, <- app_assoc. reflexivity.
        -- intros entry [<-|He]; [now left | right; now apply Hin].
        -- simpl. lia.
      * intros h [<-|Hh]; [|now apply Hall].
        rewrite Ha, !map_app. apply in_or_app. left. apply in_or_app.
        right. now left.
Qed.

(** The first hit with a path is the one the map keeps for it. *)
Lemma fill_map_first (hits : list Hit) :
  forall m earlier hit later,
    hits = (earlier ++ hit :: later)%list ->
    ~ In (hit_path hit) (map hit_path earlier) ->
    ~ In (hit_path hit) (map fst m) ->
    keyed m -> NoDup (map fst m) ->
    In (hit_path hit, hit) (fill_map hits m).
Proof.
  induction hits as [|x rest IH]; intros m earlier hit later He Hfresh Hm Hk Hn.
  - destruct earlier; discriminate He.
  - destruct earlier as [|y earlier]; simpl in He; injection He as -> ->.
    + cbn [fill_map]. apply map_has_false in Hm. rewrite Hm. cbn [negb].
      destruct (@fill_map_spec later (m ++ [(hit_path hit, hit)]))
        as (_ & _ & (added & -> & _) & _).
      * now apply keyed_snoc.
      * rewrite map_app. apply nodup_snoc; [exact Hn|].
        now apply map_has_false.
      * apply in_or_app. left. apply in_or_app. right. now left.
    + cbn [fill_map]. simpl in Hfresh.
      destruct (map_has m (hit_path y)) eqn:E; cbn [negb].
      * apply IH with (earlier := earlier) (later := later); auto.
      * apply IH with (earlier := earlier) (later := later); auto.
        -- rewrite map_app. intros Hin. apply in_app_or in Hin.
           destruct Hin as [Hin|[Hin|[]]]; [now apply Hm|].
           apply Hfresh. left. exact Hin.
        -- now apply keyed_snoc.
        -- rewrite map_app. apply nodup_snoc; [exact Hn|].
           now apply map_has_false.
Qed.

Lemma keyed_paths (m : list (string * Hit)) :
  keyed m -> map hit_path (map snd m) = map fst m.
Proof.
  intros Hk. induction m as [|entry m IH]; [reflexivity|].
  simpl. rewrite IH.
  - now rewrite (Hk entry (or_introl eq_refl)).
  - intros e He. apply Hk. now right.
Qed.

Lemma keyed_nil : keyed [].
Proof. intros entry []. Qed.

(** X30 (search.ts, searchCommand: the filter and the map that removes
    duplicates).  The hits shown have pairwise different paths; each of them
    is a hit of the reply that [isTestFile] accepts; every accepted hit of
    the reply has its path among the paths shown; the hit shown for a path
    is the first accepted hit with that path; and no more hits are shown
    than the reply holds. *)
Theorem uniqueTestFiles_spec (results : list Hit) :
  NoDup (map hit_path (uniqueTestFiles results))
  /\ (forall hit, In hit (uniqueTestFiles results) ->
        In hit results /\ isTestFile (hit_path hit) (hit_type hit) = true)
  /\ (forall hit, In hit results ->
        isTestFile (hit_path hit) (hit_type hit) = true ->
        In (hit_path hit) (map hit_path (uniqueTestFiles results)))
  /\ (forall earlier hit later,
        testFiles results = (earlier ++ hit :: later)%list ->
        ~ In (hit_path hit) (map hit_path earlier) ->
        In hit (uniqueTestFiles results))
  /\ List.length (uniqueTestFiles results) <= List.length results.
Proof.
  unfold uniqueTestFiles.
  destruct (@fill_map_spec (testFiles results) [] keyed_nil (NoDup_nil _))
    as (Hk & Hn & (added & Ha & Hin & Hlen) & Hall).
  rewrite (keyed_paths Hk). split; [exact Hn|]. split; [|split; [|split]].
  - intros hit Hh. apply in_map_iff in Hh. destruct Hh as (entry & <- & He).
    rewrite Ha in He. simpl in He. apply Hin in He.
    unfold testFiles in He. apply filter_In in He. exact He.
  - intros hit Hh Ht. apply Hall. unfold testFiles. apply filter_In.
    now split.
  - intros earlier hit later He Hfresh.
    apply in_map_iff. exists (hit_path hit, hit). split; [reflexivity|].
    apply fill_map_first with (earlier := earlier) (later := later);
      auto using keyed_nil, NoDup_nil.
  - rewrite length_map, Ha. simpl.
    pose proof (filter_length_le
                  (fun hit => isTestFile (hit_path hit) (hit_type hit))
                  results) as Hf.
    unfold testFiles in Hlen. lia.
Qed.

Lemma uniqueTestFiles_spec_witness :
  In (nth 0 sample_hits (mkHit None None)) (uniqueTestFiles sample_hits)
  /\ In "docs/testing-notes.txt"
       (map hit_path (uniqueTestFiles sample_hits))
  /\ (forall hit, In hit (uniqueTestFiles sample_hits) ->
        isTestFile (hit_path hit) (hit_type hit) = true).
Proof.
  split; [|split].
  - apply (proj1 (proj2 (proj2 (proj2 (uniqueTestFiles_spec sample_hits))))
             [] _ (skipn 1 (testFiles sample_hits)));
      [reflexivity | intros []].
  - apply (proj1 (proj2 (proj2 (uniqueTestFiles_spec sample_hits)))
             (nth 4 sample_hits (mkHit None None)));
      [simpl; tauto | reflexivity].
  - intros hit Hh.
    apply (proj1 (proj2 (uniqueTestFiles_spec sample_hits)) hit Hh).
Defined.

End UniqueTestFiles.

